(** * file-utility: the Encrypt/Decrypt page and the Zip page

    A shallow embedding of [pages/1_Encrypt_Decrypt_Tool.py] and
    [pages/2_Zip_File_Tool.py].  Both pages are Streamlit scripts: one
    top-to-bottom run per user interaction, reading the widget values,
    mutating [st.session_state], touching the file system under a
    temporary directory and spawning one external process.

    The embedding keeps these effects explicit:
    - the file system is a finite map from paths to nodes;
    - the interpreter's environment (PATH lookup, the behaviour of spawned
      programs, the name [tempfile.mkdtemp] draws, whether [shutil.rmtree]
      fails, the [mimetypes] table) is a record [World] of oracles;
    - a script run is a computation in a state-and-exception monad whose
      state holds the file system, the session state and the trace of
      everything the run showed or did. *)

From Stdlib Require Import ZArith NArith QArith Ascii String.
From Stdlib.Strings Require Import Byte.
From stdpp Require Import base tactics option list strings gmap pretty.

Local Open Scope Z_scope.

(** ** Python string and bytes operations used by the pages *)

Module Py.

Definition bytes := list byte.

(** [c.lower()] on one character; letters outside ASCII are left as they
  are. *)
Definition lower_ascii (c : ascii) : ascii :=
  let n := N_of_ascii c in
  if ((65 <=? n) && (n <=? 90))%N then ascii_of_N (n + 32) else c.

(** [s.lower()] *)
Fixpoint lower (s : string) : string :=
  match s with
  | EmptyString => EmptyString
  | String c s' => String (lower_ascii c) (lower s')
  end.

(** [s.startswith(p)] *)
Definition startswith (p s : string) : bool := String.prefix p s.

(** [s.endswith(suf)] *)
Fixpoint endswith (suf s : string) : bool :=
  if String.eqb s suf then true
  else match s with
       | EmptyString => false
       | String _ s' => endswith suf s'
       end.

(** [needle in hay] *)
Fixpoint contains (needle hay : string) : bool :=
  if String.prefix needle hay then true
  else match hay with
       | EmptyString => false
       | String _ hay' => contains needle hay'
       end.

(** White space as [str.strip] sees it.  A [str] is kept as the bytes of
    its UTF-8 form, so the characters Python counts as white space are
    one, two or three bytes long: the ASCII characters 9 to 13 and 28 to
    32; U+0085 and U+00A0; U+1680, U+2000 to U+200A, U+2028, U+2029,
    U+202F, U+205F and U+3000. *)
Definition is_space (c : ascii) : bool :=
  let n := N_of_ascii c in
  (((9 <=? n) && (n <=? 13)) || ((28 <=? n) && (n <=? 32)))%N.

Definition is_space2 (a b : ascii) : bool :=
  ((N_of_ascii a =? 194) && ((N_of_ascii b =? 133) || (N_of_ascii b =? 160)))%N.

Definition is_space3 (a b c : ascii) : bool :=
  let x := N_of_ascii a in
  let y := N_of_ascii b in
  let z := N_of_ascii c in
  (((x =? 225) && (y =? 154) && (z =? 128))
   || ((x =? 226) && (y =? 128)
       && (((128 <=? z) && (z <=? 138)) || (z =? 168) || (z =? 169) || (z =? 175)))
   || ((x =? 226) && (y =? 129) && (z =? 159))
   || ((x =? 227) && (y =? 128) && (z =? 128)))%N.

(** [s.lstrip()] *)
Fixpoint lstrip (s : string) : string :=
  match s with
  | EmptyString => EmptyString
  | String a r1 =>
    if is_space a then lstrip r1
    else match r1 with
         | EmptyString => s
         | String b r2 =>
           if is_space2 a b then lstrip r2
           else match r2 with
                | EmptyString => s
                | String c r3 => if is_space3 a b c then lstrip r3 else s
                end
         end
  end.

(** The same on a reversed string, in which the bytes of a character come
    last byte first. *)
Fixpoint lstrip_reversed (s : string) : string :=
  match s with
  | EmptyString => EmptyString
  | String a r1 =>
    if is_space a then lstrip_reversed r1
    else match r1 with
         | EmptyString => s
         | String b r2 =>
           if is_space2 b a then lstrip_reversed r2
           else match r2 with
                | EmptyString => s
                | String c r3 => if is_space3 c b a then lstrip_reversed r3 else s
                end
         end
  end.

(** [s.rstrip()] *)
Definition rstrip (s : string) : string :=
  String.rev (lstrip_reversed (String.rev s)).

(** [s.strip()] *)
Definition strip (s : string) : string := rstrip (lstrip s).

(** [sep.join(ls)] *)
Definition join (sep : string) (ls : list string) : string :=
  String.concat sep ls.

(** [not s] for a string. *)
Definition is_empty (s : string) : bool :=
  match s with EmptyString => true | _ => false end.

(** [len(b)] as a number. *)
Definition len {A} (l : list A) : N :=
  fold_left (fun n _ => N.succ n) l 0%N.

(** [f.read(n)] and [b[:n]]: at most the first [n] items. *)
Fixpoint prefix_upto {A} (n : N) (l : list A) : list A :=
  match l with
  | [] => []
  | x :: l' => if (n =? 0)%N then [] else x :: prefix_upto (N.pred n) l'
  end.

(** *** [bytes.hex(' ')] *)

Definition hex_digit (n : N) : ascii :=
  if (n <? 10)%N then ascii_of_N (48 + n) else ascii_of_N (87 + n).

Definition hex_byte (b : byte) : string :=
  let n := Byte.to_N b in
  String (hex_digit (n / 16)) (String (hex_digit (n mod 16)) EmptyString).

Definition hex (sep : string) (b : bytes) : string :=
  join sep (map hex_byte b).

End Py.

(** *** [bytes.decode('utf-8')] and [str.splitlines()]

    A decoded [str] is kept as its UTF-8 bytes, so decoding is the strict
    well-formedness check of the codec (no overlong forms, no surrogates,
    nothing above U+10FFFF) and fails with [None] where Python raises
    [UnicodeDecodeError]. *)

Module Utf8.

Definition cont (b : N) : bool := ((128 <=? b) && (b <=? 191))%N.
Definition between (lo hi b : N) : bool := ((lo <=? b) && (b <=? hi))%N.

Fixpoint valid (l : list N) : bool :=
  match l with
  | [] => true
  | b0 :: r0 =>
    if (b0 <? 128)%N then valid r0
    else if between 194 223 b0 then
      match r0 with
      | b1 :: r1 => cont b1 && valid r1
      | _ => false
      end
    else if between 224 239 b0 then
      match r0 with
      | b1 :: b2 :: r2 =>
        (if (b0 =? 224)%N then between 160 191 b1
         else if (b0 =? 237)%N then between 128 159 b1
         else cont b1)
        && cont b2 && valid r2
      | _ => false
      end
    else if between 240 244 b0 then
      match r0 with
      | b1 :: b2 :: b3 :: r3 =>
        (if (b0 =? 240)%N then between 144 191 b1
         else if (b0 =? 244)%N then between 128 143 b1
         else cont b1)
        && cont b2 && cont b3 && valid r3
      | _ => false
      end
    else false
  end.

Definition decode (b : Py.bytes) : option string :=
  if valid (map Byte.to_N b) then Some (string_of_list_byte b) else None.

(** Line boundaries of [str.splitlines]: LF, VT, FF, CR, CRLF, FS, GS, RS,
    NEL (C2 85), LS and PS (E2 80 A8, E2 80 A9). *)
Definition single_break (n : N) : bool :=
  ((n =? 10) || (n =? 11) || (n =? 12) || (n =? 28) || (n =? 29) || (n =? 30))%N.

Fixpoint splitlines_go (cur : string) (s : string) : list string :=
  match s with
  | EmptyString => if Py.is_empty cur then [] else [String.rev cur]
  | String c s1 =>
    let n := N_of_ascii c in
    if (n =? 13)%N then
      match s1 with
      | String c1 s2 =>
        if (N_of_ascii c1 =? 10)%N then String.rev cur :: splitlines_go EmptyString s2
        else String.rev cur :: splitlines_go EmptyString s1
      | EmptyString => String.rev cur :: splitlines_go EmptyString s1
      end
    else if single_break n then String.rev cur :: splitlines_go EmptyString s1
    else if (n =? 194)%N then
      match s1 with
      | String c1 s2 =>
        if (N_of_ascii c1 =? 133)%N then String.rev cur :: splitlines_go EmptyString s2
        else splitlines_go (String c cur) s1
      | EmptyString => splitlines_go (String c cur) s1
      end
    else if (n =? 226)%N then
      match s1 with
      | String c1 (String c2 s3) =>
        if ((N_of_ascii c1 =? 128) && ((N_of_ascii c2 =? 168) || (N_of_ascii c2 =? 169)))%N
        then String.rev cur :: splitlines_go EmptyString s3
        else splitlines_go (String c cur) s1
      | _ => splitlines_go (String c cur) s1
      end
    else splitlines_go (String c cur) s1
  end.

Definition splitlines (s : string) : list string := splitlines_go EmptyString s.

End Utf8.

(** *** Fixed-point formatting: [f"{num / den:.2f}"] and [f"{num / den:.0f}"]

    The pages only format quotients by a power of two, which are exact as
    floats for every size below 2^53, so the digits are those of the exact
    quotient rounded half-to-even. *)

Module Fmt.

Definition round_half_even (num den : N) : N :=
  let q := (num / den)%N in
  let r := (num mod den)%N in
  if (den <? 2 * r)%N then (q + 1)%N
  else if ((2 * r =? den) && N.odd q)%N then (q + 1)%N
  else q.

Definition two_digits (n : N) : string :=
  if (n <? 10)%N then "0" +:+ pretty n else pretty n.

Definition fixed2 (num den : N) : string :=
  let h := round_half_even (num * 100) den in
  pretty (h / 100)%N +:+ "." +:+ two_digits (h mod 100)%N.

Definition fixed0 (num den : N) : string :=
  pretty (round_half_even num den).

End Fmt.

(** ** Exceptions *)

Inductive exn_kind :=
  | FileNotFoundError | FileExistsError | IsADirectoryError | NotADirectoryError
  | PermissionError | OtherOSError
  | TimeoutExpired | UnicodeDecodeError | OtherException.

(** An exception with the text [str(e)] gives. *)
Record exn := Exn { exn_kind_of : exn_kind; exn_str : string }.

(** [isinstance(e, OSError)] *)
Definition is_OSError (e : exn) : bool :=
  match exn_kind_of e with
  | FileNotFoundError | FileExistsError | IsADirectoryError | NotADirectoryError
  | PermissionError | OtherOSError => true
  | _ => false
  end.

Definition errno_exn (k : exn_kind) (text path : string) : exn :=
  Exn k (text +:+ ": '" +:+ path +:+ "'").

(** ** The file system *)

Inductive node :=
  | File (data : Py.bytes)
  | Dir.

Abbreviation FS := (gmap string node).

Module Os.

(** [os.path.join(a, b)] of posixpath. *)
Definition path_join (a b : string) : string :=
  if Py.startswith "/" b then b
  else if Py.is_empty a || Py.endswith "/" a then a +:+ b
  else a +:+ "/" +:+ b.

(** [os.path.exists(p)] *)
Definition path_exists (fs : FS) (p : string) : bool :=
  match fs !! p with Some _ => true | None => false end.

(** The part of [p] up to and including its last slash, if it has one. *)
Fixpoint head_upto_last_slash (p : string) : option string :=
  match p with
  | EmptyString => None
  | String c p' =>
    match head_upto_last_slash p' with
    | Some h => Some (String c h)
    | None => if Ascii.eqb c "/" then Some (String c EmptyString) else None
    end
  end.

Fixpoint all_slashes (s : string) : bool :=
  match s with
  | EmptyString => true
  | String c s' => Ascii.eqb c "/" && all_slashes s'
  end.

(** [s.rstrip('/')] *)
Fixpoint rstrip_slashes (s : string) : string :=
  match s with
  | EmptyString => EmptyString
  | String c s' =>
    match rstrip_slashes s' with
    | EmptyString => if Ascii.eqb c "/" then EmptyString else String c EmptyString
    | r => String c r
    end
  end.

(** [os.path.dirname(p)] of posixpath. *)
Definition path_dirname (p : string) : string :=
  match head_upto_last_slash p with
  | None => EmptyString
  | Some head => if all_slashes head then head else rstrip_slashes head
  end.

(** ['/' not in s] *)
Fixpoint no_slash (s : string) : bool :=
  match s with
  | EmptyString => true
  | String c s' => negb (Ascii.eqb c "/") && no_slash s'
  end.

(** Whether a file can be created in directory [d]; the root and the
    current directory are taken to exist. *)
Definition dir_check (fs : FS) (d path : string) : option exn :=
  if Py.is_empty d || String.eqb d "/" then None
  else match fs !! d with
       | Some Dir => None
       | Some (File _) => Some (errno_exn NotADirectoryError "[Errno 20] Not a directory" path)
       | None => Some (errno_exn FileNotFoundError "[Errno 2] No such file or directory" path)
       end.

(** [open(p, "wb")] followed by [f.write(data)]. *)
Definition write_file (fs : FS) (p : string) (data : Py.bytes) : exn + FS :=
  match fs !! p with
  | Some Dir => inl (errno_exn IsADirectoryError "[Errno 21] Is a directory" p)
  | _ =>
    match dir_check fs (path_dirname p) p with
    | Some e => inl e
    | None => inr (<[p := File data]> fs)
    end
  end.

(** [open(p, "rb")]; the caller then reads from the returned bytes. *)
Definition open_rb (fs : FS) (p : string) : exn + Py.bytes :=
  match fs !! p with
  | Some (File data) => inr data
  | Some Dir => inl (errno_exn IsADirectoryError "[Errno 21] Is a directory" p)
  | None => inl (errno_exn FileNotFoundError "[Errno 2] No such file or directory" p)
  end.

(** [os.path.getsize(p)]; a directory reports one block. *)
Definition path_getsize (fs : FS) (p : string) : exn + N :=
  match fs !! p with
  | Some (File data) => inr (Py.len data)
  | Some Dir => inr 4096%N
  | None => inl (errno_exn FileNotFoundError "[Errno 2] No such file or directory" p)
  end.

(** [os.remove(p)] *)
Definition remove (fs : FS) (p : string) : exn + FS :=
  match fs !! p with
  | Some (File _) => inr (delete p fs)
  | Some Dir => inl (errno_exn IsADirectoryError "[Errno 21] Is a directory" p)
  | None => inl (errno_exn FileNotFoundError "[Errno 2] No such file or directory" p)
  end.

(** Whether [p] is [d] itself or lies below it. *)
Definition under (d p : string) : bool :=
  String.eqb p d || Py.startswith (d +:+ "/") p.

(** What a successful [shutil.rmtree(d)] leaves. *)
Definition remove_tree (fs : FS) (d : string) : FS :=
  filter (fun kv => under d kv.1 = false) fs.

End Os.

(** [os.path.splitext] *)

Module OsPath.

(** The part of [s] before its last dot and the part from that dot on. *)
Fixpoint split_last_dot (s : string) : option (string * string) :=
  match s with
  | EmptyString => None
  | String c s' =>
    match split_last_dot s' with
    | Some (root, ext) => Some (String c root, ext)
    | None => if Ascii.eqb c "." then Some (EmptyString, s) else None
    end
  end.

Fixpoint all_dots (s : string) : bool :=
  match s with
  | EmptyString => true
  | String c s' => Ascii.eqb c "." && all_dots s'
  end.

Fixpoint drop_string (n : nat) (s : string) : string :=
  match n, s with
  | O, _ => s
  | S n', String _ s' => drop_string n' s'
  | S _, EmptyString => EmptyString
  end.

(** [os.path.splitext(p)] of posixpath. *)
Definition splitext (p : string) : string * string :=
  let head := default EmptyString (Os.head_upto_last_slash p) in
  let tail := drop_string (String.length head) p in
  match split_last_dot tail with
  | Some (root, ext) => if all_dots root then (p, EmptyString) else (head +:+ root, ext)
  | None => (p, EmptyString)
  end.

End OsPath.

(** ** The environment of a run *)

(** What a spawned program does: when it exits on its own (after how many
    seconds, with which exit code and output), and what the file system
    looks like [t] seconds after it started (from its exit on: what it
    left behind). *)
Record Behaviour := {
  b_exit : option (Q * Z * string * string);
  b_fs : Q -> FS;
  (** [Some text] when what the program wrote to its standard output or
      standard error cannot be decoded as text ([text=True] decodes with
      the locale's encoding); [text] is the [str(e)] of the
      [UnicodeDecodeError].  The texts of [b_exit] are then not used. *)
  b_undecodable : option string
}.

Record World := {
  (** [shutil.which(name) is not None] *)
  w_which : string -> bool;
  (** the program behind a command line, started on a file system; [inl]
      when starting it raises, so that it never runs *)
  w_exec : list string -> FS -> exn + Behaviour;
  (** the random part of the name [tempfile.mkdtemp] draws, or its failure *)
  w_mkdtemp : exn + string;
  (** the error [shutil.rmtree] runs into, if any *)
  w_rmtree : option exn;
  (** [mimetypes.guess_type(path)[0]] *)
  w_guess_type : string -> option string
}.

(** ** Session state, trace and script state *)

Inductive status := StatusSuccess | StatusFail.

Inductive wval :=
  | WText (s : string)
  | WFile (name : string) (data : Py.bytes).

Record Session := {
  output_content : option Py.bytes;
  output_filename : option string;
  operation_status : option status;
  output_zip_content : option Py.bytes;
  output_zip_filename : option string;
  zip_operation_status : option status;
  (** initialised to 0 by the Zip page *)
  zip_clear_trigger : N;
  (** widget values kept by Streamlit, by widget identity *)
  widgets : gmap string wval
}.

Definition initial_session : Session :=
  {| output_content := None; output_filename := None; operation_status := None;
     output_zip_content := None; output_zip_filename := None;
     zip_operation_status := None; zip_clear_trigger := 0; widgets := ∅ |}.

Definition set_output_content (v : option Py.bytes) (x : Session) : Session :=
  {| output_content := v; output_filename := output_filename x;
     operation_status := operation_status x;
     output_zip_content := output_zip_content x;
     output_zip_filename := output_zip_filename x;
     zip_operation_status := zip_operation_status x;
     zip_clear_trigger := zip_clear_trigger x; widgets := widgets x |}.
Definition set_output_filename (v : option string) (x : Session) : Session :=
  {| output_content := output_content x; output_filename := v;
     operation_status := operation_status x;
     output_zip_content := output_zip_content x;
     output_zip_filename := output_zip_filename x;
     zip_operation_status := zip_operation_status x;
     zip_clear_trigger := zip_clear_trigger x; widgets := widgets x |}.
Definition set_operation_status (v : option status) (x : Session) : Session :=
  {| output_content := output_content x; output_filename := output_filename x;
     operation_status := v;
     output_zip_content := output_zip_content x;
     output_zip_filename := output_zip_filename x;
     zip_operation_status := zip_operation_status x;
     zip_clear_trigger := zip_clear_trigger x; widgets := widgets x |}.
Definition set_output_zip_content (v : option Py.bytes) (x : Session) : Session :=
  {| output_content := output_content x; output_filename := output_filename x;
     operation_status := operation_status x;
     output_zip_content := v;
     output_zip_filename := output_zip_filename x;
     zip_operation_status := zip_operation_status x;
     zip_clear_trigger := zip_clear_trigger x; widgets := widgets x |}.
Definition set_output_zip_filename (v : option string) (x : Session) : Session :=
  {| output_content := output_content x; output_filename := output_filename x;
     operation_status := operation_status x;
     output_zip_content := output_zip_content x;
     output_zip_filename := v;
     zip_operation_status := zip_operation_status x;
     zip_clear_trigger := zip_clear_trigger x; widgets := widgets x |}.
Definition set_zip_operation_status (v : option status) (x : Session) : Session :=
  {| output_content := output_content x; output_filename := output_filename x;
     operation_status := operation_status x;
     output_zip_content := output_zip_content x;
     output_zip_filename := output_zip_filename x;
     zip_operation_status := v;
     zip_clear_trigger := zip_clear_trigger x; widgets := widgets x |}.
Definition set_zip_clear_trigger (v : N) (x : Session) : Session :=
  {| output_content := output_content x; output_filename := output_filename x;
     operation_status := operation_status x;
     output_zip_content := output_zip_content x;
     output_zip_filename := output_zip_filename x;
     zip_operation_status := zip_operation_status x;
     zip_clear_trigger := v; widgets := widgets x |}.
Definition set_widgets (v : gmap string wval) (x : Session) : Session :=
  {| output_content := output_content x; output_filename := output_filename x;
     operation_status := operation_status x;
     output_zip_content := output_zip_content x;
     output_zip_filename := output_zip_filename x;
     zip_operation_status := zip_operation_status x;
     zip_clear_trigger := zip_clear_trigger x; widgets := v |}.

Inductive slot :=
  | PageBody | StatusSlot | InputPreviewSlot | OutputPreviewSlot | DownloadSlot.

Inductive level := LError | LWarning | LInfo | LSuccess | LText.

Inductive event :=
  | Show (target : slot) (lv : level) (text : string)
  | Emptied (target : slot)
  | DownloadButton (label : string) (data : Py.bytes) (file_name mime : string)
  | Mkdtemp (path : string)
  | SubprocessRun (command : list string) (timeout : Z)
  | Killed (command : list string)
  | Rmtree (path : string).

Record St := {
  fs : FS;
  session : Session;
  (** the script variable [temp_dir] *)
  temp_dir : option string;
  trace : list event
}.

Definition with_fs (f : FS) (s : St) : St :=
  {| fs := f; session := session s; temp_dir := temp_dir s; trace := trace s |}.
Definition with_session (x : Session) (s : St) : St :=
  {| fs := fs s; session := x; temp_dir := temp_dir s; trace := trace s |}.
Definition with_temp_dir (d : option string) (s : St) : St :=
  {| fs := fs s; session := session s; temp_dir := d; trace := trace s |}.
Definition with_event (e : event) (s : St) : St :=
  {| fs := fs s; session := session s; temp_dir := temp_dir s; trace := trace s ++ [e] |}.

Definition fresh_run (f : FS) (x : Session) : St :=
  {| fs := f; session := x; temp_dir := None; trace := [] |}.

(** ** The script monad: state, Python exceptions, and script control

    [Halt] is how [st.stop()] and [st.rerun()] end a run; it is not an
    [Exception], so no [except Exception] catches it. *)

Inductive outcome (A : Type) :=
  | Ret (a : A)
  | Raise (e : exn)
  | Halt.
Arguments Ret {A} a.
Arguments Raise {A} e.
Arguments Halt {A}.

Definition M (A : Type) : Type := St -> outcome A * St.

Definition ret {A} (a : A) : M A := fun s => (Ret a, s).
Definition bind {A B} (m : M A) (k : A -> M B) : M B :=
  fun s => match m s with
           | (Ret a, s') => k a s'
           | (Raise e, s') => (Raise e, s')
           | (Halt, s') => (Halt, s')
           end.
Definition raise {A} (e : exn) : M A := fun s => (Raise e, s).
Definition halt {A} : M A := fun s => (Halt, s).

#[global] Instance M_ret : MRet M := @ret.
#[global] Instance M_bind : MBind M := fun A B k m => bind m k.

Definition get_fs : M FS := fun s => (Ret (fs s), s).
Definition put_fs (f : FS) : M unit := fun s => (Ret tt, with_fs f s).
Definition get_session : M Session := fun s => (Ret (session s), s).
Definition put_session (x : Session) : M unit := fun s => (Ret tt, with_session x s).
Definition get_temp_dir : M (option string) := fun s => (Ret (temp_dir s), s).
Definition set_temp_dir (d : option string) : M unit := fun s => (Ret tt, with_temp_dir d s).
Definition emit (e : event) : M unit := fun s => (Ret tt, with_event e s).

(** An assignment to a key of [st.session_state]. *)
Definition assign (upd : Session -> Session) : M unit :=
  fun s => (Ret tt, with_session (upd (session s)) s).

(** Lift a file-system operation that returns a value. *)
Definition fs_read {A} (op : FS -> exn + A) : M A :=
  fun s => match op (fs s) with
           | inl e => (Raise e, s)
           | inr a => (Ret a, s)
           end.

(** Lift a file-system operation that changes the file system. *)
Definition fs_update (op : FS -> exn + FS) : M unit :=
  fun s => match op (fs s) with
           | inl e => (Raise e, s)
           | inr f => (Ret tt, with_fs f s)
           end.

(** [try: m  except Exception as e: h e] *)
Definition try_except {A} (m : M A) (h : exn -> M A) : M A :=
  fun s => match m s with
           | (Raise e, s') => h e s'
           | r => r
           end.

(** [try: m  finally: f] *)
Definition try_finally {A} (m : M A) (f : M unit) : M A :=
  fun s => let '(r, s') := m s in
           match f s' with
           | (Ret _, s'') => (r, s'')
           | (Raise e, s'') => (Raise e, s'')
           | (Halt, s'') => (Halt, s'')
           end.

Definition when (b : bool) (m : M unit) : M unit :=
  if b then m else ret tt.

Definition nl : string := String "010" EmptyString.
Definition fence : string := "```".

(** ** Library calls with effects *)

Definition workspace_path (name : string) : string := "/tmp/tmp" +:+ name.

(** [tempfile.mkdtemp()]: a new directory [/tmp/tmp<random>].  The library
    draws further names when one is taken and gives up with
    [FileExistsError] in the end; here one name is drawn. *)
Definition mkdtemp (w : World) : M string :=
  match w_mkdtemp w with
  | inl e => raise e
  | inr name =>
    let path := workspace_path name in
    f ← get_fs;
    if Os.path_exists f path
    then raise (errno_exn FileExistsError "[Errno 17] File exists" path)
    else put_fs (<[path := Dir]> f) ;; emit (Mkdtemp path) ;; ret path
  end.

(** [shutil.rmtree(d)] *)
Definition rmtree (w : World) (d : string) : M unit :=
  emit (Rmtree d) ;;
  match w_rmtree w with
  | Some e => raise e
  | None =>
    f ← get_fs;
    match f !! d with
    | Some Dir => put_fs (Os.remove_tree f d)
    | Some (File _) => raise (errno_exn NotADirectoryError "[Errno 20] Not a directory" d)
    | None => raise (errno_exn FileNotFoundError "[Errno 2] No such file or directory" d)
    end
  end.

Record CompletedProcess := {
  returncode : Z;
  stdout : string;
  stderr : string
}.

(** How a call of [subprocess.run(command, ..., timeout=timeout)] on file
    system [f] ends: the child runs until it exits or [timeout] seconds
    have passed; in the second case it is killed and [TimeoutExpired] is
    raised once it is gone.  When the child has exited in time but its
    output cannot be decoded, [UnicodeDecodeError] is raised after the
    child has done its work.  [NotRun] is a child that could not be
    started. *)
Inductive run_result :=
  | Completed (p : CompletedProcess) (f' : FS)
  | TimedOut (f' : FS)
  | Undecoded (e : exn) (f' : FS)
  | NotRun (e : exn).

Definition resolve (w : World) (command : list string) (timeout : Z) (f : FS)
  : run_result :=
  if negb (w_which w (hd EmptyString command))
  then NotRun (errno_exn FileNotFoundError "[Errno 2] No such file or directory"
                 (hd EmptyString command))
  else
    match w_exec w command f with
    | inl e => NotRun e
    | inr b =>
      match b_exit b with
      | Some (t, rc, out, err) =>
        if Qle_bool t (inject_Z timeout)
        then match b_undecodable b with
             | Some text => Undecoded (Exn UnicodeDecodeError text) (b_fs b t)
             | None =>
               Completed {| returncode := rc; stdout := out; stderr := err |} (b_fs b t)
             end
        else TimedOut (b_fs b (inject_Z timeout))
      | None => TimedOut (b_fs b (inject_Z timeout))
      end
    end.

(** [subprocess.run(command, check=False, capture_output=True, text=True,
    timeout=timeout)] *)
Definition subprocess_run (w : World) (command : list string) (timeout : Z)
  : M CompletedProcess :=
  emit (SubprocessRun command timeout) ;;
  f ← get_fs;
  match resolve w command timeout f with
  | Completed p f' => put_fs f' ;; ret p
  | TimedOut f' =>
    put_fs f' ;; emit (Killed command) ;;
    raise (Exn TimeoutExpired
             ("Command timed out after " +:+ pretty timeout +:+ " seconds"))
  | Undecoded e f' => put_fs f' ;; raise e
  | NotRun e => raise e
  end.

Definition is_fail (o : option status) : bool :=
  match o with Some StatusFail => true | _ => false end.
Definition is_success (o : option status) : bool :=
  match o with Some StatusSuccess => true | _ => false end.

(** ** What the user submitted in one run *)

Inductive Operation := Encrypt | Decrypt.

Definition operation_name (op : Operation) : string :=
  match op with Encrypt => "Encrypt" | Decrypt => "Decrypt" end.

Record Upload := { up_name : string; up_data : Py.bytes }.

(** The widget values of one run.  [password_confirm] is only read where
    its field is shown. *)
Record Inputs := {
  operation : Operation;
  uploaded_file : option Upload;
  password : string;
  password_confirm : string;
  output_filename_user : string;
  run_button : bool;
  clear_button : bool
}.

Definition truthy_bytes (o : option Py.bytes) : bool :=
  match o with Some (_ :: _) => true | _ => false end.

(** ** Widgets

    Streamlit keeps the value of a widget under the widget's identity: its
    [key] when one is given, otherwise an identity computed from the kind
    of widget, its label and its other arguments.  A widget whose identity
    has no stored value shows its default. *)

Module Streamlit.

Definition auto_id (kind label : string) (params : list string) : string :=
  Py.join "|" (kind :: label :: params).

Definition text_input (x : Session) (id value : string) : string :=
  match widgets x !! id with
  | Some (WText s) => s
  | _ => value
  end.

Definition file_uploader (x : Session) (id : string) : option Upload :=
  match widgets x !! id with
  | Some (WFile name data) => Some {| up_name := name; up_data := data |}
  | _ => None
  end.

(** What the user clicked to cause the run. *)
Inductive click := NoClick | ClickRun | ClickClear.

(** The user types into, or uploads to, the widget with identity [id]. *)
Definition enter (id : string) (v : wval) (x : Session) : Session :=
  set_widgets (<[id := v]> (widgets x)) x.

(** What Streamlit does to the stored widget values when a run is over:
    the value of every widget the run did not create is discarded. *)
Definition forget_stale (created : list string) (x : Session) : Session :=
  set_widgets (filter (fun kv => existsb (String.eqb kv.1) created = true) (widgets x)) x.

(** One run of a script that creates the widgets [created]: the script
    itself, then the discarding of stale widget values.  The discarding
    takes place when the script comes to its end or is ended by
    [st.stop()] or [st.rerun()]; after an exception that nothing caught
    the stored values are left as they are. *)
Definition run_script (created : list string) (m : M unit) : M unit :=
  fun s => match m s with
           | (Raise e, s') => (Raise e, s')
           | (r, s') => (r, with_session (forget_stale created (session s')) s')
           end.

End Streamlit.

(** ** pages/1_Encrypt_Decrypt_Tool.py *)

Module EncryptDecrypt.

Definition OPENSSL_COMMAND : string := "openssl".
Definition ENCRYPTION_CIPHER : string := "aes-256-cbc".
Definition PREVIEW_SIZE_LIMIT : N := 5 * 1024 * 1024.
Definition PREVIEW_LINES_LIMIT : N := 100.
Definition TIMEOUT : Z := 60.

Definition check_openssl (w : World) : M unit :=
  if w_which w OPENSSL_COMMAND then ret tt
  else
    emit (Show PageBody LError
            ("CRITICAL ERROR: '" +:+ OPENSSL_COMMAND +:+
             "' command not found. Please ensure OpenSSL is installed and in the system PATH.")) ;;
    halt.

Definition openssl_error_text (rc : Z) (err : string) : string :=
  "OpenSSL Error (Exit Code " +:+ pretty rc +:+ "):" +:+ nl +:+ fence +:+ nl
  +:+ Py.strip err +:+ nl +:+ fence.

Definition openssl_messages_text (err : string) : string :=
  "OpenSSL Messages (stderr):" +:+ nl +:+ fence +:+ nl +:+ Py.strip err +:+ nl +:+ fence.

Definition timeout_text : string :=
  "OpenSSL command timed out after 60 seconds.".

(** Returns [(success, stdout, stderr)].  The masked copy of the command
    that the source builds first is never used and is left out. *)
Definition run_openssl_command (w : World) (args : list string) (password : string)
  : M (bool * string * string) :=
  let command := ([OPENSSL_COMMAND] ++ args) ++ ["-pass"; "pass:" +:+ password] in
  try_except
    (process ← subprocess_run w command TIMEOUT;
     let success := (returncode process =? 0)%Z in
     (if negb success
      then emit (Show PageBody LError
                   (openssl_error_text (returncode process) (stderr process)))
      else if negb (Py.is_empty (stderr process))
      then emit (Show PageBody LWarning (openssl_messages_text (stderr process)))
      else ret tt) ;;
     ret (success, Py.strip (stdout process), Py.strip (stderr process)))
    (fun e =>
       match exn_kind_of e with
       | TimeoutExpired =>
         emit (Show PageBody LError timeout_text) ;;
         ret (false, EmptyString, "Timeout expired")
       | FileNotFoundError =>
         emit (Show PageBody LError
                 ("Error: The '" +:+ OPENSSL_COMMAND +:+
                  "' command was not found. Is OpenSSL installed and in PATH?")) ;;
         ret (false, EmptyString, "Command not found: " +:+ OPENSSL_COMMAND)
       | _ =>
         emit (Show PageBody LError
                 ("An unexpected error occurred while running OpenSSL: " +:+ exn_str e)) ;;
         ret (false, EmptyString, exn_str e)
       end).

Definition too_large_text (file_size : N) : string :=
  "(File is too large for preview: " +:+ Fmt.fixed2 file_size (1024 * 1024) +:+ " MB)".

Definition text_preview_text (preview_content : string) : string :=
  "**Preview (first " +:+ pretty PREVIEW_LINES_LIMIT +:+ " lines or "
  +:+ Fmt.fixed0 PREVIEW_SIZE_LIMIT 1024 +:+ "KB):**" +:+ nl +:+ fence +:+ nl
  +:+ preview_content +:+ nl +:+ fence.

Definition hex_preview_text (content_bytes : Py.bytes) : string :=
  "(Binary file detected or Text decoding failed)" +:+ nl
  +:+ "**Hex Preview (first 256 bytes):**" +:+ nl +:+ fence +:+ nl
  +:+ Py.hex " " (Py.prefix_upto 256 content_bytes) +:+ nl +:+ "..." +:+ fence.

Definition preview_error_text (e : exn) : string :=
  "(Error generating preview: " +:+ exn_str e +:+ ")".

(** What the text branch shows of a decoded file. *)
Definition preview_content (content_str : string) : string :=
  let lines := Utf8.splitlines content_str in
  if (PREVIEW_LINES_LIMIT <? Py.len lines)%N
  then Py.join nl (Py.prefix_upto PREVIEW_LINES_LIMIT lines) +:+ nl +:+ "... (truncated)"
  else content_str.

Definition get_file_preview (w : World) (f : FS) (file_path : string) : string :=
  match Os.path_getsize f file_path with
  | inl e => preview_error_text e
  | inr file_size =>
    if (file_size =? 0)%N then "(File is empty)"
    else if (PREVIEW_SIZE_LIMIT <? file_size)%N then too_large_text file_size
    else
      let is_likely_text :=
        match w_guess_type w file_path with
        | Some mime_type => negb (Py.is_empty mime_type) && Py.startswith "text" mime_type
        | None => false
        end in
      match Os.open_rb f file_path with
      | inl e => preview_error_text e
      | inr data =>
        let content_bytes := Py.prefix_upto PREVIEW_SIZE_LIMIT data in
        if is_likely_text then
          match Utf8.decode content_bytes with
          | Some content_str => text_preview_text (preview_content content_str)
          | None => hex_preview_text content_bytes
          end
        else hex_preview_text content_bytes
      end
  end.

End EncryptDecrypt.

Module EncryptDecryptPage.
Import EncryptDecrypt.

Definition size_text (size : N) : string :=
  "**Size:** `" +:+ Fmt.fixed2 size 1024 +:+ " KB`".

Definition filename_text (name : string) : string :=
  "**Filename:** `" +:+ name +:+ "`".

Definition download_mime (w : World) (name : string) : string :=
  match w_guess_type w name with
  | Some m => if Py.is_empty m then "application/octet-stream" else m
  | None => "application/octet-stream"
  end.

(** The three checks made before anything is staged. *)
Definition validate (i : Inputs) : M unit :=
  when (Py.is_empty (password i))
    (emit (Show StatusSlot LError "Password cannot be empty.") ;; halt) ;;
  when (match operation i with
        | Encrypt => negb (String.eqb (password i) (password_confirm i))
        | Decrypt => false
        end)
    (emit (Show StatusSlot LError "Passwords do not match.") ;; halt) ;;
  when (Py.is_empty (output_filename_user i))
    (emit (Show StatusSlot LError "Output filename cannot be empty.") ;; halt).

Definition openssl_args (op : Operation) (input_file_path output_file_path : string)
  : list string :=
  (["enc"; "-" +:+ ENCRYPTION_CIPHER; "-pbkdf2"]
   ++ match op with Decrypt => ["-d"] | Encrypt => ["-p"] end)
  ++ ["-in"; input_file_path; "-out"; output_file_path].

(** The [if success and os.path.exists(output_file_path): ... else: ...]
    statement that ends the [try]. *)
Definition conclude (w : World) (i : Inputs) (output_file_path : string)
           (success : bool) : M unit :=
  f ← get_fs;
  if success && Os.path_exists f output_file_path then
    assign (set_operation_status (Some StatusSuccess)) ;;
    content ← fs_read (fun f => Os.open_rb f output_file_path);
    assign (set_output_content (Some content)) ;;
    assign (set_output_filename (Some (output_filename_user i))) ;;
    emit (Show StatusSlot LSuccess (operation_name (operation i) +:+ " successful!")) ;;
    emit (Show OutputPreviewSlot LText (filename_text (output_filename_user i))) ;;
    emit (Show OutputPreviewSlot LText (size_text (Py.len content))) ;;
    emit (Show OutputPreviewSlot LText (get_file_preview w f output_file_path)) ;;
    emit (DownloadButton ("Download " +:+ output_filename_user i) content
            (output_filename_user i) (download_mime w (output_filename_user i)))
  else
    assign (set_operation_status (Some StatusFail)) ;;
    emit (Show StatusSlot LError
            (operation_name (operation i) +:+ " failed. See details above.")) ;;
    when (Os.path_exists f output_file_path)
      (try_except (fs_update (fun f => Os.remove f output_file_path))
         (fun e => if is_OSError e then ret tt else raise e)).

(** The body of the [try]. *)
Definition process (w : World) (i : Inputs) (up : Upload) : M unit :=
  d ← mkdtemp w;
  set_temp_dir (Some d) ;;
  let input_file_path := Os.path_join d (up_name up) in
  let output_file_path := Os.path_join d (output_filename_user i) in
  fs_update (fun f => Os.write_file f input_file_path (up_data up)) ;;
  f ← get_fs;
  emit (Show InputPreviewSlot LText (filename_text (up_name up))) ;;
  emit (Show InputPreviewSlot LText (size_text (Py.len (up_data up)))) ;;
  emit (Show InputPreviewSlot LText (get_file_preview w f input_file_path)) ;;
  let args := openssl_args (operation i) input_file_path output_file_path in
  r ← run_openssl_command w args (password i);
  conclude w i output_file_path r.1.1.

(** The [except Exception as e] clause. *)
Definition on_exception (e : exn) : M unit :=
  emit (Show StatusSlot LError ("An error occurred during processing: " +:+ exn_str e)) ;;
  assign (set_operation_status (Some StatusFail)).

Definition cleanup_warning_text (d : string) (e : exn) : string :=
  "Could not automatically clean up temporary directory " +:+ d +:+ ": " +:+ exn_str e.

(** The [finally] clause. *)
Definition cleanup (w : World) : M unit :=
  t ← get_temp_dir;
  f ← get_fs;
  match t with
  | Some d =>
    when (negb (Py.is_empty d) && Os.path_exists f d)
      (try_except (rmtree w d)
         (fun e => emit (Show PageBody LWarning (cleanup_warning_text d e))))
  | None => ret tt
  end.

(** [if run_button and uploaded_file:] *)
Definition run_block (w : World) (i : Inputs) (up : Upload) : M unit :=
  assign (set_output_content None) ;;
  assign (set_output_filename None) ;;
  assign (set_operation_status None) ;;
  emit (Show StatusSlot LInfo ("Processing " +:+ operation_name (operation i) +:+ "...")) ;;
  emit (Emptied OutputPreviewSlot) ;;
  emit (Emptied DownloadSlot) ;;
  validate i ;;
  set_temp_dir None ;;
  try_finally (try_except (process w i up) on_exception) (cleanup w).

(** [elif uploaded_file and st.session_state.operation_status != "fail":]
    the script variable [temp_dir_preview] is kept in the slot of
    [temp_dir], which this branch never reads. *)
Definition preview_block (w : World) (up : Upload) : M unit :=
  try_finally
    (try_except
       (d ← mkdtemp w;
        set_temp_dir (Some d) ;;
        let preview_input_path := Os.path_join d (up_name up) in
        fs_update (fun f => Os.write_file f preview_input_path (up_data up)) ;;
        f ← get_fs;
        emit (Show InputPreviewSlot LText (filename_text (up_name up))) ;;
        emit (Show InputPreviewSlot LText (size_text (Py.len (up_data up)))) ;;
        emit (Show InputPreviewSlot LText (get_file_preview w f preview_input_path)))
       (fun e => emit (Show InputPreviewSlot LWarning
                         ("Could not generate input preview: " +:+ exn_str e))))
    (t ← get_temp_dir;
     match t with
     | Some d => when (negb (Py.is_empty d)) (rmtree w d)
     | None => ret tt
     end).

(** [elif not uploaded_file and ... == "success" and ...output_content:]
    the file name is set whenever the status is "success". *)
Definition previous_block (w : World) (x : Session) : M unit :=
  let name := default EmptyString (output_filename x) in
  let content := default [] (output_content x) in
  emit (Show StatusSlot LSuccess "Showing previous successful result.") ;;
  emit (Show OutputPreviewSlot LText (filename_text name)) ;;
  emit (Show OutputPreviewSlot LText (size_text (Py.len content))) ;;
  emit (Show OutputPreviewSlot LInfo
          "Preview requires reprocessing. Download the file to view full content.") ;;
  emit (DownloadButton ("Download " +:+ name) content name (download_mime w name)).

(** [if st.button("Clear All"):] *)
Definition clear_all : M unit :=
  assign (set_output_content None) ;;
  assign (set_output_filename None) ;;
  assign (set_operation_status None) ;;
  halt.

(** One run of the script on the widget values [i]. *)
Definition page (w : World) (i : Inputs) : M unit :=
  check_openssl w ;;
  x ← get_session;
  match uploaded_file i with
  | Some up =>
    if run_button i then run_block w i up
    else if negb (is_fail (operation_status x)) then set_temp_dir None ;; preview_block w up
    else ret tt
  | None =>
    if is_success (operation_status x) && truthy_bytes (output_content x)
    then previous_block w x
    else ret tt
  end ;;
  when (clear_button i) clear_all.

End EncryptDecryptPage.

Module EncryptDecryptWidgets.
Import Streamlit.

Definition operation_id : string :=
  auto_id "radio" "Select Operation:" ["Encrypt"; "Decrypt"].
Definition uploader_id : string :=
  auto_id "file_uploader" "Choose a file or drag and drop" [].
Definition pwd1_key : string := "pwd1".
Definition pwd2_key : string := "pwd2".

Definition default_output_filename (op : Operation) (uploaded_file : option Upload)
  : string :=
  match uploaded_file with
  | None => EmptyString
  | Some up =>
    let '(input_base, input_ext) := OsPath.splitext (up_name up) in
    match op with
    | Encrypt => input_base +:+ ".enc"
    | Decrypt =>
      if String.eqb (Py.lower input_ext) ".enc"
      then (if Py.is_empty input_base then "decrypted_file" else input_base)
      else up_name up +:+ ".dec"
    end
  end.

Definition output_name_id (default_name : string) : string :=
  auto_id "text_input" "Desired Output Filename:"
    [default_name;
     if Py.is_empty default_name then "e.g., output.txt or archive.zip.enc"
     else default_name].

(** The values the widgets of the page return in a run. *)
Definition read_inputs (x : Session) (c : click) : Inputs :=
  let op := match widgets x !! operation_id with
            | Some (WText "Decrypt") => Decrypt
            | _ => Encrypt
            end in
  let uploaded := file_uploader x uploader_id in
  let default_name := default_output_filename op uploaded in
  {| operation := op;
     uploaded_file := uploaded;
     password := text_input x pwd1_key EmptyString;
     password_confirm := match op with
                         | Encrypt => text_input x pwd2_key EmptyString
                         | Decrypt => EmptyString
                         end;
     output_filename_user := text_input x (output_name_id default_name) default_name;
     run_button := match c, uploaded with ClickRun, Some _ => true | _, _ => false end;
     clear_button := match c with ClickClear => true | _ => false end |}.

(** The identities of the widgets with a stored value that a run creates:
    none when the run stops at the check for [openssl], which comes before
    the first widget; otherwise the radio buttons, the uploader, the
    password field, the confirmation field in Encrypt mode, and the field
    for the output name.  (The two buttons hold no value between runs.) *)
Definition created_widgets (w : World) (x : Session) : list string :=
  if w_which w EncryptDecrypt.OPENSSL_COMMAND then
    let i := read_inputs x NoClick in
    [operation_id; uploader_id; pwd1_key]
    ++ match operation i with Encrypt => [pwd2_key] | Decrypt => [] end
    ++ [output_name_id (default_output_filename (operation i) (uploaded_file i))]
  else [].

(** One run of the script, caused by [c]. *)
Definition script (w : World) (c : click) : M unit :=
  x ← get_session;
  run_script (created_widgets w x) (EncryptDecryptPage.page w (read_inputs x c)).

End EncryptDecryptWidgets.

(** ** pages/2_Zip_File_Tool.py *)

Module ZipTool.

Definition ZIP_COMMAND : string := "zip".
Definition TIMEOUT : Z := 120.

Definition check_zip_command (w : World) : M bool :=
  if w_which w ZIP_COMMAND then ret true
  else
    emit (Show PageBody LError
            ("CRITICAL ERROR: '" +:+ ZIP_COMMAND +:+
             "' command not found. Please ensure the native zip utility is installed and in the system PATH.")) ;;
    halt.

Definition nothing_to_zip_text (rc : Z) (err : string) : string :=
  "Zip Error (Exit Code " +:+ pretty rc +:+ "): Nothing to zip. Check input file path."
  +:+ nl +:+ fence +:+ nl +:+ Py.strip err +:+ nl +:+ fence.

Definition zip_error_text (rc : Z) (err : string) : string :=
  "Zip Error (Exit Code " +:+ pretty rc +:+ "):"
  +:+ nl +:+ fence +:+ nl +:+ Py.strip err +:+ nl +:+ fence.

Definition zip_messages_text (err : string) : string :=
  "Zip Messages (stderr):" +:+ nl +:+ fence +:+ nl +:+ Py.strip err +:+ nl +:+ fence.

Definition timeout_text : string := "Zip command timed out after 120 seconds.".

(** Returns [(success, stdout, stderr)].  The masked copy of the command
    that the source builds first is never used and is left out. *)
Definition run_zip_command (w : World) (args : list string) (password_for_masking : string)
  : M (bool * string * string) :=
  let command := [ZIP_COMMAND] ++ args in
  try_except
    (process ← subprocess_run w command TIMEOUT;
     let success := (returncode process =? 0)%Z in
     (if negb success then
        let err_lower := Py.lower (stderr process) in
        if Py.contains "nothing to do" err_lower
        then emit (Show PageBody LError
                     (nothing_to_zip_text (returncode process) (stderr process)))
        else emit (Show PageBody LError
                     (zip_error_text (returncode process) (stderr process)))
      else if negb (Py.is_empty (stderr process))
      then emit (Show PageBody LInfo (zip_messages_text (stderr process)))
      else ret tt) ;;
     ret (success, Py.strip (stdout process), Py.strip (stderr process)))
    (fun e =>
       match exn_kind_of e with
       | TimeoutExpired =>
         emit (Show PageBody LError timeout_text) ;;
         ret (false, EmptyString, "Timeout expired")
       | FileNotFoundError =>
         emit (Show PageBody LError
                 ("Error: The '" +:+ ZIP_COMMAND +:+
                  "' command was not found. Is it installed and in PATH?")) ;;
         ret (false, EmptyString, "Command not found: " +:+ ZIP_COMMAND)
       | _ =>
         emit (Show PageBody LError
                 ("An unexpected error occurred while running zip: " +:+ exn_str e)) ;;
         ret (false, EmptyString, exn_str e)
       end).

End ZipTool.

Module ZipPage.
Import ZipTool.

(** The three checks made before anything is staged. *)
Definition validate (i : Inputs) : M unit :=
  when (Py.is_empty (password i))
    (emit (Show StatusSlot LError "Password cannot be empty.") ;; halt) ;;
  when (negb (String.eqb (password i) (password_confirm i)))
    (emit (Show StatusSlot LError "Passwords do not match.") ;; halt) ;;
  when (Py.is_empty (output_filename_user i))
    (emit (Show StatusSlot LError "Output ZIP filename cannot be empty.") ;; halt).

Definition renamed_text (actual_output_filename : string) : string :=
  "Output filename didn't end with '.zip'. Using '" +:+ actual_output_filename +:+ "'.".

(** The [if not output_filename_user.lower().endswith('.zip')] statement;
    returns [actual_output_filename]. *)
Definition choose_output_filename (output_filename_user : string) : M string :=
  if negb (Py.endswith ".zip" (Py.lower output_filename_user)) then
    let actual_output_filename := output_filename_user +:+ ".zip" in
    emit (Show PageBody LWarning (renamed_text actual_output_filename)) ;;
    ret actual_output_filename
  else ret output_filename_user.

Definition zip_args (password output_file_path input_file_path : string) : list string :=
  ["-j"; "-e"; "-P"; password; output_file_path; input_file_path].

(** The [if success and os.path.exists(output_file_path): ... else: ...]
    statement that ends the [try]. *)
Definition conclude (actual_output_filename output_file_path : string)
           (success : bool) : M unit :=
  f ← get_fs;
  if success && Os.path_exists f output_file_path then
    assign (set_zip_operation_status (Some StatusSuccess)) ;;
    content ← fs_read (fun f => Os.open_rb f output_file_path);
    assign (set_output_zip_content (Some content)) ;;
    assign (set_output_zip_filename (Some actual_output_filename)) ;;
    emit (Show StatusSlot LSuccess "Password-protected ZIP created successfully!") ;;
    emit (DownloadButton ("Download " +:+ actual_output_filename) content
            actual_output_filename "application/zip")
  else
    assign (set_zip_operation_status (Some StatusFail)) ;;
    emit (Show StatusSlot LError "Failed to create ZIP file. See details above.") ;;
    when (Os.path_exists f output_file_path)
      (try_except (fs_update (fun f => Os.remove f output_file_path))
         (fun e => if is_OSError e then ret tt else raise e)).

(** The body of the [try]. *)
Definition process (w : World) (i : Inputs) (up : Upload)
           (actual_output_filename : string) : M unit :=
  d ← mkdtemp w;
  set_temp_dir (Some d) ;;
  let input_file_path := Os.path_join d (up_name up) in
  let output_file_path := Os.path_join d actual_output_filename in
  fs_update (fun f => Os.write_file f input_file_path (up_data up)) ;;
  let args := zip_args (password i) output_file_path input_file_path in
  r ← run_zip_command w args (password i);
  conclude actual_output_filename output_file_path r.1.1.

(** The [except Exception as e] clause. *)
Definition on_exception (e : exn) : M unit :=
  emit (Show StatusSlot LError ("An error occurred during ZIP processing: " +:+ exn_str e)) ;;
  assign (set_zip_operation_status (Some StatusFail)).

Definition cleanup_warning_text (d : string) (e : exn) : string :=
  "Could not clean up temp dir " +:+ d +:+ ": " +:+ exn_str e.

(** The [finally] clause. *)
Definition cleanup (w : World) : M unit :=
  t ← get_temp_dir;
  f ← get_fs;
  match t with
  | Some d =>
    when (negb (Py.is_empty d) && Os.path_exists f d)
      (try_except (rmtree w d)
         (fun e => emit (Show PageBody LWarning (cleanup_warning_text d e))))
  | None => ret tt
  end.

(** [if run_button and uploaded_file:] *)
Definition run_block (w : World) (i : Inputs) (up : Upload) : M unit :=
  assign (set_output_zip_content None) ;;
  assign (set_output_zip_filename None) ;;
  assign (set_zip_operation_status None) ;;
  emit (Show StatusSlot LInfo "Processing...") ;;
  emit (Emptied DownloadSlot) ;;
  validate i ;;
  actual_output_filename ← choose_output_filename (output_filename_user i);
  set_temp_dir None ;;
  try_finally (try_except (process w i up actual_output_filename) on_exception)
              (cleanup w).

(** [elif not uploaded_file and ... == "success" and ...output_zip_content:]
    the file name is set whenever the status is "success". *)
Definition previous_block (x : Session) : M unit :=
  let name := default EmptyString (output_zip_filename x) in
  let content := default [] (output_zip_content x) in
  emit (Show StatusSlot LSuccess "Showing previous successful result.") ;;
  emit (DownloadButton ("Download " +:+ name) content name "application/zip").

(** [if st.button("Clear All"):] *)
Definition clear_all : M unit :=
  assign (set_output_zip_content None) ;;
  assign (set_output_zip_filename None) ;;
  assign (set_zip_operation_status None) ;;
  x ← get_session;
  assign (set_zip_clear_trigger (zip_clear_trigger x + 1)%N) ;;
  halt.

(** One run of the script on the widget values [i]. *)
Definition page (w : World) (i : Inputs) : M unit :=
  check_zip_command w ;;
  x ← get_session;
  match uploaded_file i with
  | Some up => if run_button i then run_block w i up else ret tt
  | None =>
    if is_success (zip_operation_status x)
       && truthy_bytes (output_zip_content x)
    then previous_block x
    else ret tt
  end ;;
  when (clear_button i) clear_all.

End ZipPage.

Module ZipWidgets.
Import Streamlit.

Definition uploader_key (trigger : N) : string := "zip_uploader_" +:+ pretty trigger.
Definition pwd1_key (trigger : N) : string := "zip_pwd1_" +:+ pretty trigger.
Definition pwd2_key (trigger : N) : string := "zip_pwd2_" +:+ pretty trigger.
Definition output_name_key (trigger : N) : string := "zip_output_name_" +:+ pretty trigger.

Definition default_output_filename (uploaded_file : option Upload) : string :=
  match uploaded_file with
  | None => EmptyString
  | Some up => (OsPath.splitext (up_name up)).1 +:+ "_protected.zip"
  end.

(** The values the widgets of the page return in a run. *)
Definition read_inputs (x : Session) (c : click) : Inputs :=
  let t := zip_clear_trigger x in
  let uploaded := file_uploader x (uploader_key t) in
  {| operation := Encrypt;
     uploaded_file := uploaded;
     password := text_input x (pwd1_key t) EmptyString;
     password_confirm := text_input x (pwd2_key t) EmptyString;
     output_filename_user :=
       text_input x (output_name_key t) (default_output_filename uploaded);
     run_button := match c, uploaded with ClickRun, Some _ => true | _, _ => false end;
     clear_button := match c with ClickClear => true | _ => false end |}.

(** The identities of the widgets with a stored value that a run creates:
    none when the run stops at the check for [zip]; otherwise the four
    input widgets under the keys of the generation the run started in
    (Clear All counts the trigger up only after they were created). *)
Definition created_widgets (w : World) (x : Session) : list string :=
  if w_which w ZipTool.ZIP_COMMAND then
    let t := zip_clear_trigger x in
    [uploader_key t; pwd1_key t; pwd2_key t; output_name_key t]
  else [].

(** One run of the script, caused by [c]. *)
Definition script (w : World) (c : click) : M unit :=
  x ← get_session;
  run_script (created_widgets w x) (ZipPage.page w (read_inputs x c)).

(** No value is stored under a key of a later generation. *)
Definition no_later_keys (x : Session) : Prop :=
  ∀ n, (zip_clear_trigger x < n)%N →
       widgets x !! uploader_key n = None ∧ widgets x !! pwd1_key n = None
       ∧ widgets x !! pwd2_key n = None ∧ widgets x !! output_name_key n = None.

End ZipWidgets.

(** ** Vocabulary of the statements *)

(** The command lines the two wrappers hand to [subprocess.run]. *)
Definition openssl_command (args : list string) (password : string) : list string :=
  ([EncryptDecrypt.OPENSSL_COMMAND] ++ args) ++ ["-pass"; "pass:" +:+ password].

Definition zip_command (args : list string) : list string :=
  [ZipTool.ZIP_COMMAND] ++ args.

(** The workspace and the file system once the upload has been written
    into it; [None] when creating the directory or writing the file
    raises. *)
Definition staged (w : World) (up : Upload) (f : FS) : option (string * FS) :=
  match w_mkdtemp w with
  | inl _ => None
  | inr name =>
    let d := workspace_path name in
    if Os.path_exists f d then None
    else match Os.write_file (<[d := Dir]> f) (Os.path_join d (up_name up)) (up_data up) with
         | inl _ => None
         | inr f1 => Some (d, f1)
         end
  end.

(** The calls of [subprocess.run] recorded in a trace. *)
Definition spawns (tr : list event) : list (list string * Z) :=
  omap (fun e => match e with SubprocessRun c t => Some (c, t) | _ => None end) tr.

(** The temporary directories created in a trace. *)
Definition workspaces (tr : list event) : list string :=
  omap (fun e => match e with Mkdtemp d => Some d | _ => None end) tr.

(** The download buttons offered in a trace, as (file name, data). *)
Definition downloads (tr : list event) : list (string * Py.bytes) :=
  omap (fun e => match e with DownloadButton _ data name _ => Some (name, data) | _ => None end) tr.

(** The program did not exit within [timeout] seconds. *)
Definition outlasts (b : Behaviour) (timeout : Z) : Prop :=
  match b_exit b with
  | None => True
  | Some (t, _, _, _) => Qle_bool t (inject_Z timeout) = false
  end.

(** The checks of the Encrypt/Decrypt page pass. *)
Definition cipher_valid (i : Inputs) : Prop :=
  password i ≠ EmptyString ∧ (operation i = Encrypt → password i = password_confirm i)
  ∧ output_filename_user i ≠ EmptyString.

(** The checks of the Zip page pass. *)
Definition zip_valid (i : Inputs) : Prop :=
  password i ≠ EmptyString ∧ password i = password_confirm i ∧ output_filename_user i ≠ EmptyString.

(** The name the Zip page gives the archive. *)
Definition zip_name (output_filename_user : string) : string :=
  if Py.endswith ".zip" (Py.lower output_filename_user) then output_filename_user
  else output_filename_user +:+ ".zip".

(** Events that are neither a process, a workspace nor a download. *)
Definition inert (tr : list event) : Prop :=
  spawns tr = [] ∧ workspaces tr = [] ∧ downloads tr = [].

(** Session state as the Encrypt/Decrypt page leaves it after a failure
    and after a success. *)
Definition enc_failed (x : Session) : Session :=
  set_operation_status (Some StatusFail)
    (set_operation_status None (set_output_filename None (set_output_content None x))).

Definition enc_succeeded (name : string) (content : Py.bytes) (x : Session) : Session :=
  set_output_filename (Some name)
    (set_output_content (Some content)
       (set_operation_status (Some StatusSuccess)
          (set_operation_status None (set_output_filename None (set_output_content None x))))).

(** The same for the Zip page. *)
Definition zip_failed (x : Session) : Session :=
  set_zip_operation_status (Some StatusFail)
    (set_zip_operation_status None
       (set_output_zip_filename None (set_output_zip_content None x))).

Definition zip_succeeded (name : string) (content : Py.bytes) (x : Session) : Session :=
  set_output_zip_filename (Some name)
    (set_output_zip_content (Some content)
       (set_zip_operation_status (Some StatusSuccess)
          (set_zip_operation_status None
             (set_output_zip_filename None (set_output_zip_content None x))))).

(** What a request leaves in the session: the bytes of the output file
    when the program was run, exited with code zero within its time with
    output that could be decoded and left a regular file at the output
    path; a failure otherwise. *)
Definition captured (w : World) (command : string -> list string) (timeout : Z)
           (out_name : string) (up : Upload) (f : FS) : option Py.bytes :=
  match staged w up f with
  | None => None
  | Some (d, f1) =>
    match resolve w (command d) timeout f1 with
    | Completed p f2 =>
      if (returncode p =? 0)%Z then
        match f2 !! Os.path_join d out_name with
        | Some (File content) => Some content
        | _ => None
        end
      else None
    | _ => None
    end
  end.

Definition enc_command (i : Inputs) (up : Upload) (d : string) : list string :=
  openssl_command
    (EncryptDecryptPage.openssl_args (operation i) (Os.path_join d (up_name up))
       (Os.path_join d (output_filename_user i)))
    (password i).

Definition zip_page_command (i : Inputs) (actual_output_filename : string)
           (up : Upload) (d : string) : list string :=
  zip_command
    (ZipPage.zip_args (password i) (Os.path_join d actual_output_filename)
       (Os.path_join d (up_name up))).

(** The directory [tempfile.mkdtemp] creates on file system [f], if it
    succeeds. *)
Definition created (w : World) (f : FS) : option string :=
  match w_mkdtemp w with
  | inl _ => None
  | inr name => if Os.path_exists f (workspace_path name) then None
                else Some (workspace_path name)
  end.

(** The warnings about a changed archive name shown in a trace. *)
Definition renamings (tr : list event) : list string :=
  omap (fun e => match e with
                 | Show PageBody LWarning text =>
                   if Py.startswith "Output filename didn't end with '.zip'." text
                   then Some text else None
                 | _ => None
                 end) tr.

(** The program was run for the request, exited with code zero within its
    time with output that could be decoded, and left a regular file with
    bytes [content] at the output path. *)
Definition produced (w : World) (command : string -> list string) (timeout : Z)
           (out_name : string) (up : Upload) (f : FS) (content : Py.bytes) : Prop :=
  ∃ d f1 p f2,
    staged w up f = Some (d, f1)
    ∧ resolve w (command d) timeout f1 = Completed p f2
    ∧ returncode p = 0
    ∧ f2 !! Os.path_join d out_name = Some (File content).

(** Requests the checks of a page reject. *)
Definition cipher_rejected (i : Inputs) : Prop :=
  password i = EmptyString
  ∨ (operation i = Encrypt ∧ password i ≠ password_confirm i)
  ∨ output_filename_user i = EmptyString.

Definition zip_rejected (i : Inputs) : Prop :=
  password i = EmptyString ∨ password i ≠ password_confirm i ∨ output_filename_user i = EmptyString.

(** [s] contains [marker] up to the case of its letters. *)
Definition mentions (marker s : string) : Prop :=
  ∃ pre mid post, s = pre +:+ mid +:+ post ∧ Py.lower mid = marker.

(** [mimetypes] guesses a text type for the path. *)
Definition text_like (w : World) (path : string) : bool :=
  match w_guess_type w path with
  | Some mime_type => Py.startswith "text" mime_type
  | None => false
  end.

(** *** The external cipher

    What the pages rely on from [openssl enc]: run on an existing input
    file with a writable output path other than the input, it exits with
    code 0 within the time allowed and leaves the transformed bytes at the
    output path, touching nothing else.  [encrypts] says so for encryption
    with the function [enc]; [decrypts] says that decryption with the same
    password restores what [enc] was given. *)

Definition transforms (w : World) (op : Operation) (P : string)
           (input output : Py.bytes) : Prop :=
  ∀ (f f' : FS) (i o : string),
    f !! i = Some (File input) → i ≠ o →
    Os.write_file f o output = inr f' →
    ∃ b t out err,
      w_exec w (openssl_command (EncryptDecryptPage.openssl_args op i o) P) f = inr b
      ∧ b_exit b = Some (t, 0, out, err)
      ∧ Qle_bool t (inject_Z EncryptDecrypt.TIMEOUT) = true
      ∧ b_undecodable b = None
      ∧ b_fs b t = f'.

Definition encrypts (w : World) (enc : string -> Py.bytes -> Py.bytes) : Prop :=
  ∀ P x, transforms w Encrypt P x (enc P x).

Definition decrypts (w : World) (enc : string -> Py.bytes -> Py.bytes) : Prop :=
  ∀ P x, transforms w Decrypt P (enc P x) x.

(** A file name without directory part. *)
Definition plain (n : string) : Prop := n ≠ EmptyString ∧ Os.no_slash n = true.

(** Nothing exists at or below [d]. *)
Definition vacant (f : FS) (d : string) : Prop :=
  ∀ p, Os.under d p = true → f !! p = None.

(** The last character, if there is one, is not a slash. *)
Fixpoint ends_clean (s : string) : bool :=
  match s with
  | EmptyString => true
  | String c EmptyString => negb (Ascii.eqb c "/")
  | String _ s' => ends_clean s'
  end.

(** ** Sample environments *)

Module Toy.

Definition magic : Py.bytes := [x53; x61; x6c; x74; x65; x64; x5f; x5f].

Fixpoint strip_magic (m b : Py.bytes) : option Py.bytes :=
  match m, b with
  | [], _ => Some b
  | x :: m', y :: b' => if Byte.eqb x y then strip_magic m' b' else None
  | _ :: _, [] => None
  end.

Definition exits (rc : Z) (out err : string) (f : FS) : exn + Behaviour :=
  inr {| b_exit := Some (1%Q, rc, out, err); b_fs := fun _ => f; b_undecodable := None |}.

(** A stand-in for the two programs: [openssl enc] prefixes the input
    with a header and [-d] takes it off again; [zip] stores the input
    behind a two-byte signature. *)
Definition exec (command : list string) (f : FS) : exn + Behaviour :=
  match command with
  | ["openssl"; "enc"; _; "-pbkdf2"; flag; "-in"; i; "-out"; o; "-pass"; _] =>
    match f !! i with
    | Some (File x) =>
      if String.eqb flag "-d" then
        match strip_magic magic x with
        | Some y =>
          match Os.write_file f o y with
          | inr f' => exits 0 EmptyString EmptyString f'
          | inl e => exits 1 EmptyString (exn_str e) f
          end
        | None => exits 1 EmptyString "bad magic number" f
        end
      else
        match Os.write_file f o (magic ++ x) with
        | inr f' => exits 0 "salt=0011223344556677" EmptyString f'
        | inl e => exits 1 EmptyString (exn_str e) f
        end
    | _ => exits 1 EmptyString ("Can't open " +:+ i +:+ " for reading") f
    end
  | ["zip"; "-j"; "-e"; "-P"; _; o; i] =>
    match f !! i with
    | Some (File x) =>
      match Os.write_file f o ([x50; x4b] ++ x) with
      | inr f' => exits 0 "  adding: input (stored 0%)" EmptyString f'
      | inl e => exits 15 EmptyString (exn_str e) f
      end
    | _ => exits 12 EmptyString ("zip error: Nothing to do! (" +:+ o +:+ ")") f
    end
  | _ => exits 2 EmptyString "usage" f
  end.

Definition world : World :=
  {| w_which := fun _ => true;
     w_exec := exec;
     w_mkdtemp := inr "k3v9";
     w_rmtree := None;
     w_guess_type := fun p => if Py.endswith ".txt" p then Some "text/plain" else None |}.

Definition hello : Py.bytes := [x68; x65; x6c; x6c; x6f].

Definition request (op : Operation) (name : string) (data : Py.bytes)
           (pw confirm out : string) : Inputs :=
  {| operation := op; uploaded_file := Some {| up_name := name; up_data := data |};
     password := pw; password_confirm := confirm; output_filename_user := out;
     run_button := true; clear_button := false |}.

(** The cipher behind the stand-in [openssl]. *)
Definition enc (P : string) (x : Py.bytes) : Py.bytes := magic ++ x.

End Toy.

Module Sample.

Definition notes : Upload := {| up_name := "notes.txt"; up_data := Toy.hello |}.

Definition encrypt_notes : Inputs :=
  Toy.request Encrypt "notes.txt" Toy.hello "secret123" "secret123" "notes.enc".

Definition zip_notes : Inputs :=
  Toy.request Encrypt "notes.txt" Toy.hello "secret123" "secret123" "notes".

Definition mismatch : Inputs :=
  Toy.request Encrypt "notes.txt" Toy.hello "abc" "xyz" "notes.enc".

Definition start : St := fresh_run ∅ initial_session.

End Sample.

Module Slow.

(** [openssl] and [zip] that do their work but take 61 and 121 seconds. *)
Definition exec (command : list string) (f : FS) : exn + Behaviour :=
  match Toy.exec command f with
  | inr b =>
    inr {| b_exit := match b_exit b, command with
                     | Some (_, rc, out, err), "zip" :: _ => Some (121%Q, rc, out, err)
                     | Some (_, rc, out, err), _ => Some (61%Q, rc, out, err)
                     | None, _ => None
                     end;
           b_fs := fun _ => f;
           b_undecodable := b_undecodable b |}
  | inl e => inl e
  end.

Definition world : World :=
  {| w_which := fun _ => true; w_exec := exec; w_mkdtemp := inr "k3v9";
     w_rmtree := None; w_guess_type := fun _ => None |}.

Definition staged_fs : FS :=
  <["/tmp/tmpk3v9/notes.txt" := File Toy.hello]> (<["/tmp/tmpk3v9" := Dir]> ∅).

Definition staged_state : St :=
  {| fs := staged_fs; session := initial_session; temp_dir := Some "/tmp/tmpk3v9";
     trace := [] |}.

Definition enc_args : list string :=
  EncryptDecryptPage.openssl_args Encrypt "/tmp/tmpk3v9/notes.txt" "/tmp/tmpk3v9/notes.enc".

Definition zip_args : list string :=
  ZipPage.zip_args "secret123" "/tmp/tmpk3v9/notes.zip" "/tmp/tmpk3v9/notes.txt".

End Slow.

Module Boundary.

(** A file of exactly [PREVIEW_SIZE_LIMIT] zero bytes. *)
Definition data : Py.bytes := replicate (N.to_nat EncryptDecrypt.PREVIEW_SIZE_LIMIT) x00.

Definition disk : FS := {[ "/tmp/tmpk3v9/big.bin" := File data ]}.

(** [zip] asked to pack a file that is not there. *)
Definition missing_args : list string :=
  ZipPage.zip_args "secret123" "/tmp/tmpk3v9/out.zip" "/tmp/tmpk3v9/missing.txt".

Definition empty_state : St := fresh_run ∅ initial_session.

End Boundary.

Module Filled.

(** A session in which the user has uploaded a file and typed a password
    twice on the Encrypt/Decrypt page, and the same on the Zip page. *)
Definition session : Session :=
  Streamlit.enter EncryptDecryptWidgets.uploader_id (WFile "notes.txt" Toy.hello)
    (Streamlit.enter EncryptDecryptWidgets.pwd1_key (WText "hunter2")
       (Streamlit.enter EncryptDecryptWidgets.pwd2_key (WText "hunter2")
          (Streamlit.enter (ZipWidgets.uploader_key 0) (WFile "notes.txt" Toy.hello)
             (Streamlit.enter (ZipWidgets.pwd1_key 0) (WText "hunter2")
                (Streamlit.enter (ZipWidgets.pwd2_key 0) (WText "hunter2")
                   initial_session))))).

Definition state : St := fresh_run ∅ session.

End Filled.

(** ** Home.py *)

Module Home.

Definition OPENSSL_COMMAND : string := "openssl".
Definition ZIP_COMMAND : string := "zip".

(** The names of the required commands that are not on the search path. *)
Definition check_commands (w : World) : list string :=
  let missing := [] in
  let missing := if w_which w OPENSSL_COMMAND then missing else missing ++ [OPENSSL_COMMAND] in
  let missing := if w_which w ZIP_COMMAND then missing else missing ++ [ZIP_COMMAND] in
  missing.

(** The UTF-8 bytes of the two signs the status lines begin with. *)
Definition check_mark : string := String "226" (String "156" (String "133" EmptyString)).
Definition cross_mark : string := String "226" (String "157" (String "140" EmptyString)).

Definition found_text : string :=
  check_mark +:+ " Required commands ('" +:+ OPENSSL_COMMAND +:+ "', '" +:+ ZIP_COMMAND
  +:+ "') found!".

Definition not_found_text (missing_commands : list string) : string :=
  cross_mark +:+ " Critical Error: The following command(s) were not found: `"
  +:+ Py.join "`, `" missing_commands +:+ "`".

Definition remediation_text : string :=
  EmptyString +:+ nl +:+
  "        Please ensure the missing command-line utilities are installed on the system running this Streamlit app" +:+ nl +:+
  "        and are accessible in the system's PATH." +:+ nl +:+
  EmptyString +:+ nl +:+
  "        *   **OpenSSL:** Usually available on macOS/Linux. Install via package manager (`apt`, `yum`, `brew`) or from [OpenSSL website](https://www.openssl.org/)." +:+ nl +:+
  "        *   **Zip:** Usually available on macOS/Linux. Install via package manager if missing (e.g., `sudo apt install zip`, `sudo yum install zip`)." +:+ nl +:+
  EmptyString +:+ nl +:+
  "        The application may not function correctly until these are installed." +:+ nl +:+
  "    ".

(** The System Check section: [missing_commands = check_commands()] and the
    [if not missing_commands: ... else: ...] statement.  The call of
    [st.stop()] in the [else] branch is commented out in the source. *)
Definition system_check (w : World) : M unit :=
  let missing_commands := check_commands w in
  match missing_commands with
  | [] =>
    emit (Show PageBody LSuccess found_text) ;;
    emit (Show PageBody LInfo
            "Navigate to the desired tool page using the sidebar on the left to begin.")
  | _ :: _ =>
    emit (Show PageBody LError (not_found_text missing_commands)) ;;
    emit (Show PageBody LText remediation_text)
  end.

End Home.

(** ** The masked copies of the command lines

    Both wrappers build [printable_command] from [command] before they run
    the program; its only use, a debugging line, is commented out. *)

Module EncryptDecryptMasking.

(** [[arg if not arg.startswith('pass:') else 'pass:********' for arg in command]] *)
Definition printable_command (command : list string) : list string :=
  map (fun arg => if negb (Py.startswith "pass:" arg) then arg else "pass:********") command.

End EncryptDecryptMasking.

Module ZipMasking.

(** The [for i, arg in enumerate(command)] loop, from index [i] on: [rest]
    is [command[i:]] and [n] is [len(command)]. *)
Fixpoint mask_from (n i : nat) (rest : list string) (password_found : bool)
         (printable_command : list string) : list string :=
  match rest with
  | [] => printable_command
  | arg :: rest' =>
    if String.eqb arg "-P" && (i + 1 <? n)%nat
    then mask_from n (S i) rest' true (printable_command ++ [arg; "********"])
    else if password_found
    then mask_from n (S i) rest' false printable_command
    else mask_from n (S i) rest' password_found (printable_command ++ [arg])
  end.

Definition printable_command (command : list string) : list string :=
  mask_from (length command) 0 command false [].

End ZipMasking.

(** ** Further vocabulary *)

(** The keys of the session state that belong to each page. *)
Definition cipher_side (x : Session) : option Py.bytes * option string * option status :=
  (output_content x, output_filename x, operation_status x).

Definition zip_side (x : Session)
  : option Py.bytes * option string * option status * N :=
  (output_zip_content x, output_zip_filename x, zip_operation_status x, zip_clear_trigger x).

(** The result keys of both pages agree with each other: the status is
    "success" exactly when bytes are held, and exactly when a file name is
    held. *)
Definition consistent (x : Session) : Prop :=
  (operation_status x = Some StatusSuccess ↔ is_Some (output_content x))
  ∧ (operation_status x = Some StatusSuccess ↔ is_Some (output_filename x))
  ∧ (zip_operation_status x = Some StatusSuccess ↔ is_Some (output_zip_content x))
  ∧ (zip_operation_status x = Some StatusSuccess ↔ is_Some (output_zip_filename x)).

(** The last component of [p] has a character other than a dot. *)
Definition names_a_file (p : string) : Prop :=
  OsPath.all_dots
    (OsPath.drop_string (String.length (default EmptyString (Os.head_upto_last_slash p))) p)
  = false.

(** ** Further sample environments *)

Module Typed.

(** A session in which the user has uploaded a file and typed a password
    twice on the Encrypt/Decrypt page. *)
Definition session : Session :=
  Streamlit.enter EncryptDecryptWidgets.uploader_id (WFile "notes.txt" Toy.hello)
    (Streamlit.enter EncryptDecryptWidgets.pwd1_key (WText "hunter2")
       (Streamlit.enter EncryptDecryptWidgets.pwd2_key (WText "hunter2")
          initial_session)).

Definition state : St := fresh_run ∅ session.

(** A session in which the user has typed a password on the Zip page. *)
Definition zip_session : Session :=
  Streamlit.enter (ZipWidgets.pwd1_key 0) (WText "hunter2") initial_session.

Definition zip_state : St := fresh_run ∅ zip_session.

End Typed.

Module Idle.

(** A run with no file uploaded and nothing typed or clicked. *)
Definition inputs : Inputs :=
  {| operation := Encrypt; uploaded_file := None; password := EmptyString;
     password_confirm := EmptyString; output_filename_user := EmptyString;
     run_button := false; clear_button := false |}.

(** The sample file uploaded, nothing typed or clicked. *)
Definition with_file : Inputs :=
  {| operation := Encrypt; uploaded_file := Some Sample.notes; password := EmptyString;
     password_confirm := EmptyString; output_filename_user := "notes.enc";
     run_button := false; clear_button := false |}.

(** The state the sample request leaves behind. *)
Definition after_encrypt : St :=
  (EncryptDecryptPage.run_block Toy.world Sample.encrypt_notes Sample.notes Sample.start).2.

End Idle.

Module Leak.

(** The sample request with an absolute path typed as the output name. *)
Definition request : Inputs :=
  Toy.request Encrypt "notes.txt" Toy.hello "secret123" "secret123" "/leak.enc".

(** A disk that holds a file outside every temporary directory. *)
Definition disk : FS := {[ "/old.txt" := File Toy.hello ]}.

(** A request to decrypt bytes that are not a ciphertext of the stand-in
    cipher, with the path of that file typed as the output name. *)
Definition overwrite : Inputs :=
  Toy.request Decrypt "notes.enc" Toy.hello "secret123" EmptyString "/old.txt".

Definition upload : Upload := {| up_name := "notes.enc"; up_data := Toy.hello |}.

End Leak.

Module Bare.

(** A host on which neither program is installed. *)
Definition world : World :=
  {| w_which := fun _ => false; w_exec := Toy.exec; w_mkdtemp := inr "k3v9";
     w_rmtree := None; w_guess_type := fun _ => None |}.

End Bare.

Module Denied.

Definition denied : exn := Exn PermissionError "[Errno 13] Permission denied: 'openssl'".

(** A host on which the programs are found but may not be started, and on
    which temporary directories cannot be removed. *)
Definition world : World :=
  {| w_which := fun _ => true; w_exec := fun _ _ => inl denied; w_mkdtemp := inr "k3v9";
     w_rmtree := Some (Exn PermissionError "[Errno 13] Permission denied: '/tmp/tmpk3v9'");
     w_guess_type := fun _ => None |}.

End Denied.

Module Full.

Definition no_space : exn :=
  Exn OtherOSError "[Errno 28] No space left on device: '/tmp/tmpk3v9'".

(** A host on which no temporary directory can be created. *)
Definition world : World :=
  {| w_which := fun _ => true; w_exec := Toy.exec; w_mkdtemp := inl no_space;
     w_rmtree := None; w_guess_type := fun _ => None |}.

End Full.

Module Garbled.

Definition undecodable : string :=
  "'utf-8' codec can't decode byte 0xff in position 0: invalid start byte".

(** [openssl] and [zip] that do their work and exit with code 0, but
    write a byte to their output that is not valid in the locale's
    encoding. *)
Definition exec (command : list string) (f : FS) : exn + Behaviour :=
  match Toy.exec command f with
  | inr b => inr {| b_exit := b_exit b; b_fs := b_fs b; b_undecodable := Some undecodable |}
  | inl e => inl e
  end.

Definition world : World :=
  {| w_which := fun _ => true; w_exec := exec; w_mkdtemp := inr "k3v9";
     w_rmtree := None; w_guess_type := fun _ => None |}.

End Garbled.

Module Padded.

(** Programs that write their messages the way Info-ZIP writes its
    warnings: indented with a tab and ended by a line break. *)
Definition exec (command : list string) (f : FS) : exn + Behaviour :=
  match Toy.exec command f with
  | inr b =>
    inr {| b_exit := match b_exit b with
                     | Some (t, rc, out, err) => Some (t, rc, out, String "009" err +:+ nl)
                     | None => None
                     end;
           b_fs := b_fs b;
           b_undecodable := b_undecodable b |}
  | inl e => inl e
  end.

Definition world : World :=
  {| w_which := fun _ => true; w_exec := exec; w_mkdtemp := inr "k3v9";
     w_rmtree := None; w_guess_type := fun _ => None |}.

End Padded.

Module Clobber.

(** An [openssl enc] that, as the program does, opens its input, then
    opens its output for writing, which empties it, and only then reads
    the input: with one path for both it reads an empty file. *)
Definition exec (command : list string) (f : FS) : exn + Behaviour :=
  match command with
  | ["openssl"; "enc"; _; "-pbkdf2"; _; "-in"; i; "-out"; o; "-pass"; _] =>
    match f !! i with
    | Some (File _) =>
      match Os.write_file f o [] with
      | inr f0 => Toy.exec command f0
      | inl e => Toy.exits 1 EmptyString (exn_str e) f
      end
    | _ => Toy.exec command f
    end
  | _ => Toy.exec command f
  end.

Definition world : World :=
  {| w_which := fun _ => true; w_exec := exec; w_mkdtemp := inr "k3v9";
     w_rmtree := None; w_guess_type := fun _ => None |}.

(** A file whose name already has the suffix the page suggests for an
    encrypted file. *)
Definition upload : Upload := {| up_name := "a.enc"; up_data := Toy.hello |}.

End Clobber.

(** ** Removal of the workspace *)

(** The calls of [shutil.rmtree] and the warnings about a directory that
    could not be removed recorded in a trace. *)
Definition cleanup_events (tr : list event) : list event :=
  omap (fun e => match e with
                 | Rmtree _ => Some e
                 | Show PageBody LWarning text =>
                   if Py.startswith "Could not " text then Some e else None
                 | _ => None
                 end) tr.

(** How the removal of workspace [d] ended, read off the final file system
    [f'] and the removal events [ev] of a run: removed by the one call of
    [rmtree], with nothing left at or below [d] and no warning; or never
    attempted because [d] was already gone; or attempted and failed, in
    which case the warning with the text of the exception was shown and
    [d] is still there.  A removal fails when [rmtree] fails on this host
    or when [d] is no longer a directory. *)
Definition removed_or_warned (w : World) (warning_text : string → exn → string)
           (d : string) (f' : FS) (ev : list event) : Prop :=
  (ev = [Rmtree d] ∧ vacant f' d)
  ∨ (ev = [] ∧ f' !! d = None)
  ∨ ∃ e, ev = [Rmtree d; Show PageBody LWarning (warning_text d e)]
         ∧ is_Some (f' !! d)
         ∧ (w_rmtree w = Some e
            ∨ (w_rmtree w = None
               ∧ (∃ c, f' !! d = Some (File c))
               ∧ e = errno_exn NotADirectoryError "[Errno 20] Not a directory" d)).

(** [m] neither calls [shutil.rmtree] nor shows such a warning, from
    whatever state it is run, and only adds to the trace. *)
Definition quiet {A} (m : M A) : Prop :=
  ∀ s, ∃ r s' tr, m s = (r, s') ∧ trace s' = trace s ++ tr ∧ cleanup_events tr = [].

(** * Proofs *)

(** ** The library models on small inputs *)

Example lower_mixed : Py.lower "Out.ZIP" = "out.zip".
Proof. reflexivity. Qed.

Example endswith_zip : Py.endswith ".zip" "a.zip" = true /\ Py.endswith ".zip" "a.zip.enc" = false.
Proof. split; reflexivity. Qed.

Example strip_both :
  Py.strip (String "010" (" zip error " +:+ String "009" (String "010" EmptyString))) = "zip error".
Proof. reflexivity. Qed.

Example strip_no_break_space :
  Py.strip (String "194" (String "160" ("a b" +:+ String "194" (String "133" EmptyString))))
  = "a b".
Proof. reflexivity. Qed.

Example hex_three : Py.hex " " [x00; x41; xff] = "00 41 ff".
Proof. reflexivity. Qed.

Example splitlines_mixed :
  Utf8.splitlines ("ab" +:+ String "010" (EmptyString +:+ String "013" (String "010" ("cd" +:+ String "010" EmptyString))))
  = ["ab"; EmptyString; "cd"].
Proof. reflexivity. Qed.

Example decode_rejects_lone_continuation : Utf8.decode [x41; x80] = None.
Proof. reflexivity. Qed.

Example decode_accepts_two_byte : Utf8.decode [xc3; xa9] = Some (String "195" (String "169" EmptyString)).
Proof. reflexivity. Qed.

Example fixed2_ten_bytes : Fmt.fixed2 10 1024 = "0.01".
Proof. reflexivity. Qed.

Example fixed2_six_mib : Fmt.fixed2 6291456 (1024 * 1024) = "6.00".
Proof. vm_compute. reflexivity. Qed.

Example join_plain : Os.path_join "/tmp/tmpab" "notes.txt" = "/tmp/tmpab/notes.txt".
Proof. reflexivity. Qed.

Example join_absolute : Os.path_join "/tmp/tmpab" "/etc/x" = "/etc/x".
Proof. reflexivity. Qed.

Example dirname_plain : Os.path_dirname "/tmp/tmpab/notes.txt" = "/tmp/tmpab".
Proof. reflexivity. Qed.

Example dirname_nested : Os.path_dirname "/tmp/tmpab/a/b.txt" = "/tmp/tmpab/a".
Proof. reflexivity. Qed.

Example dirname_slashes : Os.path_dirname "/tmp//b.txt" = "/tmp" /\ Os.path_dirname "//b" = "//".
Proof. split; reflexivity. Qed.

Example header_of_text_preview :
  EncryptDecrypt.text_preview_text "hi"
  = "**Preview (first 100 lines or 5120KB):**" +:+ nl +:+ "```" +:+ nl +:+ "hi" +:+ nl +:+ "```".
Proof. vm_compute. reflexivity. Qed.

Example splitext_plain : OsPath.splitext "notes.txt" = ("notes", ".txt").
Proof. reflexivity. Qed.

Example splitext_hidden : OsPath.splitext ".bashrc" = (".bashrc", EmptyString).
Proof. reflexivity. Qed.

Example splitext_two : OsPath.splitext "dir.d/archive.tar.gz" = ("dir.d/archive.tar", ".gz").
Proof. reflexivity. Qed.

Example fixed2_ties : Fmt.fixed2 128 1024 = "0.12" /\ Fmt.fixed2 384 1024 = "0.38".
Proof. split; reflexivity. Qed.

Example splitlines_trailing : Utf8.splitlines ("a" +:+ String "010" EmptyString) = ["a"].
Proof. reflexivity. Qed.

(** ** Running the script monad symbolically *)

Ltac run_step :=
  unfold mbind, M_bind, bind, mret, M_ret, ret, raise, halt, emit, assign,
         get_fs, put_fs, get_session, put_session, get_temp_dir, set_temp_dir,
         fs_read, fs_update, try_except, try_finally, when; simpl.

Ltac flatten_state :=
  unfold with_event, with_fs, with_session, with_temp_dir; simpl;
  rewrite <- ?app_assoc; simpl.

Lemma spawns_app tr1 tr2 : spawns (tr1 ++ tr2) = spawns tr1 ++ spawns tr2.
Proof. apply omap_app. Qed.

Lemma workspaces_app tr1 tr2 : workspaces (tr1 ++ tr2) = workspaces tr1 ++ workspaces tr2.
Proof. apply omap_app. Qed.

Lemma downloads_app tr1 tr2 : downloads (tr1 ++ tr2) = downloads tr1 ++ downloads tr2.
Proof. apply omap_app. Qed.

Lemma path_exists_false (f : FS) p : Os.path_exists f p = false ↔ f !! p = None.
Proof. unfold Os.path_exists. destruct (f !! p); split; congruence. Qed.

Lemma is_empty_false s : Py.is_empty s = false ↔ s ≠ EmptyString.
Proof. destruct s; simpl; split; congruence. Qed.

(** ** The wrappers *)

Lemma run_openssl_command_spec w args pw s :
  ∃ out err tr,
    EncryptDecrypt.run_openssl_command w args pw s
    = (Ret (match resolve w (openssl_command args pw) EncryptDecrypt.TIMEOUT (fs s) with
            | Completed p _ => (returncode p =? 0)%Z
            | _ => false
            end, out, err),
       {| fs := match resolve w (openssl_command args pw) EncryptDecrypt.TIMEOUT (fs s) with
                | Completed _ f' | TimedOut f' | Undecoded _ f' => f'
                | NotRun _ => fs s
                end;
          session := session s; temp_dir := temp_dir s;
          trace := trace s ++ SubprocessRun (openssl_command args pw) EncryptDecrypt.TIMEOUT :: tr |})
    ∧ inert tr.
Proof.
  unfold EncryptDecrypt.run_openssl_command, subprocess_run.
  fold (openssl_command args pw). run_step.
  destruct (resolve _ _ _ _) as [p f'|f'|e f'|e]; simpl.
  - destruct (returncode p =? 0)%Z; simpl;
      [destruct (Py.is_empty (stderr p)); simpl|];
      eexists _, _, _; (split; [flatten_state; reflexivity|]);
      repeat split; reflexivity.
  - eexists _, _, _; (split; [flatten_state; reflexivity|]); repeat split; reflexivity.
  - destruct (exn_kind_of e); simpl;
      eexists _, _, _; (split; [flatten_state; reflexivity|]); repeat split; reflexivity.
  - destruct (exn_kind_of e); simpl;
      eexists _, _, _; (split; [flatten_state; reflexivity|]); repeat split; reflexivity.
Qed.

Lemma run_zip_command_spec w args pw s :
  ∃ out err tr,
    ZipTool.run_zip_command w args pw s
    = (Ret (match resolve w (zip_command args) ZipTool.TIMEOUT (fs s) with
            | Completed p _ => (returncode p =? 0)%Z
            | _ => false
            end, out, err),
       {| fs := match resolve w (zip_command args) ZipTool.TIMEOUT (fs s) with
                | Completed _ f' | TimedOut f' | Undecoded _ f' => f'
                | NotRun _ => fs s
                end;
          session := session s; temp_dir := temp_dir s;
          trace := trace s ++ SubprocessRun (zip_command args) ZipTool.TIMEOUT :: tr |})
    ∧ inert tr ∧ renamings tr = [].
Proof.
  unfold ZipTool.run_zip_command, subprocess_run.
  fold (zip_command args). run_step.
  destruct (resolve _ _ _ _) as [p f'|f'|e f'|e]; simpl.
  - destruct (returncode p =? 0)%Z; simpl;
      [destruct (Py.is_empty (stderr p)); simpl
      |destruct (Py.contains _ _); simpl];
      eexists _, _, _; (split; [flatten_state; reflexivity|]);
      repeat split; reflexivity.
  - eexists _, _, _; (split; [flatten_state; reflexivity|]); repeat split; reflexivity.
  - destruct (exn_kind_of e); simpl;
      eexists _, _, _; (split; [flatten_state; reflexivity|]); repeat split; reflexivity.
  - destruct (exn_kind_of e); simpl;
      eexists _, _, _; (split; [flatten_state; reflexivity|]); repeat split; reflexivity.
Qed.

(** ** The statement that ends the [try] *)

Lemma enc_conclude_file w i out content s :
  fs s !! out = Some (File content) →
  ∃ tr, EncryptDecryptPage.conclude w i out true s
        = (Ret tt,
           {| fs := fs s;
              session := set_output_filename (Some (output_filename_user i))
                           (set_output_content (Some content)
                              (set_operation_status (Some StatusSuccess) (session s)));
              temp_dir := temp_dir s;
              trace := trace s ++ tr |})
        ∧ spawns tr = [] ∧ workspaces tr = []
        ∧ downloads tr = [(output_filename_user i, content)].
Proof.
  intros Hout. unfold EncryptDecryptPage.conclude. run_step.
  unfold Os.path_exists, Os.open_rb. repeat (rewrite Hout; simpl).
  eexists. split; [flatten_state; reflexivity|]. repeat split; reflexivity.
Qed.

Lemma enc_conclude_dir w i out s :
  fs s !! out = Some Dir →
  ∃ e, EncryptDecryptPage.conclude w i out true s
       = (Raise e,
          {| fs := fs s;
             session := set_operation_status (Some StatusSuccess) (session s);
             temp_dir := temp_dir s; trace := trace s |}).
Proof.
  intros Hout. unfold EncryptDecryptPage.conclude. run_step.
  unfold Os.path_exists, Os.open_rb. repeat (rewrite Hout; simpl).
  eexists. reflexivity.
Qed.

Lemma enc_conclude_fail w i out ok s :
  ok = false ∨ fs s !! out = None →
  ∃ f' tr, EncryptDecryptPage.conclude w i out ok s
           = (Ret tt,
              {| fs := f';
                 session := set_operation_status (Some StatusFail) (session s);
                 temp_dir := temp_dir s; trace := trace s ++ tr |})
           ∧ inert tr ∧ (∀ p, fs s !! p = None → f' !! p = None).
Proof.
  intros H. unfold EncryptDecryptPage.conclude. run_step.
  assert (ok && Os.path_exists (fs s) out = false) as ->.
  { destruct H as [-> | H]; [reflexivity|].
    apply path_exists_false in H. rewrite H. apply andb_false_r. }
  unfold Os.path_exists, Os.remove.
  destruct (fs s !! out) as [[c|]|] eqn:E; simpl; repeat (rewrite E; simpl).
  - eexists _, _. split; [flatten_state; reflexivity|].
    split; [done|].
    intros p Hp. destruct (decide (p = out)) as [->|Hne].
    + apply lookup_delete_eq.
    + rewrite lookup_delete_ne; auto.
  - eexists _, _. split; [flatten_state; reflexivity|].
    split; [done|]. auto.
  - eexists _, _. split; [flatten_state; reflexivity|].
    split; [done|]. auto.
Qed.

(** ** The [finally] clause *)

Lemma remove_tree_root (f : FS) d : Os.remove_tree f d !! d = None.
Proof.
  unfold Os.remove_tree. apply map_lookup_filter_None. right.
  intros x _. simpl. unfold Os.under. rewrite String.eqb_refl. discriminate.
Qed.

Lemma enc_cleanup_spec w s :
  ∃ f' tr,
    EncryptDecryptPage.cleanup w s
    = (Ret tt, {| fs := f'; session := session s; temp_dir := temp_dir s;
                  trace := trace s ++ tr |})
    ∧ inert tr
    ∧ (∀ d, temp_dir s = Some d → Py.is_empty d = false →
            f' !! d = None
            ∨ ∃ e, Show PageBody LWarning (EncryptDecryptPage.cleanup_warning_text d e) ∈ tr)
    ∧ (∀ d, temp_dir s = Some d → Py.is_empty d = false → w_rmtree w = None →
            fs s !! d = Some Dir → f' = Os.remove_tree (fs s) d ∧ tr = [Rmtree d]).
Proof.
  destruct s as [f x t tr0].
  unfold EncryptDecryptPage.cleanup, rmtree. run_step.
  destruct t as [d|]; simpl.
  2:{ exists f, []. rewrite app_nil_r.
      split; [reflexivity|]. split; [done|]. split; intros; discriminate. }
  destruct (Py.is_empty d) eqn:Ee; simpl.
  { exists f, []. rewrite app_nil_r.
    split; [reflexivity|]. split; [done|]. split; intros d' [= <-]; congruence. }
  unfold Os.path_exists.
  destruct (f !! d) as [n|] eqn:El; simpl.
  2:{ exists f, []. rewrite app_nil_r.
      split; [reflexivity|]. split; [done|].
      split; intros d' [= <-]; auto; congruence. }
  destruct (w_rmtree w) as [e|] eqn:Er; simpl.
  { eexists _, _. split; [flatten_state; reflexivity|].
    split; [done|]. split.
    - intros d' [= <-] _. right. exists e. apply list_elem_of_In. simpl. auto.
    - intros; discriminate. }
  repeat (rewrite El; simpl).
  destruct n as [c|]; simpl.
  - eexists _, _. split; [flatten_state; reflexivity|].
    split; [done|]. split.
    + intros d' [= <-] _. right. eexists. apply list_elem_of_In. simpl. right. left. reflexivity.
    + intros d' [= <-] _ _ ?. congruence.
  - eexists _, _. split; [flatten_state; reflexivity|].
    split; [done|]. split.
    + intros d' [= <-] _. left. apply remove_tree_root.
    + intros d' [= <-] _ _ _. split; reflexivity.
Qed.

Lemma workspace_path_nonempty_created w f d :
  created w f = Some d → Py.is_empty d = false.
Proof.
  unfold created. destruct (w_mkdtemp w); [discriminate|].
  destruct (Os.path_exists _ _); [discriminate|]. intros [= <-]. reflexivity.
Qed.

#[local] Arguments EncryptDecrypt.run_openssl_command : simpl never.
#[local] Arguments EncryptDecrypt.get_file_preview : simpl never.
#[local] Arguments EncryptDecryptPage.conclude : simpl never.
#[local] Arguments ZipTool.run_zip_command : simpl never.
#[local] Arguments ZipPage.conclude : simpl never.
#[local] Arguments Os.write_file : simpl never.
#[local] Arguments Os.path_join : simpl never.
#[local] Arguments Os.path_exists : simpl never.
#[local] Arguments resolve : simpl never.
#[local] Arguments workspace_path : simpl never.

(** ** The [try] with its [except] clause *)

Ltac trace_facts H1 H2 H3 :=
  simpl; rewrite ?spawns_app, ?workspaces_app, ?downloads_app; simpl;
  rewrite ?spawns_app, ?workspaces_app, ?downloads_app; simpl;
  rewrite ?H1, ?H2, ?H3; simpl.

Ltac close_try :=
  simpl; eexists _, _; (split; [flatten_state; reflexivity|]).

Lemma enc_try_spec w i up s :
  ∃ f1 tr,
    try_except (EncryptDecryptPage.process w i up) EncryptDecryptPage.on_exception s
    = (Ret tt,
       {| fs := f1;
          session :=
            match captured w (enc_command i up) EncryptDecrypt.TIMEOUT
                    (output_filename_user i) up (fs s) with
            | Some content =>
              set_output_filename (Some (output_filename_user i))
                (set_output_content (Some content)
                   (set_operation_status (Some StatusSuccess) (session s)))
            | None => set_operation_status (Some StatusFail) (session s)
            end;
          temp_dir := match created w (fs s) with Some d => Some d | None => temp_dir s end;
          trace := trace s ++ tr |})
    ∧ workspaces tr = option_list (created w (fs s))
    ∧ spawns tr = match staged w up (fs s) with
                  | Some (d, _) => [(enc_command i up d, EncryptDecrypt.TIMEOUT)]
                  | None => []
                  end
    ∧ downloads tr = match captured w (enc_command i up) EncryptDecrypt.TIMEOUT
                             (output_filename_user i) up (fs s) with
                     | Some content => [(output_filename_user i, content)]
                     | None => []
                     end
    ∧ (∀ d f0 p f2 content,
         staged w up (fs s) = Some (d, f0) →
         resolve w (enc_command i up d) EncryptDecrypt.TIMEOUT f0 = Completed p f2 →
         returncode p = 0 →
         f2 !! Os.path_join d (output_filename_user i) = Some (File content) →
         f1 = f2).
Proof.
  destruct s as [f x t tr0].
  unfold EncryptDecryptPage.process, EncryptDecryptPage.on_exception, mkdtemp,
    captured, staged, created.
  run_step.
  destruct (w_mkdtemp w) as [e|name]; simpl.
  { close_try. split; [done|]. split; [done|]. split; [done|]. intros; discriminate. }
  destruct (Os.path_exists f (workspace_path name)) eqn:Ex; simpl.
  { close_try. split; [done|]. split; [done|]. split; [done|]. intros; discriminate. }
  set (d := workspace_path name).
  destruct (Os.write_file _ _ _) as [e|f0] eqn:Ew; simpl.
  { close_try. split; [done|]. split; [done|]. split; [done|]. intros; discriminate. }
  match goal with
  | |- context [EncryptDecrypt.run_openssl_command ?w ?a ?p ?s] =>
    destruct (run_openssl_command_spec w a p s) as (out & err & tr & -> & Htr1 & Htr2 & Htr3)
  end.
  simpl. fold (enc_command i up d).
  destruct (resolve w (enc_command i up d) EncryptDecrypt.TIMEOUT f0) as [p f2|f2|e f2|e] eqn:Er.
  2,3,4: match goal with
       | |- context [EncryptDecryptPage.conclude ?w ?i ?o false ?s] =>
         destruct (enc_conclude_fail w i o false s) as (f' & tr' & -> & (H1 & H2 & H3) & _);
           [left; reflexivity|]
       end;
       close_try; trace_facts Htr1 Htr2 Htr3; trace_facts H1 H2 H3;
       (split; [done|]); (split; [done|]); (split; [done|]);
       intros ????? [= <- <-] ?; congruence.
  destruct (returncode p =? 0)%Z eqn:Erc.
  2:{ match goal with
      | |- context [EncryptDecryptPage.conclude ?w ?i ?o false ?s] =>
        destruct (enc_conclude_fail w i o false s) as (f' & tr' & -> & (H1 & H2 & H3) & _);
          [left; reflexivity|]
      end.
      close_try; trace_facts Htr1 Htr2 Htr3; trace_facts H1 H2 H3.
      split; [done|]. split; [done|]. split; [done|].
      intros ????? [= <- <-] Hr Hrc. rewrite Er in Hr. injection Hr as <- <-.
      apply Z.eqb_neq in Erc. done. }
  destruct (f2 !! Os.path_join d (output_filename_user i)) as [[c|]|] eqn:Eo.
  - match goal with
    | |- context [EncryptDecryptPage.conclude ?w ?i ?o true ?s] =>
      destruct (enc_conclude_file w i o c s) as (tr' & -> & H1 & H2 & H3); [exact Eo|]
    end.
    close_try; trace_facts Htr1 Htr2 Htr3; trace_facts H1 H2 H3.
    split; [done|]. split; [done|]. split; [done|].
    intros ????? [= <- <-] Hr _ _. rewrite Er in Hr. injection Hr as <- <-. reflexivity.
  - match goal with
    | |- context [EncryptDecryptPage.conclude ?w ?i ?o true ?s] =>
      destruct (enc_conclude_dir w i o s) as (e & ->); [exact Eo|]
    end.
    close_try; trace_facts Htr1 Htr2 Htr3.
    split; [done|]. split; [done|]. split; [done|].
    intros ????? [= <- <-] Hr _ ?. rewrite Er in Hr. injection Hr as <- <-. congruence.
  - match goal with
    | |- context [EncryptDecryptPage.conclude ?w ?i ?o true ?s] =>
      destruct (enc_conclude_fail w i o true s) as (f' & tr' & -> & (H1 & H2 & H3) & _);
        [right; exact Eo|]
    end.
    close_try; trace_facts Htr1 Htr2 Htr3; trace_facts H1 H2 H3.
    split; [done|]. split; [done|]. split; [done|].
    intros ????? [= <- <-] Hr _ ?. rewrite Er in Hr. injection Hr as <- <-. congruence.
Qed.

(** ** Validation *)

Lemma enc_validate_ok i s :
  cipher_valid i → EncryptDecryptPage.validate i s = (Ret tt, s).
Proof.
  intros (Hp & Hc & Ho). unfold EncryptDecryptPage.validate. run_step.
  apply is_empty_false in Hp, Ho. rewrite Hp, Ho. simpl.
  destruct (operation i); [|reflexivity].
  rewrite (Hc eq_refl), String.eqb_refl. reflexivity.
Qed.

Lemma enc_validate_stops i s :
  ¬ cipher_valid i →
  ∃ msg, EncryptDecryptPage.validate i s = (Halt, with_event (Show StatusSlot LError msg) s)
         ∧ msg ∈ ["Password cannot be empty."; "Passwords do not match.";
                  "Output filename cannot be empty."].
Proof.
  intros Hn. unfold EncryptDecryptPage.validate. run_step.
  destruct (Py.is_empty (password i)) eqn:Ep; simpl.
  { eexists. split; [reflexivity|]. set_solver. }
  destruct (operation i) eqn:Eop; simpl.
  - destruct (String.eqb_spec (password i) (password_confirm i)) as [Heq|Hne]; simpl.
    + destruct (Py.is_empty (output_filename_user i)) eqn:Eo; simpl.
      { eexists. split; [reflexivity|]. set_solver. }
      exfalso. apply Hn. apply is_empty_false in Ep, Eo. repeat split; auto.
    + eexists. split; [reflexivity|]. set_solver.
  - destruct (Py.is_empty (output_filename_user i)) eqn:Eo; simpl.
    { eexists. split; [reflexivity|]. set_solver. }
    exfalso. apply Hn. apply is_empty_false in Ep, Eo. repeat split; auto.
    intros; congruence.
Qed.

Lemma zip_validate_ok i s :
  zip_valid i → ZipPage.validate i s = (Ret tt, s).
Proof.
  intros (Hp & Hc & Ho). unfold ZipPage.validate. run_step.
  apply is_empty_false in Hp, Ho. rewrite Hp, Ho. simpl.
  rewrite Hc, String.eqb_refl. reflexivity.
Qed.

Lemma zip_validate_stops i s :
  ¬ zip_valid i →
  ∃ msg, ZipPage.validate i s = (Halt, with_event (Show StatusSlot LError msg) s)
         ∧ msg ∈ ["Password cannot be empty."; "Passwords do not match.";
                  "Output ZIP filename cannot be empty."].
Proof.
  intros Hn. unfold ZipPage.validate. run_step.
  destruct (Py.is_empty (password i)) eqn:Ep; simpl.
  { eexists. split; [reflexivity|]. set_solver. }
  destruct (String.eqb_spec (password i) (password_confirm i)) as [Heq|Hne]; simpl.
  - destruct (Py.is_empty (output_filename_user i)) eqn:Eo; simpl.
    { eexists. split; [reflexivity|]. set_solver. }
    exfalso. apply Hn. apply is_empty_false in Ep, Eo. repeat split; auto.
  - eexists. split; [reflexivity|]. set_solver.
Qed.

(** ** The whole request, Encrypt/Decrypt page *)

#[local] Arguments EncryptDecryptPage.cleanup : simpl never.
#[local] Arguments EncryptDecryptPage.validate : simpl never.
#[local] Arguments EncryptDecryptPage.process : simpl never.
#[local] Arguments ZipPage.cleanup : simpl never.
#[local] Arguments ZipPage.validate : simpl never.
#[local] Arguments ZipPage.process : simpl never.

Lemma enc_run_block_spec w i up s :
  cipher_valid i →
  ∃ f' tr,
    EncryptDecryptPage.run_block w i up s
    = (Ret tt,
       {| fs := f';
          session :=
            match captured w (enc_command i up) EncryptDecrypt.TIMEOUT
                    (output_filename_user i) up (fs s) with
            | Some content => enc_succeeded (output_filename_user i) content (session s)
            | None => enc_failed (session s)
            end;
          temp_dir := created w (fs s);
          trace := trace s ++ tr |})
    ∧ workspaces tr = option_list (created w (fs s))
    ∧ spawns tr = match staged w up (fs s) with
                  | Some (d, _) => [(enc_command i up d, EncryptDecrypt.TIMEOUT)]
                  | None => []
                  end
    ∧ downloads tr = match captured w (enc_command i up) EncryptDecrypt.TIMEOUT
                             (output_filename_user i) up (fs s) with
                     | Some content => [(output_filename_user i, content)]
                     | None => []
                     end
    ∧ (∀ d, created w (fs s) = Some d →
            f' !! d = None
            ∨ ∃ e, Show PageBody LWarning (EncryptDecryptPage.cleanup_warning_text d e) ∈ tr)
    ∧ (∀ d f0 p f2 content,
         staged w up (fs s) = Some (d, f0) →
         resolve w (enc_command i up d) EncryptDecrypt.TIMEOUT f0 = Completed p f2 →
         returncode p = 0 →
         f2 !! Os.path_join d (output_filename_user i) = Some (File content) →
         w_rmtree w = None → f2 !! d = Some Dir →
         f' = Os.remove_tree f2 d).
Proof.
  intros Hv. destruct s as [f x t tr0].
  unfold EncryptDecryptPage.run_block.
  unfold mbind, M_bind, bind, assign, emit, set_temp_dir; simpl.
  rewrite (enc_validate_ok _ _ Hv). simpl.
  unfold try_finally.
  match goal with
  | |- context [try_except (EncryptDecryptPage.process w i up) _ ?s] =>
    destruct (enc_try_spec w i up s) as (f1 & tr1 & -> & Hw & Hs & Hd & Hf)
  end.
  match goal with
  | |- context [EncryptDecryptPage.cleanup w ?s] =>
    destruct (enc_cleanup_spec w s) as (f' & tr2 & -> & (H1 & H2 & H3) & Hc1 & Hc2)
  end; simpl in *.
  assert (∀ d f0, staged w up f = Some (d, f0) → created w f = Some d) as Hsc.
  { intros d f0. unfold staged, created. destruct (w_mkdtemp w); [discriminate|].
    destruct (Os.path_exists f _); [discriminate|].
    destruct (Os.write_file _ _ _); [discriminate|]. congruence. }
  exists f', ([Show StatusSlot LInfo
                 ("Processing " +:+ operation_name (operation i) +:+ "...");
               Emptied OutputPreviewSlot; Emptied DownloadSlot] ++ tr1 ++ tr2).
  split.
  { f_equal. flatten_state. f_equal. destruct (created w f); reflexivity. }
  trace_facts Hw Hs Hd; trace_facts H1 H2 H3; rewrite ?app_nil_r.
  split; [done|]. split; [done|]. split; [done|]. split.
  - intros d Hcr. rewrite Hcr in *.
    destruct (Hc1 d eq_refl (workspace_path_nonempty_created _ _ _ Hcr))
      as [Hgone|[e' Hin]].
    + left. exact Hgone.
    + right. exists e'. apply list_elem_of_In. simpl. do 3 right.
      apply in_or_app. right. apply list_elem_of_In. exact Hin.
  - intros d f0 p f2 content Hst Hr Hrc Ho Hrm Hdir.
    pose proof (Hsc d f0 Hst) as Hcr. rewrite Hcr in *.
    pose proof (Hf d f0 p f2 content Hst Hr Hrc Ho) as ->.
    apply (Hc2 d eq_refl (workspace_path_nonempty_created _ _ _ Hcr) Hrm Hdir).
Qed.

(** ** The whole request, Zip page *)

Lemma renamings_app tr1 tr2 : renamings (tr1 ++ tr2) = renamings tr1 ++ renamings tr2.
Proof. apply omap_app. Qed.

Lemma zip_conclude_file actual out content s :
  fs s !! out = Some (File content) →
  ZipPage.conclude actual out true s
  = (Ret tt,
     {| fs := fs s;
        session := set_output_zip_filename (Some actual)
                     (set_output_zip_content (Some content)
                        (set_zip_operation_status (Some StatusSuccess) (session s)));
        temp_dir := temp_dir s;
        trace := trace s ++
                 [Show StatusSlot LSuccess "Password-protected ZIP created successfully!";
                  DownloadButton ("Download " +:+ actual) content actual "application/zip"] |}).
Proof.
  intros Hout. unfold ZipPage.conclude. run_step.
  unfold Os.path_exists, Os.open_rb. repeat (rewrite Hout; simpl).
  flatten_state. reflexivity.
Qed.

Lemma zip_conclude_dir actual out s :
  fs s !! out = Some Dir →
  ∃ e, ZipPage.conclude actual out true s
       = (Raise e,
          {| fs := fs s;
             session := set_zip_operation_status (Some StatusSuccess) (session s);
             temp_dir := temp_dir s; trace := trace s |}).
Proof.
  intros Hout. unfold ZipPage.conclude. run_step.
  unfold Os.path_exists, Os.open_rb. repeat (rewrite Hout; simpl).
  eexists. reflexivity.
Qed.

Lemma zip_conclude_fail actual out ok s :
  ok = false ∨ fs s !! out = None →
  ∃ f', ZipPage.conclude actual out ok s
        = (Ret tt,
           {| fs := f';
              session := set_zip_operation_status (Some StatusFail) (session s);
              temp_dir := temp_dir s;
              trace := trace s ++
                       [Show StatusSlot LError "Failed to create ZIP file. See details above."] |}).
Proof.
  intros H. unfold ZipPage.conclude. run_step.
  assert (ok && Os.path_exists (fs s) out = false) as ->.
  { destruct H as [-> | H]; [reflexivity|].
    apply path_exists_false in H. rewrite H. apply andb_false_r. }
  unfold Os.path_exists, Os.remove.
  destruct (fs s !! out) as [[c|]|] eqn:E; simpl; repeat (rewrite E; simpl);
    eexists; flatten_state; reflexivity.
Qed.

Lemma zip_cleanup_spec w s :
  ∃ f' tr,
    ZipPage.cleanup w s
    = (Ret tt, {| fs := f'; session := session s; temp_dir := temp_dir s;
                  trace := trace s ++ tr |})
    ∧ inert tr ∧ renamings tr = []
    ∧ (∀ d, temp_dir s = Some d → Py.is_empty d = false →
            f' !! d = None
            ∨ ∃ e, Show PageBody LWarning (ZipPage.cleanup_warning_text d e) ∈ tr).
Proof.
  destruct s as [f x t tr0].
  unfold ZipPage.cleanup, rmtree. run_step.
  destruct t as [d|]; simpl.
  2:{ exists f, []. rewrite app_nil_r.
      split; [reflexivity|]. split; [done|]. split; [done|]. intros; discriminate. }
  destruct (Py.is_empty d) eqn:Ee; simpl.
  { exists f, []. rewrite app_nil_r.
    split; [reflexivity|]. split; [done|]. split; [done|]. intros d' [= <-]; congruence. }
  unfold Os.path_exists.
  destruct (f !! d) as [n|] eqn:El; simpl.
  2:{ exists f, []. rewrite app_nil_r.
      split; [reflexivity|]. split; [done|]. split; [done|].
      intros d' [= <-]; auto. }
  destruct (w_rmtree w) as [e|] eqn:Er; simpl.
  { eexists _, _. split; [flatten_state; reflexivity|].
    split; [done|]. split; [reflexivity|].
    intros d' [= <-] _. right. exists e. apply list_elem_of_In. simpl. auto. }
  repeat (rewrite El; simpl).
  destruct n as [c|]; simpl.
  - eexists _, _. split; [flatten_state; reflexivity|].
    split; [done|]. split; [reflexivity|].
    intros d' [= <-] _. right. eexists. apply list_elem_of_In. simpl.
    right. left. reflexivity.
  - eexists _, _. split; [flatten_state; reflexivity|].
    split; [done|]. split; [reflexivity|].
    intros d' [= <-] _. left. apply remove_tree_root.
Qed.

Lemma zip_try_spec w i up actual s :
  ∃ f1 tr,
    try_except (ZipPage.process w i up actual) ZipPage.on_exception s
    = (Ret tt,
       {| fs := f1;
          session :=
            match captured w (zip_page_command i actual up) ZipTool.TIMEOUT actual up (fs s) with
            | Some content =>
              set_output_zip_filename (Some actual)
                (set_output_zip_content (Some content)
                   (set_zip_operation_status (Some StatusSuccess) (session s)))
            | None => set_zip_operation_status (Some StatusFail) (session s)
            end;
          temp_dir := match created w (fs s) with Some d => Some d | None => temp_dir s end;
          trace := trace s ++ tr |})
    ∧ workspaces tr = option_list (created w (fs s))
    ∧ spawns tr = match staged w up (fs s) with
                  | Some (d, _) => [(zip_page_command i actual up d, ZipTool.TIMEOUT)]
                  | None => []
                  end
    ∧ downloads tr = match captured w (zip_page_command i actual up) ZipTool.TIMEOUT
                             actual up (fs s) with
                     | Some content => [(actual, content)]
                     | None => []
                     end
    ∧ renamings tr = [].
Proof.
  destruct s as [f x t tr0].
  unfold ZipPage.process, ZipPage.on_exception, mkdtemp, captured, staged, created.
  run_step.
  destruct (w_mkdtemp w) as [e|name]; simpl.
  { close_try. done. }
  destruct (Os.path_exists f (workspace_path name)) eqn:Ex; simpl.
  { close_try. done. }
  set (d := workspace_path name).
  destruct (Os.write_file _ _ _) as [e|f0] eqn:Ew; simpl.
  { close_try. done. }
  match goal with
  | |- context [ZipTool.run_zip_command ?w ?a ?p ?s] =>
    destruct (run_zip_command_spec w a p s)
      as (out & err & tr & -> & (Htr1 & Htr2 & Htr3) & Htr4)
  end.
  simpl. fold (zip_page_command i actual up d).
  destruct (resolve w (zip_page_command i actual up d) ZipTool.TIMEOUT f0)
    as [p f2|f2|e f2|e] eqn:Er.
  2,3,4: match goal with
       | |- context [ZipPage.conclude ?a ?o false ?s] =>
         destruct (zip_conclude_fail a o false s) as (f' & ->); [left; reflexivity|]
       end;
       close_try; trace_facts Htr1 Htr2 Htr3;
       rewrite ?renamings_app; simpl; rewrite ?renamings_app, ?Htr4; done.
  destruct (returncode p =? 0)%Z eqn:Erc.
  2:{ match goal with
      | |- context [ZipPage.conclude ?a ?o false ?s] =>
        destruct (zip_conclude_fail a o false s) as (f' & ->); [left; reflexivity|]
      end.
      close_try; trace_facts Htr1 Htr2 Htr3;
      rewrite ?renamings_app; simpl; rewrite ?renamings_app, ?Htr4; done. }
  destruct (f2 !! Os.path_join d actual) as [[c|]|] eqn:Eo.
  - match goal with
    | |- context [ZipPage.conclude ?a ?o true ?s] =>
      rewrite (zip_conclude_file a o c s Eo)
    end.
    close_try; trace_facts Htr1 Htr2 Htr3;
      rewrite ?renamings_app; simpl; rewrite ?renamings_app, ?Htr4; done.
  - match goal with
    | |- context [ZipPage.conclude ?a ?o true ?s] =>
      destruct (zip_conclude_dir a o s) as (e & ->); [exact Eo|]
    end.
    close_try; trace_facts Htr1 Htr2 Htr3;
      rewrite ?renamings_app; simpl; rewrite ?renamings_app, ?Htr4; done.
  - match goal with
    | |- context [ZipPage.conclude ?a ?o true ?s] =>
      destruct (zip_conclude_fail a o true s) as (f' & ->); [right; exact Eo|]
    end.
    close_try; trace_facts Htr1 Htr2 Htr3;
      rewrite ?renamings_app; simpl; rewrite ?renamings_app, ?Htr4; done.
Qed.

Lemma zip_choose_spec name s :
  ZipPage.choose_output_filename name s
  = (Ret (zip_name name),
     if Py.endswith ".zip" (Py.lower name) then s
     else with_event (Show PageBody LWarning (ZipPage.renamed_text (zip_name name))) s).
Proof.
  unfold ZipPage.choose_output_filename, zip_name. run_step.
  destruct (Py.endswith ".zip" (Py.lower name)); reflexivity.
Qed.

Lemma zip_run_block_spec w i up s :
  zip_valid i →
  ∃ f' tr,
    ZipPage.run_block w i up s
    = (Ret tt,
       {| fs := f';
          session :=
            match captured w (zip_page_command i (zip_name (output_filename_user i)) up)
                    ZipTool.TIMEOUT (zip_name (output_filename_user i)) up (fs s) with
            | Some content =>
              zip_succeeded (zip_name (output_filename_user i)) content (session s)
            | None => zip_failed (session s)
            end;
          temp_dir := created w (fs s);
          trace := trace s
                   ++ [Show StatusSlot LInfo "Processing..."; Emptied DownloadSlot]
                   ++ (if Py.endswith ".zip" (Py.lower (output_filename_user i)) then []
                       else [Show PageBody LWarning
                               (ZipPage.renamed_text (zip_name (output_filename_user i)))])
                   ++ tr |})
    ∧ workspaces tr = option_list (created w (fs s))
    ∧ spawns tr = match staged w up (fs s) with
                  | Some (d, _) =>
                    [(zip_page_command i (zip_name (output_filename_user i)) up d,
                      ZipTool.TIMEOUT)]
                  | None => []
                  end
    ∧ downloads tr = match captured w (zip_page_command i (zip_name (output_filename_user i)) up)
                             ZipTool.TIMEOUT (zip_name (output_filename_user i)) up (fs s) with
                     | Some content => [(zip_name (output_filename_user i), content)]
                     | None => []
                     end
    ∧ renamings tr = []
    ∧ (∀ d, created w (fs s) = Some d →
            f' !! d = None
            ∨ ∃ e, Show PageBody LWarning (ZipPage.cleanup_warning_text d e) ∈ tr).
Proof.
  intros Hv. destruct s as [f x t tr0].
  unfold ZipPage.run_block.
  unfold mbind, M_bind, bind, assign, emit, set_temp_dir; simpl.
  rewrite (zip_validate_ok _ _ Hv). simpl.
  rewrite zip_choose_spec.
  set (actual := zip_name (output_filename_user i)).
  unfold try_finally.
  destruct (Py.endswith ".zip" (Py.lower (output_filename_user i))); simpl.
  all: match goal with
       | |- context [try_except (ZipPage.process ?w0 ?i0 ?u0 ?a0) _ ?s] =>
         destruct (zip_try_spec w0 i0 u0 a0 s) as (f1 & tr1 & -> & Hw & Hs & Hd & Hr)
       end.
  all: match goal with
       | |- context [ZipPage.cleanup ?w0 ?s] =>
         destruct (zip_cleanup_spec w0 s) as (f' & tr2 & -> & (H1 & H2 & H3) & H4 & Hc1)
       end.
  all: simpl in *; exists f', (tr1 ++ tr2).
  all: split; [f_equal; flatten_state; f_equal; destruct (created _ _); reflexivity|].
  all: trace_facts Hw Hs Hd; trace_facts H1 H2 H3; rewrite ?app_nil_r;
       rewrite ?renamings_app, ?Hr, ?H4.
  all: split; [done|]; split; [done|]; split; [done|]; split; [done|].
  all: intros d Hcr; rewrite Hcr in *;
       destruct (Hc1 d eq_refl (workspace_path_nonempty_created _ _ _ Hcr))
         as [Hgone|[e' Hin]];
       [left; exact Hgone
       |right; exists e'; apply list_elem_of_In, in_or_app; right;
        apply list_elem_of_In; exact Hin].
Qed.

(** ** Properties of a whole request *)

Lemma captured_produced w command timeout out_name up f content :
  captured w command timeout out_name up f = Some content
  ↔ produced w command timeout out_name up f content.
Proof.
  unfold captured, produced. split.
  - destruct (staged w up f) as [[d f1]|]; [|discriminate].
    destruct (resolve _ _ _ _) as [p f2| | |] eqn:Er; try discriminate.
    destruct (returncode p =? 0)%Z eqn:Erc; [|discriminate].
    destruct (f2 !! _) as [[c|]|] eqn:Eo; try discriminate.
    intros [= <-]. exists d, f1, p, f2. apply Z.eqb_eq in Erc. auto.
  - intros (d & f1 & p & f2 & -> & -> & Hrc & ->).
    apply Z.eqb_eq in Hrc. rewrite Hrc. reflexivity.
Qed.

Lemma cipher_valid_dec i : {cipher_valid i} + {cipher_rejected i}.
Proof.
  unfold cipher_valid, cipher_rejected.
  destruct (decide (password i = EmptyString)) as [|Hp]; [right; auto|].
  destruct (decide (output_filename_user i = EmptyString)) as [|Ho]; [right; auto|].
  destruct (operation i) eqn:Eop.
  - destruct (decide (password i = password_confirm i)) as [|Hc].
    + left. auto.
    + right. auto.
  - left. repeat split; auto. discriminate.
Qed.

Lemma cipher_rejected_not_valid i : cipher_rejected i → ¬ cipher_valid i.
Proof.
  intros [H|[[H1 H2]|H]] (Hp & Hc & Ho); auto.
Qed.

Lemma zip_valid_dec i : {zip_valid i} + {zip_rejected i}.
Proof.
  unfold zip_valid, zip_rejected.
  destruct (decide (password i = EmptyString)) as [|Hp]; [right; auto|].
  destruct (decide (output_filename_user i = EmptyString)) as [|Ho]; [right; auto|].
  destruct (decide (password i = password_confirm i)) as [|Hc]; [left|right]; auto.
Qed.

Lemma zip_rejected_not_valid i : zip_rejected i → ¬ zip_valid i.
Proof.
  intros [H|[H|H]] (Hp & Hc & Ho); auto.
Qed.

Lemma enc_run_block_rejected w i up s :
  cipher_rejected i →
  ∃ msg s' tr,
    EncryptDecryptPage.run_block w i up s = (Halt, s')
    ∧ output_content (session s') = None
    ∧ fs s' = fs s
    ∧ trace s' = trace s ++ tr
    ∧ last tr = Some (Show StatusSlot LError msg)
    ∧ msg ∈ ["Password cannot be empty."; "Passwords do not match.";
             "Output filename cannot be empty."]
    ∧ spawns tr = [] ∧ workspaces tr = [].
Proof.
  intros Hc. apply cipher_rejected_not_valid in Hc. destruct s as [f x t tr0].
  unfold EncryptDecryptPage.run_block.
  unfold mbind, M_bind, bind, assign, emit, set_temp_dir; simpl.
  match goal with
  | |- context [EncryptDecryptPage.validate i ?s0] =>
    destruct (enc_validate_stops i s0 Hc) as (msg & -> & Hmsg)
  end.
  exists msg. eexists. eexists. split; [reflexivity|]. simpl.
  split; [reflexivity|]. split; [reflexivity|].
  split; [rewrite <- !app_assoc; reflexivity|].
  simpl. auto.
Qed.

Lemma zip_run_block_rejected w i up s :
  zip_rejected i →
  ∃ msg s' tr,
    ZipPage.run_block w i up s = (Halt, s')
    ∧ output_zip_content (session s') = None
    ∧ fs s' = fs s
    ∧ trace s' = trace s ++ tr
    ∧ last tr = Some (Show StatusSlot LError msg)
    ∧ msg ∈ ["Password cannot be empty."; "Passwords do not match.";
             "Output ZIP filename cannot be empty."]
    ∧ spawns tr = [] ∧ workspaces tr = [].
Proof.
  intros Hz. apply zip_rejected_not_valid in Hz. destruct s as [f x t tr0].
  unfold ZipPage.run_block.
  unfold mbind, M_bind, bind, assign, emit, set_temp_dir; simpl.
  match goal with
  | |- context [ZipPage.validate i ?s0] =>
    destruct (zip_validate_stops i s0 Hz) as (msg & -> & Hmsg)
  end.
  exists msg. eexists. eexists. split; [reflexivity|]. simpl.
  split; [reflexivity|]. split; [reflexivity|].
  split; [rewrite <- !app_assoc; reflexivity|].
  simpl. auto.
Qed.


Lemma sample_encrypt_valid : cipher_valid Sample.encrypt_notes.
Proof. repeat split; try discriminate. Defined.

Lemma sample_zip_valid : zip_valid Sample.zip_notes.
Proof. repeat split; try discriminate. Defined.

Lemma sample_encrypt_produced :
  produced Toy.world (enc_command Sample.encrypt_notes Sample.notes) 60
    "notes.enc" Sample.notes ∅ (Toy.magic ++ Toy.hello).
Proof.
  exists "/tmp/tmpk3v9",
         (<["/tmp/tmpk3v9/notes.txt" := File Toy.hello]> (<["/tmp/tmpk3v9" := Dir]> ∅)),
         {| returncode := 0; stdout := "salt=0011223344556677"; stderr := EmptyString |},
         (<["/tmp/tmpk3v9/notes.enc" := File (Toy.magic ++ Toy.hello)]>
            (<["/tmp/tmpk3v9/notes.txt" := File Toy.hello]> (<["/tmp/tmpk3v9" := Dir]> ∅))).
  split; [vm_compute; reflexivity|].
  split; [vm_compute; reflexivity|].
  split; [reflexivity|]. vm_compute; reflexivity.
Defined.


(** C2.  A request with an empty password, with (on Encrypt, and always on
    the Zip page) a confirmation that differs from the password, or with an
    empty output filename stops the run with a validation error: the file
    system is untouched, and what the run did neither creates a temporary
    directory nor calls [subprocess.run].  The same holds for the whole
    script run that the click on the Run button causes. *)
Theorem rejected_request_spawns_nothing
        (w : World) (ic iz : Inputs) (up : Upload) (s : St) :
  cipher_rejected ic → zip_rejected iz →
  (∃ msg s' tr,
     EncryptDecryptPage.run_block w ic up s = (Halt, s')
     ∧ fs s' = fs s
     ∧ trace s' = trace s ++ tr
     ∧ last tr = Some (Show StatusSlot LError msg)
     ∧ msg ∈ ["Password cannot be empty."; "Passwords do not match.";
              "Output filename cannot be empty."]
     ∧ spawns tr = [] ∧ workspaces tr = [])
  ∧
  (∃ msg s' tr,
     ZipPage.run_block w iz up s = (Halt, s')
     ∧ fs s' = fs s
     ∧ trace s' = trace s ++ tr
     ∧ last tr = Some (Show StatusSlot LError msg)
     ∧ msg ∈ ["Password cannot be empty."; "Passwords do not match.";
              "Output ZIP filename cannot be empty."]
     ∧ spawns tr = [] ∧ workspaces tr = [])
  ∧
  (uploaded_file ic = Some up → run_button ic = true →
   ∃ s' tr,
     EncryptDecryptPage.page w ic s = (Halt, s')
     ∧ fs s' = fs s ∧ trace s' = trace s ++ tr
     ∧ spawns tr = [] ∧ workspaces tr = [])
  ∧
  (uploaded_file iz = Some up → run_button iz = true →
   ∃ s' tr,
     ZipPage.page w iz s = (Halt, s')
     ∧ fs s' = fs s ∧ trace s' = trace s ++ tr
     ∧ spawns tr = [] ∧ workspaces tr = []).
Proof.
  intros Hc Hz. split; [|split; [|split]].
  - destruct (enc_run_block_rejected w ic up s Hc)
      as (msg & s' & tr & Hrun & _ & Hrest).
    exists msg, s', tr. split; [exact Hrun|exact Hrest].
  - destruct (zip_run_block_rejected w iz up s Hz)
      as (msg & s' & tr & Hrun & _ & Hrest).
    exists msg, s', tr. split; [exact Hrun|exact Hrest].
  - intros Hup Hbtn.
    unfold EncryptDecryptPage.page, EncryptDecrypt.check_openssl.
    unfold mbind, M_bind, bind, get_session, emit, halt, ret; simpl.
    destruct (w_which w EncryptDecrypt.OPENSSL_COMMAND); simpl.
    + rewrite Hup, Hbtn.
      destruct (enc_run_block_rejected w ic up s Hc)
        as (msg & s' & tr & Hrun & _ & Hfs & Htr & _ & _ & Hsp & Hws).
      rewrite Hrun. exists s', tr. auto.
    + eexists _, _. split; [reflexivity|]. simpl. auto.
  - intros Hup Hbtn.
    unfold ZipPage.page, ZipTool.check_zip_command.
    unfold mbind, M_bind, bind, get_session, emit, halt, ret; simpl.
    destruct (w_which w ZipTool.ZIP_COMMAND); simpl.
    + rewrite Hup, Hbtn.
      destruct (zip_run_block_rejected w iz up s Hz)
        as (msg & s' & tr & Hrun & _ & Hfs & Htr & _ & _ & Hsp & Hws).
      rewrite Hrun. exists s', tr. auto.
    + eexists _, _. split; [reflexivity|]. simpl. auto.
Qed.

Lemma sample_mismatch_rejected :
  cipher_rejected Sample.mismatch ∧ zip_rejected Sample.mismatch.
Proof.
  split.
  - right. left. split; [reflexivity|discriminate].
  - right. left. discriminate.
Defined.

Lemma rejected_request_spawns_nothing_witness :
  cipher_rejected Sample.mismatch ∧ zip_rejected Sample.mismatch
  ∧ ∃ s' tr,
      EncryptDecryptPage.run_block Toy.world Sample.mismatch Sample.notes Sample.start
      = (Halt, s')
      ∧ fs s' = ∅ ∧ trace s' = tr ∧ spawns tr = [] ∧ workspaces tr = [].
Proof.
  split; [exact (proj1 sample_mismatch_rejected)|].
  split; [exact (proj2 sample_mismatch_rejected)|].
  destruct (rejected_request_spawns_nothing Toy.world Sample.mismatch Sample.mismatch
              Sample.notes Sample.start
              (proj1 sample_mismatch_rejected) (proj2 sample_mismatch_rejected))
    as ((msg & s' & tr & Hrun & Hfs & Htr & _ & _ & Hsp & Hws) & _).
  exists s', tr. split; [exact Hrun|]. split; [exact Hfs|].
  split; [exact Htr|]. split; [exact Hsp|exact Hws].
Defined.

(** ** Calls of [rmtree] and warnings about a failed removal *)

Lemma cleanup_events_app tr1 tr2 :
  cleanup_events (tr1 ++ tr2) = cleanup_events tr1 ++ cleanup_events tr2.
Proof. apply omap_app. Qed.

Lemma quiet_silent {A} (m : M A) :
  (∀ s, ∃ r s', m s = (r, s') ∧ trace s' = trace s) → quiet m.
Proof.
  intros H s. destruct (H s) as (r & s' & Hm & Ht).
  exists r, s', []. rewrite app_nil_r. auto.
Qed.

Lemma quiet_ret {A} (a : A) : quiet (ret a).
Proof. apply quiet_silent. intros s. eexists _, _. split; reflexivity. Qed.

Lemma quiet_mret {A} (a : A) : quiet (mret a).
Proof. apply quiet_ret. Qed.

Lemma quiet_raise {A} e : quiet (@raise A e).
Proof. apply quiet_silent. intros s. eexists _, _. split; reflexivity. Qed.

Lemma quiet_halt {A} : quiet (@halt A).
Proof. apply quiet_silent. intros s. eexists _, _. split; reflexivity. Qed.

Lemma quiet_assign upd : quiet (assign upd).
Proof. apply quiet_silent. intros s. eexists _, _. split; reflexivity. Qed.

Lemma quiet_get_fs : quiet get_fs.
Proof. apply quiet_silent. intros s. eexists _, _. split; reflexivity. Qed.

Lemma quiet_put_fs f : quiet (put_fs f).
Proof. apply quiet_silent. intros s. eexists _, _. split; reflexivity. Qed.

Lemma quiet_get_session : quiet get_session.
Proof. apply quiet_silent. intros s. eexists _, _. split; reflexivity. Qed.

Lemma quiet_get_temp_dir : quiet get_temp_dir.
Proof. apply quiet_silent. intros s. eexists _, _. split; reflexivity. Qed.

Lemma quiet_set_temp_dir d : quiet (set_temp_dir d).
Proof. apply quiet_silent. intros s. eexists _, _. split; reflexivity. Qed.

Lemma quiet_fs_read {A} (op : FS → exn + A) : quiet (fs_read op).
Proof.
  apply quiet_silent. intros s. unfold fs_read.
  destruct (op (fs s)); eexists _, _; split; reflexivity.
Qed.

Lemma quiet_fs_update op : quiet (fs_update op).
Proof.
  apply quiet_silent. intros s. unfold fs_update.
  destruct (op (fs s)); eexists _, _; split; reflexivity.
Qed.

Lemma quiet_emit e : cleanup_events [e] = [] → quiet (emit e).
Proof. intros He s. exists (Ret tt), (with_event e s), [e]. auto. Qed.

Lemma quiet_bind {A B} (m : M A) (k : A → M B) :
  quiet m → (∀ a, quiet (k a)) → quiet (mbind k m).
Proof.
  intros Hm Hk s. unfold mbind, M_bind, bind.
  destruct (Hm s) as (r & s1 & tr1 & -> & Ht1 & He1).
  destruct r as [a|e|].
  - destruct (Hk a s1) as (r2 & s2 & tr2 & -> & Ht2 & He2).
    exists r2, s2, (tr1 ++ tr2).
    rewrite Ht2, Ht1, <- app_assoc, cleanup_events_app, He1, He2. auto.
  - exists (Raise e), s1, tr1. auto.
  - exists Halt, s1, tr1. auto.
Qed.

Lemma quiet_try_except {A} (m : M A) (h : exn → M A) :
  quiet m → (∀ e, quiet (h e)) → quiet (try_except m h).
Proof.
  intros Hm Hh s. unfold try_except.
  destruct (Hm s) as (r & s1 & tr1 & -> & Ht1 & He1).
  destruct r as [a|e|].
  - exists (Ret a), s1, tr1. auto.
  - destruct (Hh e s1) as (r2 & s2 & tr2 & -> & Ht2 & He2).
    exists r2, s2, (tr1 ++ tr2).
    rewrite Ht2, Ht1, <- app_assoc, cleanup_events_app, He1, He2. auto.
  - exists Halt, s1, tr1. auto.
Qed.

Lemma quiet_when b m : quiet m → quiet (when b m).
Proof. intros Hm. destruct b; [exact Hm|apply quiet_ret]. Qed.

(** What a quiet computation adds to the trace has no removal in it. *)
Lemma quiet_events {A} (m : M A) s r s' tr :
  quiet m → m s = (r, s') → trace s' = trace s ++ tr → cleanup_events tr = [].
Proof.
  intros Hm Hrun Ht. destruct (Hm s) as (r0 & s0 & tr0 & Hrun0 & Ht0 & He0).
  rewrite Hrun in Hrun0. injection Hrun0 as _ <-.
  rewrite Ht in Ht0. apply app_inv_head in Ht0 as ->. exact He0.
Qed.

Create HintDb quiet.

Ltac quiet_step :=
  first
    [ progress cbv zeta
    | apply quiet_bind; [|intros ?]
    | apply quiet_try_except; [|intros ?]
    | apply quiet_when
    | apply quiet_ret | apply quiet_mret | apply quiet_raise | apply quiet_halt
    | apply quiet_assign | apply quiet_get_fs | apply quiet_put_fs
    | apply quiet_get_session | apply quiet_get_temp_dir | apply quiet_set_temp_dir
    | apply quiet_fs_read | apply quiet_fs_update
    | apply quiet_emit; reflexivity
    | solve [auto 1 with quiet nocore]
    | match goal with
      | |- quiet (if ?b then _ else _) => destruct b
      | |- quiet (match ?x with _ => _ end) => destruct x
      end ].

Lemma quiet_mkdtemp w : quiet (mkdtemp w).
Proof. unfold mkdtemp. repeat quiet_step. Qed.

Lemma quiet_subprocess_run w command timeout : quiet (subprocess_run w command timeout).
Proof. unfold subprocess_run. repeat quiet_step. Qed.

#[local] Hint Resolve quiet_mkdtemp quiet_subprocess_run : quiet.

Lemma quiet_run_openssl_command w args pw :
  quiet (EncryptDecrypt.run_openssl_command w args pw).
Proof. unfold EncryptDecrypt.run_openssl_command. repeat quiet_step. Qed.

Lemma quiet_run_zip_command w args pw : quiet (ZipTool.run_zip_command w args pw).
Proof. unfold ZipTool.run_zip_command. repeat quiet_step. Qed.

Lemma quiet_enc_conclude w i out ok : quiet (EncryptDecryptPage.conclude w i out ok).
Proof. unfold EncryptDecryptPage.conclude. repeat quiet_step. Qed.

Lemma quiet_zip_conclude actual out ok : quiet (ZipPage.conclude actual out ok).
Proof. unfold ZipPage.conclude. repeat quiet_step. Qed.

#[local] Hint Resolve quiet_run_openssl_command quiet_run_zip_command
  quiet_enc_conclude quiet_zip_conclude : quiet.

(** Neither [try] with its [except] clause removes anything. *)
Lemma quiet_enc_try w i up :
  quiet (try_except (EncryptDecryptPage.process w i up) EncryptDecryptPage.on_exception).
Proof.
  unfold EncryptDecryptPage.process, EncryptDecryptPage.on_exception. repeat quiet_step.
Qed.

Lemma quiet_zip_try w i up actual :
  quiet (try_except (ZipPage.process w i up actual) ZipPage.on_exception).
Proof. unfold ZipPage.process, ZipPage.on_exception. repeat quiet_step. Qed.

Lemma remove_tree_clears (f : FS) d : vacant (Os.remove_tree f d) d.
Proof.
  intros p Hp. unfold Os.remove_tree. apply map_lookup_filter_None. right.
  intros x _. simpl. rewrite Hp. discriminate.
Qed.

(** ** The [finally] clause, case by case *)

Lemma enc_cleanup_none w s :
  temp_dir s = None → EncryptDecryptPage.cleanup w s = (Ret tt, s).
Proof.
  destruct s as [f x t tr0]. simpl. intros ->.
  unfold EncryptDecryptPage.cleanup. run_step. reflexivity.
Qed.

Lemma zip_cleanup_none w s :
  temp_dir s = None → ZipPage.cleanup w s = (Ret tt, s).
Proof.
  destruct s as [f x t tr0]. simpl. intros ->.
  unfold ZipPage.cleanup. run_step. reflexivity.
Qed.

Lemma enc_cleanup_cases w s d :
  temp_dir s = Some d → Py.is_empty d = false →
  ∃ f' tr,
    EncryptDecryptPage.cleanup w s
    = (Ret tt, {| fs := f'; session := session s; temp_dir := Some d;
                  trace := trace s ++ tr |})
    ∧ cleanup_events tr = tr
    ∧ workspaces tr = []
    ∧ removed_or_warned w EncryptDecryptPage.cleanup_warning_text d f' tr.
Proof.
  destruct s as [f x t tr0]. simpl. intros -> Hne.
  unfold removed_or_warned, EncryptDecryptPage.cleanup, rmtree.
  run_step. rewrite Hne. simpl. unfold Os.path_exists.
  destruct (f !! d) as [n|] eqn:El; simpl.
  2:{ exists f, []. rewrite app_nil_r. split; [reflexivity|]. split; [reflexivity|]. split; [reflexivity|].
      right. left. auto. }
  destruct (w_rmtree w) as [e|] eqn:Er; simpl.
  { eexists f, _. split; [flatten_state; reflexivity|]. split; [reflexivity|]. split; [reflexivity|].
    right. right. exists e. rewrite El. eauto. }
  repeat (rewrite El; simpl).
  destruct n as [c|]; simpl.
  - eexists f, _. split; [flatten_state; reflexivity|]. split; [reflexivity|]. split; [reflexivity|].
    right. right. eexists. rewrite El. eauto 10.
  - eexists _, _. split; [flatten_state; reflexivity|]. split; [reflexivity|]. split; [reflexivity|].
    left. split; [reflexivity|apply remove_tree_clears].
Qed.

Lemma zip_cleanup_cases w s d :
  temp_dir s = Some d → Py.is_empty d = false →
  ∃ f' tr,
    ZipPage.cleanup w s
    = (Ret tt, {| fs := f'; session := session s; temp_dir := Some d;
                  trace := trace s ++ tr |})
    ∧ cleanup_events tr = tr
    ∧ workspaces tr = []
    ∧ removed_or_warned w ZipPage.cleanup_warning_text d f' tr.
Proof.
  destruct s as [f x t tr0]. simpl. intros -> Hne.
  unfold removed_or_warned, ZipPage.cleanup, rmtree.
  run_step. rewrite Hne. simpl. unfold Os.path_exists.
  destruct (f !! d) as [n|] eqn:El; simpl.
  2:{ exists f, []. rewrite app_nil_r. split; [reflexivity|]. split; [reflexivity|]. split; [reflexivity|].
      right. left. auto. }
  destruct (w_rmtree w) as [e|] eqn:Er; simpl.
  { eexists f, _. split; [flatten_state; reflexivity|]. split; [reflexivity|]. split; [reflexivity|].
    right. right. exists e. rewrite El. eauto. }
  repeat (rewrite El; simpl).
  destruct n as [c|]; simpl.
  - eexists f, _. split; [flatten_state; reflexivity|]. split; [reflexivity|]. split; [reflexivity|].
    right. right. eexists. rewrite El. eauto 10.
  - eexists _, _. split; [flatten_state; reflexivity|]. split; [reflexivity|]. split; [reflexivity|].
    left. split; [reflexivity|apply remove_tree_clears].
Qed.

(** ** How a request leaves its workspace *)

Lemma enc_run_block_removal w i up s :
  cipher_valid i →
  ∃ s' tr,
    EncryptDecryptPage.run_block w i up s = (Ret tt, s')
    ∧ trace s' = trace s ++ tr
    ∧ workspaces tr = option_list (created w (fs s))
    ∧ ∀ d, created w (fs s) = Some d →
           removed_or_warned w EncryptDecryptPage.cleanup_warning_text d (fs s')
             (cleanup_events tr).
Proof.
  intros Hv. destruct s as [f x t tr0].
  unfold EncryptDecryptPage.run_block.
  unfold mbind, M_bind, bind, assign, emit, set_temp_dir; simpl.
  rewrite (enc_validate_ok _ _ Hv). simpl.
  unfold try_finally.
  match goal with
  | |- context [try_except (EncryptDecryptPage.process w i up) _ ?s] =>
    destruct (enc_try_spec w i up s) as (f1 & tr1 & Htry & Hw & _);
    pose proof (quiet_events _ _ _ _ tr1 (quiet_enc_try w i up) Htry eq_refl) as Hq;
    rewrite Htry
  end.
  simpl in *. destruct (created w f) as [d|] eqn:Ecr.
  - match goal with
    | |- context [EncryptDecryptPage.cleanup w ?s] =>
      destruct (enc_cleanup_cases w s d eq_refl
                  (workspace_path_nonempty_created _ _ _ Ecr))
        as (f' & tr2 & -> & Hev & Hw2 & Hcase)
    end.
    eexists _, ([Show StatusSlot LInfo
                   ("Processing " +:+ operation_name (operation i) +:+ "...");
                 Emptied OutputPreviewSlot; Emptied DownloadSlot] ++ tr1 ++ tr2).
    split; [reflexivity|]. split; [flatten_state; reflexivity|].
    rewrite !workspaces_app, !cleanup_events_app, Hq, Hev, Hw, Hw2.
    split; [reflexivity|]. intros d' [= <-]. exact Hcase.
  - rewrite enc_cleanup_none by reflexivity.
    eexists _, ([Show StatusSlot LInfo
                   ("Processing " +:+ operation_name (operation i) +:+ "...");
                 Emptied OutputPreviewSlot; Emptied DownloadSlot] ++ tr1).
    split; [reflexivity|]. split; [flatten_state; reflexivity|].
    rewrite !workspaces_app, Hw. split; [reflexivity|]. intros; discriminate.
Qed.

Lemma zip_run_block_removal w i up s :
  zip_valid i →
  ∃ s' tr,
    ZipPage.run_block w i up s = (Ret tt, s')
    ∧ trace s' = trace s ++ tr
    ∧ workspaces tr = option_list (created w (fs s))
    ∧ ∀ d, created w (fs s) = Some d →
           removed_or_warned w ZipPage.cleanup_warning_text d (fs s') (cleanup_events tr).
Proof.
  intros Hv. destruct s as [f x t tr0].
  unfold ZipPage.run_block.
  unfold mbind, M_bind, bind, assign, emit, set_temp_dir; simpl.
  rewrite (zip_validate_ok _ _ Hv). simpl.
  rewrite zip_choose_spec.
  set (actual := zip_name (output_filename_user i)).
  set (pre := [Show StatusSlot LInfo "Processing..."; Emptied DownloadSlot]
              ++ (if Py.endswith ".zip" (Py.lower (output_filename_user i)) then []
                  else [Show PageBody LWarning (ZipPage.renamed_text actual)])).
  assert (workspaces pre = [] ∧ cleanup_events pre = []) as [Hpw Hpe].
  { unfold pre. destruct (Py.endswith _ _); split; reflexivity. }
  unfold try_finally.
  match goal with
  | |- context [try_except (ZipPage.process w i up actual) _ ?s] =>
    assert (fs s = f ∧ trace s = tr0 ++ pre) as [Hf0 Ht0]
      by (unfold pre; destruct (Py.endswith _ _); split; flatten_state; reflexivity);
    destruct (zip_try_spec w i up actual s) as (f1 & tr1 & Htry & Hw & _);
    pose proof (quiet_events _ _ _ _ tr1 (quiet_zip_try w i up actual) Htry eq_refl) as Hq;
    rewrite Htry; clear Htry; rewrite Hf0, Ht0 in *
  end.
  clearbody pre. simpl in *. destruct (created w f) as [d|] eqn:Ecr.
  - match goal with
    | |- context [ZipPage.cleanup w ?s] =>
      destruct (zip_cleanup_cases w s d eq_refl
                  (workspace_path_nonempty_created _ _ _ Ecr))
        as (f' & tr2 & -> & Hev & Hw2 & Hcase)
    end.
    eexists _, (pre ++ tr1 ++ tr2).
    split; [reflexivity|]. split; [flatten_state; reflexivity|].
    rewrite !workspaces_app, !cleanup_events_app, Hq, Hev, Hw, Hw2, Hpw, Hpe.
    split; [reflexivity|]. intros d' [= <-]. exact Hcase.
  - rewrite zip_cleanup_none by reflexivity.
    eexists _, (pre ++ tr1).
    split; [reflexivity|]. split; [flatten_state; reflexivity|].
    rewrite !workspaces_app, Hw, Hpw. split; [reflexivity|]. intros; discriminate.
Qed.

(** C3.  Whatever a request does, the run block ends normally and every
    temporary directory it created has been dealt with in one of three
    ways, told apart by the calls of [shutil.rmtree] and the cleanup
    warnings of the run:
    - [rmtree] was called once, no warning was shown, and nothing exists
      at or below the directory any more;
    - nothing was called or shown because the directory was already gone;
    - [rmtree] was called once and raised, either because removal fails on
      this host or because the path is no longer a directory; the warning
      with the directory and the text of that exception was shown, the
      directory is still there, and no exception escapes.
    This holds on every path: success, a failed program, and an exception
    while staging or reading. *)
Theorem workspace_removed_or_warned
        (w : World) (ic iz : Inputs) (up : Upload) (s : St) :
  (∃ r s' tr,
     EncryptDecryptPage.run_block w ic up s = (r, s')
     ∧ trace s' = trace s ++ tr
     ∧ ∀ d, d ∈ workspaces tr →
            r = Ret tt
            ∧ removed_or_warned w EncryptDecryptPage.cleanup_warning_text d (fs s')
                (cleanup_events tr))
  ∧
  (∃ r s' tr,
     ZipPage.run_block w iz up s = (r, s')
     ∧ trace s' = trace s ++ tr
     ∧ ∀ d, d ∈ workspaces tr →
            r = Ret tt
            ∧ removed_or_warned w ZipPage.cleanup_warning_text d (fs s')
                (cleanup_events tr)).
Proof.
  split.
  - destruct (cipher_valid_dec ic) as [Hv|Hr].
    + destruct (enc_run_block_removal w ic up s Hv) as (s' & tr & Hrun & Htr & Hw & Hcase).
      exists (Ret tt), s', tr. split; [exact Hrun|]. split; [exact Htr|].
      intros d Hd. split; [reflexivity|]. apply Hcase.
      rewrite Hw in Hd. destruct (created w (fs s)) as [d'|]; simpl in Hd.
      * apply list_elem_of_singleton in Hd as ->. reflexivity.
      * apply elem_of_nil in Hd. destruct Hd.
    + destruct (enc_run_block_rejected w ic up s Hr)
        as (msg & s' & tr & Hrun & _ & _ & Htr & _ & _ & _ & Hws).
      exists Halt, s', tr. split; [exact Hrun|]. split; [exact Htr|].
      intros d Hd. rewrite Hws in Hd. apply elem_of_nil in Hd. destruct Hd.
  - destruct (zip_valid_dec iz) as [Hv|Hr].
    + destruct (zip_run_block_removal w iz up s Hv) as (s' & tr & Hrun & Htr & Hw & Hcase).
      exists (Ret tt), s', tr. split; [exact Hrun|]. split; [exact Htr|].
      intros d Hd. split; [reflexivity|]. apply Hcase.
      rewrite Hw in Hd. destruct (created w (fs s)) as [d'|]; simpl in Hd.
      * apply list_elem_of_singleton in Hd as ->. reflexivity.
      * apply elem_of_nil in Hd. destruct Hd.
    + destruct (zip_run_block_rejected w iz up s Hr)
        as (msg & s' & tr & Hrun & _ & _ & Htr & _ & _ & _ & Hws).
      exists Halt, s', tr. split; [exact Hrun|]. split; [exact Htr|].
      intros d Hd. rewrite Hws in Hd. apply elem_of_nil in Hd. destruct Hd.
Qed.

Lemma workspace_removed_or_warned_witness :
  (∃ r s' tr,
     EncryptDecryptPage.run_block Toy.world Sample.encrypt_notes Sample.notes Sample.start
     = (r, s')
     ∧ trace s' = tr
     ∧ "/tmp/tmpk3v9" ∈ workspaces tr
     ∧ r = Ret tt
     ∧ cleanup_events tr = [Rmtree "/tmp/tmpk3v9"]
     ∧ vacant (fs s') "/tmp/tmpk3v9")
  ∧
  (∃ r s' tr e,
     ZipPage.run_block Denied.world Sample.zip_notes Sample.notes Sample.start = (r, s')
     ∧ trace s' = tr
     ∧ "/tmp/tmpk3v9" ∈ workspaces tr
     ∧ r = Ret tt
     ∧ cleanup_events tr
       = [Rmtree "/tmp/tmpk3v9";
          Show PageBody LWarning (ZipPage.cleanup_warning_text "/tmp/tmpk3v9" e)]
     ∧ w_rmtree Denied.world = Some e
     ∧ fs s' !! "/tmp/tmpk3v9" = Some Dir).
Proof.
  split.
  - destruct (workspace_removed_or_warned Toy.world Sample.encrypt_notes Sample.zip_notes
                Sample.notes Sample.start) as [(r & s' & tr & Hrun & Htr & Hcase) _].
    simpl in Htr.
    assert (s' = (EncryptDecryptPage.run_block Toy.world Sample.encrypt_notes
                    Sample.notes Sample.start).2) as Hs' by (rewrite Hrun; reflexivity).
    assert ("/tmp/tmpk3v9" ∈ workspaces tr) as Hin.
    { rewrite <- Htr, Hs'. vm_compute. apply list_elem_of_In. left. reflexivity. }
    assert (cleanup_events tr = [Rmtree "/tmp/tmpk3v9"]) as Hev
      by (rewrite <- Htr, Hs'; vm_compute; reflexivity).
    exists r, s', tr. split; [exact Hrun|]. split; [exact Htr|]. split; [exact Hin|].
    destruct (Hcase _ Hin) as [-> Hd]. split; [reflexivity|]. split; [exact Hev|].
    rewrite Hev in Hd. destruct Hd as [[_ Hvac]|[[[=] _]|(e & [=] & _)]]. exact Hvac.
  - destruct (workspace_removed_or_warned Denied.world Sample.encrypt_notes Sample.zip_notes
                Sample.notes Sample.start) as [_ (r & s' & tr & Hrun & Htr & Hcase)].
    simpl in Htr.
    assert (s' = (ZipPage.run_block Denied.world Sample.zip_notes
                    Sample.notes Sample.start).2) as Hs' by (rewrite Hrun; reflexivity).
    assert ("/tmp/tmpk3v9" ∈ workspaces tr) as Hin.
    { rewrite <- Htr, Hs'. vm_compute. apply list_elem_of_In. left. reflexivity. }
    assert (fs s' !! "/tmp/tmpk3v9" = Some Dir) as Hdir
      by (rewrite Hs'; vm_compute; reflexivity).
    destruct (Hcase _ Hin) as [-> Hd].
    destruct Hd as [[_ Hvac]|[[_ Hnone]|(e & Hev & _ & [Hrm|[[=] _]])]].
    + rewrite (Hvac "/tmp/tmpk3v9" eq_refl) in Hdir. discriminate.
    + rewrite Hnone in Hdir. discriminate.
    + exists (Ret tt), s', tr, e. auto 10.
Defined.

(** C5.  The command line handed to [subprocess.run] for a request that
    passes the checks: on the Encrypt/Decrypt page [openssl enc
    -aes-256-cbc -pbkdf2], then [-d] for Decrypt and [-p] for Encrypt,
    then [-in <input path> -out <output path>], then [-pass
    pass:<password>] added by the wrapper; on the Zip page [zip -j -e -P
    <password> <output path> <input path>].  It is the only call of the
    run, made once the upload is staged. *)
Theorem argument_vectors_as_specified
        (w : World) (ic iz : Inputs) (up : Upload) (s : St) :
  cipher_valid ic → zip_valid iz →
  (∃ s' tr,
     EncryptDecryptPage.run_block w ic up s = (Ret tt, s')
     ∧ trace s' = trace s ++ tr
     ∧ spawns tr =
       match staged w up (fs s) with
       | Some (d, _) =>
         [(["openssl"; "enc"; "-aes-256-cbc"; "-pbkdf2";
            match operation ic with Decrypt => "-d" | Encrypt => "-p" end;
            "-in"; Os.path_join d (up_name up);
            "-out"; Os.path_join d (output_filename_user ic);
            "-pass"; "pass:" +:+ password ic], 60)]
       | None => []
       end)
  ∧
  (∃ s' tr,
     ZipPage.run_block w iz up s = (Ret tt, s')
     ∧ trace s' = trace s ++ tr
     ∧ spawns tr =
       match staged w up (fs s) with
       | Some (d, _) =>
         [(["zip"; "-j"; "-e"; "-P"; password iz;
            Os.path_join d (zip_name (output_filename_user iz));
            Os.path_join d (up_name up)], 120)]
       | None => []
       end).
Proof.
  intros Hc Hz. split.
  - destruct (enc_run_block_spec w ic up s Hc) as (f' & tr & -> & _ & Hs & _).
    eexists _, tr. split; [reflexivity|]. split; [reflexivity|].
    rewrite Hs. destruct (staged w up (fs s)) as [[d f1]|]; [|reflexivity].
    unfold enc_command, openssl_command, EncryptDecryptPage.openssl_args.
    destruct (operation ic); reflexivity.
  - destruct (zip_run_block_spec w iz up s Hz) as (f' & tr & -> & _ & Hs & _).
    eexists _, _. split; [reflexivity|]. split; [reflexivity|].
    rewrite !spawns_app, Hs.
    destruct (Py.endswith _ _); simpl;
      (destruct (staged w up (fs s)) as [[d f1]|]; reflexivity).
Qed.

Lemma argument_vectors_as_specified_witness :
  cipher_valid Sample.encrypt_notes ∧ zip_valid Sample.zip_notes
  ∧ ∃ s' tr,
      EncryptDecryptPage.run_block Toy.world Sample.encrypt_notes Sample.notes Sample.start
      = (Ret tt, s')
      ∧ trace s' = tr
      ∧ spawns tr = [(["openssl"; "enc"; "-aes-256-cbc"; "-pbkdf2"; "-p";
                       "-in"; "/tmp/tmpk3v9/notes.txt";
                       "-out"; "/tmp/tmpk3v9/notes.enc";
                       "-pass"; "pass:secret123"], 60)].
Proof.
  split; [exact sample_encrypt_valid|]. split; [exact sample_zip_valid|].
  destruct (argument_vectors_as_specified Toy.world Sample.encrypt_notes Sample.zip_notes
              Sample.notes Sample.start sample_encrypt_valid sample_zip_valid)
    as [(s' & tr & Hrun & Htr & Hsp) _].
  exists s', tr. split; [exact Hrun|]. split; [exact Htr|].
  rewrite Hsp. vm_compute. reflexivity.
Defined.

(** C10.  On the Zip page a non-empty output filename that does not end in
    [.zip] (compared in lower case) gets [.zip] appended, with a warning
    shown before anything else happens; a filename that already ends in
    [.zip] in any case is kept and no such warning is shown.  The chosen
    name is the one in the output path given to [zip], the one stored in
    the session and the one on the download button. *)
Theorem zip_suffix_appended (w : World) (i : Inputs) (up : Upload) (s : St) :
  zip_valid i →
  let name := output_filename_user i in
  let actual := if Py.endswith ".zip" (Py.lower name) then name else name +:+ ".zip" in
  ∃ s' tr,
    ZipPage.run_block w i up s = (Ret tt, s')
    ∧ trace s' = trace s
                 ++ [Show StatusSlot LInfo "Processing..."; Emptied DownloadSlot]
                 ++ (if Py.endswith ".zip" (Py.lower name) then []
                     else [Show PageBody LWarning
                             ("Output filename didn't end with '.zip'. Using '"
                              +:+ actual +:+ "'.")])
                 ++ tr
    ∧ renamings tr = []
    ∧ spawns tr = match staged w up (fs s) with
                  | Some (d, _) =>
                    [(["zip"; "-j"; "-e"; "-P"; password i;
                       Os.path_join d actual; Os.path_join d (up_name up)], 120)]
                  | None => []
                  end
    ∧ (∀ n content, (n, content) ∈ downloads tr →
         n = actual
         ∧ output_zip_filename (session s') = Some actual
         ∧ output_zip_content (session s') = Some content)
    ∧ (∀ content,
         produced w (zip_page_command i actual up) 120 actual up (fs s) content →
         downloads tr = [(actual, content)]).
Proof.
  intros Hv name actual.
  destruct (zip_run_block_spec w i up s Hv) as (f' & tr & -> & _ & Hs & Hd & Hren & _).
  fold name in Hs, Hd |- *. change (zip_name name) with actual in *.
  eexists _, tr. split; [reflexivity|]. simpl.
  split; [reflexivity|]. split; [exact Hren|].
  split; [rewrite Hs; destruct (staged w up (fs s)) as [[d f1]|]; reflexivity|].
  split.
  - intros n content Hin. rewrite Hd in Hin.
    destruct (captured _ _ _ _ _ _) as [c|]; simpl in *.
    + apply list_elem_of_singleton in Hin. injection Hin as -> ->. auto.
    + apply elem_of_nil in Hin. destruct Hin.
  - intros content Hp. apply captured_produced in Hp.
    change ZipTool.TIMEOUT with 120 in Hd. rewrite Hp in Hd. exact Hd.
Qed.

Lemma zip_suffix_appended_witness :
  zip_valid Sample.zip_notes
  ∧ ∃ s' tr,
      ZipPage.run_block Toy.world Sample.zip_notes Sample.notes Sample.start = (Ret tt, s')
      ∧ trace s' = [Show StatusSlot LInfo "Processing..."; Emptied DownloadSlot;
                    Show PageBody LWarning
                      "Output filename didn't end with '.zip'. Using 'notes.zip'."] ++ tr
      ∧ spawns tr = [(["zip"; "-j"; "-e"; "-P"; "secret123";
                       "/tmp/tmpk3v9/notes.zip"; "/tmp/tmpk3v9/notes.txt"], 120)].
Proof.
  split; [exact sample_zip_valid|].
  destruct (zip_suffix_appended Toy.world Sample.zip_notes Sample.notes Sample.start
              sample_zip_valid) as (s' & tr & Hrun & Htr & _ & Hsp & _).
  exists s', tr. split; [exact Hrun|]. split; [exact Htr|].
  rewrite Hsp. vm_compute. reflexivity.
Defined.

(** A click on the Run button with a file uploaded makes the script run
    the request and nothing else. *)
Lemma enc_page_runs_request w i up s :
  w_which w EncryptDecrypt.OPENSSL_COMMAND = true →
  uploaded_file i = Some up → run_button i = true → clear_button i = false →
  EncryptDecryptPage.page w i s = EncryptDecryptPage.run_block w i up s.
Proof.
  intros Hw Hup Hbtn Hclr.
  unfold EncryptDecryptPage.page, EncryptDecrypt.check_openssl.
  unfold mbind, M_bind, bind, get_session, ret, when; simpl.
  rewrite Hw, Hup, Hbtn, Hclr. simpl.
  destruct (EncryptDecryptPage.run_block w i up s) as [[[]|e|] s']; reflexivity.
Qed.

Lemma zip_page_runs_request w i up s :
  w_which w ZipTool.ZIP_COMMAND = true →
  uploaded_file i = Some up → run_button i = true → clear_button i = false →
  ZipPage.page w i s = ZipPage.run_block w i up s.
Proof.
  intros Hw Hup Hbtn Hclr.
  unfold ZipPage.page, ZipTool.check_zip_command.
  unfold mbind, M_bind, bind, get_session, ret, when; simpl.
  rewrite Hw, Hup, Hbtn, Hclr. simpl.
  destruct (ZipPage.run_block w i up s) as [[[]|e|] s']; reflexivity.
Qed.

(** ** Properties of the wrappers *)

Lemma resolve_outlasts w command timeout f b :
  w_which w (hd EmptyString command) = true →
  w_exec w command f = inr b →
  outlasts b timeout →
  resolve w command timeout f = TimedOut (b_fs b (inject_Z timeout)).
Proof.
  intros Hw He Ho. unfold resolve, outlasts in *. rewrite Hw, He. simpl.
  destruct (b_exit b) as [[[[t rc] out] err]|]; [|reflexivity].
  rewrite Ho. reflexivity.
Qed.

(** C4.  Both wrappers call [subprocess.run] once, with [timeout=60] on
    the Encrypt/Decrypt page and [timeout=120] on the Zip page.  When the
    program has not exited by then, the child is killed and the wrapper
    returns normally with success flag [False], empty output text and the
    error text "Timeout expired", having shown the time-out message of its
    page. *)
Theorem timeout_bounded_and_reported
        (w : World) (args : list string) (password : string) (s : St) :
  (∃ r s' tr,
     EncryptDecrypt.run_openssl_command w args password s = (Ret r, s')
     ∧ trace s' = trace s ++ SubprocessRun (openssl_command args password) 60 :: tr
     ∧ spawns tr = [])
  ∧ (∀ b,
       w_which w "openssl" = true →
       w_exec w (openssl_command args password) (fs s) = inr b →
       outlasts b 60 →
       ∃ s',
         EncryptDecrypt.run_openssl_command w args password s
         = (Ret (false, EmptyString, "Timeout expired"), s')
         ∧ fs s' = b_fs b (inject_Z 60)
         ∧ trace s' = trace s ++
                      [SubprocessRun (openssl_command args password) 60;
                       Killed (openssl_command args password);
                       Show PageBody LError "OpenSSL command timed out after 60 seconds."])
  ∧ (∃ r s' tr,
       ZipTool.run_zip_command w args password s = (Ret r, s')
       ∧ trace s' = trace s ++ SubprocessRun (zip_command args) 120 :: tr
       ∧ spawns tr = [])
  ∧ (∀ b,
       w_which w "zip" = true →
       w_exec w (zip_command args) (fs s) = inr b →
       outlasts b 120 →
       ∃ s',
         ZipTool.run_zip_command w args password s
         = (Ret (false, EmptyString, "Timeout expired"), s')
         ∧ fs s' = b_fs b (inject_Z 120)
         ∧ trace s' = trace s ++
                      [SubprocessRun (zip_command args) 120;
                       Killed (zip_command args);
                       Show PageBody LError "Zip command timed out after 120 seconds."]).
Proof.
  split; [|split; [|split]].
  - destruct (run_openssl_command_spec w args password s) as (out & err & tr & -> & Hs & _).
    eexists _, _, tr. split; [reflexivity|]. split; [reflexivity|exact Hs].
  - intros b Hw He Ho.
    pose proof (resolve_outlasts w (openssl_command args password) 60 (fs s) b Hw He Ho) as Hr.
    unfold EncryptDecrypt.run_openssl_command, subprocess_run.
    fold (openssl_command args password). run_step.
    change EncryptDecrypt.TIMEOUT with 60. rewrite Hr. simpl.
    eexists. split; [reflexivity|]. simpl. split; [reflexivity|].
    rewrite <- !app_assoc. reflexivity.
  - destruct (run_zip_command_spec w args password s)
      as (out & err & tr & -> & (Hs & _) & _).
    eexists _, _, tr. split; [reflexivity|]. split; [reflexivity|exact Hs].
  - intros b Hw He Ho.
    pose proof (resolve_outlasts w (zip_command args) 120 (fs s) b Hw He Ho) as Hr.
    unfold ZipTool.run_zip_command, subprocess_run.
    fold (zip_command args). run_step.
    change ZipTool.TIMEOUT with 120. rewrite Hr. simpl.
    eexists. split; [reflexivity|]. simpl. split; [reflexivity|].
    rewrite <- !app_assoc. reflexivity.
Qed.

Lemma timeout_bounded_and_reported_witness :
  ∃ b s',
    w_exec Slow.world (openssl_command Slow.enc_args "secret123") Slow.staged_fs = inr b
    ∧ outlasts b 60
    ∧ EncryptDecrypt.run_openssl_command Slow.world Slow.enc_args "secret123"
        Slow.staged_state
      = (Ret (false, EmptyString, "Timeout expired"), s')
    ∧ trace s' = [SubprocessRun (openssl_command Slow.enc_args "secret123") 60;
                  Killed (openssl_command Slow.enc_args "secret123");
                  Show PageBody LError "OpenSSL command timed out after 60 seconds."].
Proof.
  destruct (timeout_bounded_and_reported Slow.world Slow.enc_args "secret123"
              Slow.staged_state) as (_ & Ht & _).
  eexists.
  match goal with
  | |- ∃ s', ?E = inr ?b ∧ _ =>
    assert (E = inr b) as He by (vm_compute; reflexivity)
  end.
  destruct (Ht _ eq_refl He) as (s' & Hrun & _ & Htr); [vm_compute; reflexivity|].
  exists s'. split; [exact He|]. split; [vm_compute; reflexivity|].
  split; [exact Hrun|exact Htr].
Defined.

(** ** Strings *)

Lemma string_app_nil_r (s : string) : s +:+ EmptyString = s.
Proof. induction s as [|c s IH]; simpl; [reflexivity|]. unfold String.app in *. simpl. f_equal. exact IH. Qed.

Lemma string_app_assoc (a b c : string) : (a +:+ b) +:+ c = a +:+ (b +:+ c).
Proof.
  induction a as [|x a IH]; [reflexivity|].
  change ((String x a +:+ b) +:+ c) with (String x ((a +:+ b) +:+ c)).
  change (String x a +:+ (b +:+ c)) with (String x (a +:+ (b +:+ c))).
  f_equal. exact IH.
Qed.

Lemma prefix_iff (p s : string) :
  String.prefix p s = true ↔ ∃ post, s = p +:+ post.
Proof.
  revert s. induction p as [|c p IH]; intros s.
  - split; [intros _; exists s; reflexivity|]. intros _. destruct s; reflexivity.
  - destruct s as [|c' s]; simpl.
    + split; [discriminate|]. intros [post H]. discriminate.
    + destruct (ascii_dec c c') as [->|Hne].
      * rewrite IH. split; intros [post H]; exists post.
        -- change (String c' p +:+ post) with (String c' (p +:+ post)). f_equal. exact H.
        -- change (String c' p +:+ post) with (String c' (p +:+ post)) in H.
           injection H as H. exact H.
      * split; [discriminate|]. intros [post H].
        change (String c p +:+ post) with (String c (p +:+ post)) in H.
        injection H as H1 H2. congruence.
Qed.

Lemma contains_nil needle : Py.contains needle EmptyString = String.prefix needle EmptyString.
Proof. destruct needle; reflexivity. Qed.

Lemma contains_cons needle c hay :
  Py.contains needle (String c hay)
  = if String.prefix needle (String c hay) then true else Py.contains needle hay.
Proof. reflexivity. Qed.

Lemma contains_iff (needle hay : string) :
  Py.contains needle hay = true ↔ ∃ pre post, hay = pre +:+ needle +:+ post.
Proof.
  induction hay as [|c hay IH].
  - rewrite contains_nil, prefix_iff. split.
    + intros [post H]. exists EmptyString, post. exact H.
    + intros (pre & post & H). destruct pre as [|x pre]; [|discriminate].
      exists post. exact H.
  - rewrite contains_cons.
    destruct (String.prefix needle (String c hay)) eqn:Ep.
    + split; [|reflexivity]. intros _. apply prefix_iff in Ep as [post H].
      exists EmptyString, post. exact H.
    + rewrite IH. split.
      * intros (pre & post & ->). exists (String c pre), post. reflexivity.
      * intros (pre & post & H). destruct pre as [|x pre].
        -- assert (String.prefix needle (String c hay) = true) as Ht
             by (apply prefix_iff; eauto).
           congruence.
        -- change (String x pre +:+ needle +:+ post)
             with (String x (pre +:+ needle +:+ post)) in H.
           injection H as _ ->. eauto.
Qed.

Lemma lower_app (a b : string) : Py.lower (a +:+ b) = Py.lower a +:+ Py.lower b.
Proof.
  induction a as [|c a IH]; [reflexivity|].
  change (String c a +:+ b) with (String c (a +:+ b)). simpl.
  change (String (Py.lower_ascii c) (Py.lower a) +:+ Py.lower b)
    with (String (Py.lower_ascii c) (Py.lower a +:+ Py.lower b)).
  f_equal. exact IH.
Qed.

Lemma lower_split (s a b : string) :
  Py.lower s = a +:+ b → ∃ a' b', s = a' +:+ b' ∧ Py.lower a' = a ∧ Py.lower b' = b.
Proof.
  revert s. induction a as [|c a IH]; intros s H.
  - exists EmptyString, s. auto.
  - destruct s as [|x s]; [discriminate|].
    change (String c a +:+ b) with (String c (a +:+ b)) in H. simpl in H.
    injection H as Hc Hs. destruct (IH s Hs) as (a' & b' & -> & Ha & Hb).
    exists (String x a'), b'. simpl. rewrite Ha, Hc. auto.
Qed.

(** The test [marker in stderr.lower()] is the search for [marker] up to
    case. *)
Lemma contains_lower_mentions (marker s : string) :
  Py.contains marker (Py.lower s) = true ↔ mentions marker s.
Proof.
  rewrite contains_iff. unfold mentions. split.
  - intros (pre & post & H).
    apply lower_split in H as (pre' & rest & -> & _ & H).
    apply lower_split in H as (mid & post' & -> & Hm & _).
    exists pre', mid, post'. auto.
  - intros (pre & mid & post & -> & <-).
    exists (Py.lower pre), (Py.lower post). rewrite !lower_app. reflexivity.
Qed.

Lemma nothing_to_zip_text_distinct rc err err' :
  ZipTool.nothing_to_zip_text rc err ≠ ZipTool.zip_error_text rc err'.
Proof.
  unfold ZipTool.nothing_to_zip_text, ZipTool.zip_error_text. intros H.
  apply (inj (String.app _)) in H. apply (inj (String.app _)) in H.
  apply (f_equal (String.get 2)) in H. vm_compute in H. discriminate.
Qed.

(** C7.  When [zip] exits with a non-zero code and its standard error
    contains "nothing to do" in any mix of upper and lower case, the
    wrapper shows the "Nothing to zip" message, which carries the exit code
    and the standard error text as the wrapper shows it everywhere (with
    surrounding white space stripped); every other non-zero exit gets the
    generic message, and the two messages are never the same text. *)
Theorem nothing_to_do_gets_clearer_message
        (w : World) (args : list string) (password : string) (s : St)
        (p : CompletedProcess) (f' : FS) :
  resolve w (zip_command args) 120 (fs s) = Completed p f' →
  returncode p ≠ 0 →
  (mentions "nothing to do" (stderr p) →
   ∃ s',
     ZipTool.run_zip_command w args password s
     = (Ret (false, Py.strip (stdout p), Py.strip (stderr p)), s')
     ∧ trace s' = trace s ++
                  [SubprocessRun (zip_command args) 120;
                   Show PageBody LError
                     ("Zip Error (Exit Code " +:+ pretty (returncode p)
                      +:+ "): Nothing to zip. Check input file path."
                      +:+ nl +:+ "```" +:+ nl +:+ Py.strip (stderr p) +:+ nl +:+ "```")])
  ∧ (¬ mentions "nothing to do" (stderr p) →
     ∃ s',
       ZipTool.run_zip_command w args password s
       = (Ret (false, Py.strip (stdout p), Py.strip (stderr p)), s')
       ∧ trace s' = trace s ++
                    [SubprocessRun (zip_command args) 120;
                     Show PageBody LError
                       ("Zip Error (Exit Code " +:+ pretty (returncode p) +:+ "):"
                        +:+ nl +:+ "```" +:+ nl +:+ Py.strip (stderr p) +:+ nl +:+ "```")])
  ∧ ZipTool.nothing_to_zip_text (returncode p) (stderr p)
    ≠ ZipTool.zip_error_text (returncode p) (stderr p).
Proof.
  intros Hr Hrc. apply Z.eqb_neq in Hrc.
  split; [|split; [|apply nothing_to_zip_text_distinct]].
  - intros Hm. apply contains_lower_mentions in Hm.
    unfold ZipTool.run_zip_command, subprocess_run. fold (zip_command args). run_step.
    change ZipTool.TIMEOUT with 120. rewrite Hr. simpl. rewrite Hrc. simpl.
    rewrite Hm. simpl. eexists. split; [reflexivity|]. simpl.
    rewrite <- !app_assoc. reflexivity.
  - intros Hm. rewrite <- contains_lower_mentions in Hm. apply not_true_is_false in Hm.
    unfold ZipTool.run_zip_command, subprocess_run. fold (zip_command args). run_step.
    change ZipTool.TIMEOUT with 120. rewrite Hr. simpl. rewrite Hrc. simpl.
    rewrite Hm. simpl. eexists. split; [reflexivity|]. simpl.
    rewrite <- !app_assoc. reflexivity.
Qed.

Lemma nothing_to_do_gets_clearer_message_witness :
  ∃ p s',
    resolve Toy.world (zip_command Boundary.missing_args) 120 ∅ = Completed p ∅
    ∧ returncode p ≠ 0
    ∧ mentions "nothing to do" (stderr p)
    ∧ ZipTool.run_zip_command Toy.world Boundary.missing_args "secret123" Boundary.empty_state
      = (Ret (false, EmptyString, "zip error: Nothing to do! (/tmp/tmpk3v9/out.zip)"), s')
    ∧ trace s' = [SubprocessRun (zip_command Boundary.missing_args) 120;
                  Show PageBody LError
                    ("Zip Error (Exit Code 12): Nothing to zip. Check input file path."
                     +:+ nl +:+ "```" +:+ nl
                     +:+ "zip error: Nothing to do! (/tmp/tmpk3v9/out.zip)"
                     +:+ nl +:+ "```")].
Proof.
  pose (p := {| returncode := 12; stdout := EmptyString;
                stderr := "zip error: Nothing to do! (/tmp/tmpk3v9/out.zip)" |}).
  assert (resolve Toy.world (zip_command Boundary.missing_args) 120 ∅ = Completed p ∅)
    as Hr by (vm_compute; reflexivity).
  assert (returncode p ≠ 0) as Hrc by discriminate.
  assert (mentions "nothing to do" (stderr p)) as Hm
    by (apply contains_lower_mentions; vm_compute; reflexivity).
  destruct (nothing_to_do_gets_clearer_message Toy.world Boundary.missing_args "secret123"
              Boundary.empty_state p ∅ Hr Hrc) as (Hyes & _ & _).
  destruct (Hyes Hm) as (s' & Hrun & Htr).
  exists p, s'. split; [exact Hr|]. split; [exact Hrc|]. split; [exact Hm|].
  split; [exact Hrun|exact Htr].
Defined.

(** C7 with the raw text fails: [zip] ends its message with a line break
    and may indent it, and the wrapper strips both before it shows or
    returns the text, so the message does not contain the standard error
    as the program wrote it. *)
Lemma nothing_to_zip_message_has_stripped_stderr :
  ∃ p f' s',
    resolve Padded.world (zip_command Boundary.missing_args) 120 ∅ = Completed p f'
    ∧ returncode p ≠ 0
    ∧ mentions "nothing to do" (stderr p)
    ∧ ZipTool.run_zip_command Padded.world Boundary.missing_args "secret123"
        Boundary.empty_state
      = (Ret (false, EmptyString, Py.strip (stderr p)), s')
    ∧ trace s' = [SubprocessRun (zip_command Boundary.missing_args) 120;
                  Show PageBody LError (ZipTool.nothing_to_zip_text 12 (stderr p))]
    ∧ Py.strip (stderr p) ≠ stderr p
    ∧ ¬ ∃ pre post,
          ZipTool.nothing_to_zip_text 12 (stderr p) = pre +:+ stderr p +:+ post.
Proof.
  eexists _, _, _.
  split; [vm_compute; reflexivity|].
  split; [discriminate|].
  split; [apply contains_lower_mentions; vm_compute; reflexivity|].
  split; [vm_compute; reflexivity|].
  split; [vm_compute; reflexivity|].
  split; [vm_compute; discriminate|].
  rewrite <- contains_iff. vm_compute. discriminate.
Qed.

(** ** The preview *)

Lemma len_acc {A} (l : list A) (n : N) :
  fold_left (fun n _ => N.succ n) l n = (n + N.of_nat (length l))%N.
Proof.
  revert n. induction l as [|x l IH]; intros n; simpl.
  - rewrite N.add_0_r. reflexivity.
  - rewrite IH. lia.
Qed.

Lemma len_length {A} (l : list A) : Py.len l = N.of_nat (length l).
Proof. unfold Py.len. rewrite len_acc. reflexivity. Qed.

Lemma prefix_upto_all {A} (n : N) (l : list A) :
  (Py.len l <= n)%N → Py.prefix_upto n l = l.
Proof.
  rewrite len_length. revert n. induction l as [|x l IH]; intros n Hn; simpl; [reflexivity|].
  simpl in Hn. destruct (N.eqb_spec n 0) as [->|Hne]; [lia|].
  f_equal. apply IH. lia.
Qed.

Lemma prefix_upto_len {A} (n : N) (l : list A) :
  Py.len (Py.prefix_upto n l) = N.min n (Py.len l).
Proof.
  rewrite !len_length. revert n. induction l as [|x l IH]; intros n; simpl.
  - lia.
  - destruct (N.eqb_spec n 0) as [->|Hne]; simpl; [lia|].
    rewrite Nat2N.inj_succ, IH. lia.
Qed.

Lemma preview_of_file w (f : FS) path data :
  f !! path = Some (File data) →
  EncryptDecrypt.get_file_preview w f path
  = if (Py.len data =? 0)%N then "(File is empty)"
    else if (EncryptDecrypt.PREVIEW_SIZE_LIMIT <? Py.len data)%N
    then EncryptDecrypt.too_large_text (Py.len data)
    else if text_like w path then
      match Utf8.decode data with
      | Some content_str =>
        EncryptDecrypt.text_preview_text (EncryptDecrypt.preview_content content_str)
      | None => EncryptDecrypt.hex_preview_text data
      end
    else EncryptDecrypt.hex_preview_text data.
Proof.
  intros Hf. unfold EncryptDecrypt.get_file_preview, Os.path_getsize, Os.open_rb, text_like.
  rewrite Hf.
  destruct (Py.len data =? 0)%N; [reflexivity|].
  destruct (N.ltb_spec EncryptDecrypt.PREVIEW_SIZE_LIMIT (Py.len data)) as [|Hle];
    [reflexivity|].
  rewrite (prefix_upto_all _ _ Hle).
  destruct (w_guess_type w path) as [m|]; [|reflexivity].
  destruct m; reflexivity.
Qed.

(** C8, as the code has it.  For a file of [size] bytes: size 0 gives
    "(File is empty)"; a size strictly above 5 * 1024 * 1024 gives the size
    notice and none of the content; any size from 1 up to and including
    the limit gives content: for a path with a text MIME type and valid
    UTF-8 bytes the text itself when it has at most 100 lines and otherwise
    its first 100 lines followed by a truncation mark, and for everything
    else the hexadecimal form of the first 256 bytes. *)
Theorem preview_by_size (w : World) (f : FS) (path : string) (data : Py.bytes) :
  f !! path = Some (File data) →
  let size := Py.len data in
  (size = 0%N → EncryptDecrypt.get_file_preview w f path = "(File is empty)")
  ∧ ((5 * 1024 * 1024 < size)%N →
     EncryptDecrypt.get_file_preview w f path
     = "(File is too large for preview: " +:+ Fmt.fixed2 size (1024 * 1024) +:+ " MB)")
  ∧ ((0 < size <= 5 * 1024 * 1024)%N →
     (∀ text, text_like w path = true → Utf8.decode data = Some text →
        let lines := Utf8.splitlines text in
        ∃ shown,
          EncryptDecrypt.get_file_preview w f path = EncryptDecrypt.text_preview_text shown
          ∧ ((Py.len lines <= 100)%N → shown = text)
          ∧ ((100 < Py.len lines)%N →
             shown = Py.join nl (Py.prefix_upto 100 lines) +:+ nl +:+ "... (truncated)"
             ∧ Py.len (Py.prefix_upto 100 lines) = 100%N))
     ∧ (text_like w path = false ∨ Utf8.decode data = None →
        EncryptDecrypt.get_file_preview w f path
        = "(Binary file detected or Text decoding failed)" +:+ nl
          +:+ "**Hex Preview (first 256 bytes):**" +:+ nl +:+ "```" +:+ nl
          +:+ Py.hex " " (Py.prefix_upto 256 data) +:+ nl +:+ "...```"
        ∧ (Py.len (Py.prefix_upto 256 data) <= 256)%N)).
Proof.
  intros Hf size. rewrite (preview_of_file w f path data Hf). fold size.
  change EncryptDecrypt.PREVIEW_SIZE_LIMIT with (5 * 1024 * 1024)%N.
  split; [|split].
  - intros ->. reflexivity.
  - intros Hbig. destruct (N.eqb_spec size 0) as [H0|_]; [lia|].
    apply N.ltb_lt in Hbig. rewrite Hbig. reflexivity.
  - intros [Hpos Hle].
    destruct (N.eqb_spec size 0) as [H0|_]; [lia|].
    apply N.ltb_ge in Hle. rewrite Hle. split.
    + intros text -> -> lines. eexists. split; [reflexivity|].
      unfold EncryptDecrypt.preview_content. fold lines.
      change EncryptDecrypt.PREVIEW_LINES_LIMIT with 100%N. split.
      * intros H. apply N.ltb_ge in H. rewrite H. reflexivity.
      * intros H. pose proof H as H'. apply N.ltb_lt in H'. rewrite H'.
        split; [reflexivity|]. rewrite prefix_upto_len. lia.
    + intros Hhex. split; [|rewrite prefix_upto_len; lia].
      destruct Hhex as [-> | ->]; [reflexivity|].
      destruct (text_like w path); reflexivity.
Qed.

Lemma preview_by_size_witness :
  ∃ f : FS,
    f !! "/tmp/tmpk3v9/notes.txt" = Some (File Toy.hello)
    ∧ ∃ shown,
        EncryptDecrypt.get_file_preview Toy.world f "/tmp/tmpk3v9/notes.txt"
        = EncryptDecrypt.text_preview_text shown
        ∧ shown = "hello".
Proof.
  exists Slow.staged_fs.
  assert (Slow.staged_fs !! "/tmp/tmpk3v9/notes.txt" = Some (File Toy.hello)) as Hf
    by (vm_compute; reflexivity).
  split; [exact Hf|].
  destruct (preview_by_size Toy.world Slow.staged_fs "/tmp/tmpk3v9/notes.txt" Toy.hello Hf)
    as (_ & _ & Hmid).
  destruct Hmid as [Htext _]; [vm_compute; split; [reflexivity|discriminate]|].
  destruct (Htext "hello") as (shown & Hp & Hall & _);
    [vm_compute; reflexivity|vm_compute; reflexivity|].
  exists shown. split; [exact Hp|]. apply Hall. vm_compute. discriminate.
Defined.

Lemma boundary_size : Py.len Boundary.data = (5 * 1024 * 1024)%N.
Proof.
  unfold Boundary.data. rewrite len_length, length_replicate, N2Nat.id. reflexivity.
Qed.

(** C8 as stated fails at the boundary: a file of exactly 5 * 1024 * 1024
    bytes is "at or above" the limit, yet its preview is the hexadecimal
    form of its first bytes and not the size notice. *)
Lemma preview_at_the_limit_is_content :
  Boundary.disk !! "/tmp/tmpk3v9/big.bin" = Some (File Boundary.data)
  ∧ (EncryptDecrypt.PREVIEW_SIZE_LIMIT <= Py.len Boundary.data)%N
  ∧ EncryptDecrypt.get_file_preview Toy.world Boundary.disk "/tmp/tmpk3v9/big.bin"
    = EncryptDecrypt.hex_preview_text Boundary.data
  ∧ EncryptDecrypt.get_file_preview Toy.world Boundary.disk "/tmp/tmpk3v9/big.bin"
    ≠ EncryptDecrypt.too_large_text (Py.len Boundary.data).
Proof.
  assert (Boundary.disk !! "/tmp/tmpk3v9/big.bin" = Some (File Boundary.data)) as Hf
    by apply lookup_singleton_eq.
  split; [exact Hf|]. split; [rewrite boundary_size; reflexivity|].
  rewrite (preview_of_file Toy.world _ _ _ Hf), boundary_size.
  change (text_like Toy.world "/tmp/tmpk3v9/big.bin") with false.
  change ((5 * 1024 * 1024 =? 0)%N) with false.
  change ((EncryptDecrypt.PREVIEW_SIZE_LIMIT <? 5 * 1024 * 1024)%N) with false.
  cbv iota. split; [reflexivity|].
  intros H. apply (f_equal (String.get 1)) in H.
  unfold EncryptDecrypt.hex_preview_text, EncryptDecrypt.too_large_text in H.
  discriminate H.
Qed.

(** ** Clear All *)

#[local] Arguments EncryptDecryptPage.run_block : simpl never.
#[local] Arguments EncryptDecryptPage.previous_block : simpl never.
#[local] Arguments ZipPage.run_block : simpl never.

Lemma enc_preview_block_session w up s r s' :
  EncryptDecryptPage.preview_block w up s = (r, s') → session s' = session s.
Proof.
  destruct s as [f x t tr0].
  unfold EncryptDecryptPage.preview_block, mkdtemp, rmtree. run_step.
  destruct (w_mkdtemp w) as [e|name]; simpl.
  { destruct t as [d|]; simpl.
    - destruct (Py.is_empty d); simpl; [intros [= <- <-]; reflexivity|].
      destruct (w_rmtree w); simpl; [intros [= <- <-]; reflexivity|].
      destruct (f !! d) as [[c|]|]; simpl; intros [= <- <-]; reflexivity.
    - intros [= <- <-]; reflexivity. }
  destruct (Os.path_exists f (workspace_path name)); simpl.
  { destruct t as [d|]; simpl.
    - destruct (Py.is_empty d); simpl; [intros [= <- <-]; reflexivity|].
      destruct (w_rmtree w); simpl; [intros [= <- <-]; reflexivity|].
      destruct (f !! d) as [[c|]|]; simpl; intros [= <- <-]; reflexivity.
    - intros [= <- <-]; reflexivity. }
  destruct (Os.write_file _ _ _) as [e|f0]; simpl.
  all: destruct (w_rmtree w); simpl; [intros [= <- <-]; reflexivity|].
  all: match goal with
       | |- context [?m !! workspace_path ?n] =>
         destruct (m !! workspace_path n) as [[c|]|]; simpl
       end.
  all: intros [= <- <-]; reflexivity.
Qed.

(** C9 at a concrete session.  With a file uploaded and a password typed
    twice on both pages, Clear All empties the result state on both; the
    next run of the Zip page reads empty fields, but the next run of the
    Encrypt/Decrypt page reads the same file and the same passwords as
    before, because its widgets keep their identities. *)
Theorem clear_all_on_filled_session :
  let s_enc := (EncryptDecryptWidgets.script Toy.world Streamlit.ClickClear Filled.state).2 in
  let s_zip := (ZipWidgets.script Toy.world Streamlit.ClickClear Filled.state).2 in
  let next_enc := EncryptDecryptWidgets.read_inputs (session s_enc) Streamlit.NoClick in
  let next_zip := ZipWidgets.read_inputs (session s_zip) Streamlit.NoClick in
  (output_content (session s_enc) = None ∧ output_filename (session s_enc) = None
   ∧ operation_status (session s_enc) = None)
  ∧ (output_zip_content (session s_zip) = None ∧ output_zip_filename (session s_zip) = None
     ∧ zip_operation_status (session s_zip) = None)
  ∧ (uploaded_file next_zip = None ∧ password next_zip = EmptyString
     ∧ password_confirm next_zip = EmptyString ∧ output_filename_user next_zip = EmptyString)
  ∧ (uploaded_file next_enc = Some Sample.notes ∧ password next_enc = "hunter2"
     ∧ password_confirm next_enc = "hunter2" ∧ output_filename_user next_enc = "notes.enc").
Proof. vm_compute. repeat split. Qed.

(** ** Paths inside the workspace *)

Lemma string_cons_app c (a b : string) : String c a +:+ b = String c (a +:+ b).
Proof. reflexivity. Qed.

Lemma no_slash_head n : Os.no_slash n = true → Os.head_upto_last_slash n = None.
Proof.
  induction n as [|c n IH]; simpl; [reflexivity|].
  intros [Hc Hn]%andb_true_iff. rewrite (IH Hn).
  apply negb_true_iff in Hc. rewrite Hc. reflexivity.
Qed.

Lemma head_upto_last_slash_app a n :
  Os.no_slash n = true →
  Os.head_upto_last_slash (a +:+ String "/" n) = Some (a +:+ "/").
Proof.
  intros Hn. induction a as [|c a IH].
  - change (EmptyString +:+ String "/" n) with (String "/" n). simpl.
    rewrite (no_slash_head n Hn). reflexivity.
  - rewrite !string_cons_app.
    change (Os.head_upto_last_slash (String c (a +:+ String "/" n)))
      with (match Os.head_upto_last_slash (a +:+ String "/" n) with
            | Some h => Some (String c h)
            | None => if Ascii.eqb c "/" then Some (String c EmptyString) else None
            end).
    rewrite IH. reflexivity.
Qed.

Lemma no_slash_endswith s : Os.no_slash s = true → Py.endswith "/" s = false.
Proof.
  induction s as [|c s IH]; simpl; [reflexivity|].
  intros [Hc Hn]%andb_true_iff. apply negb_true_iff in Hc.
  rewrite Hc. simpl. apply IH, Hn.
Qed.

Lemma no_slash_ends_clean s : Os.no_slash s = true → ends_clean s = true.
Proof.
  induction s as [|c s IH]; [reflexivity|]. simpl.
  intros [Hc Hn]%andb_true_iff. destruct s; [exact Hc|]. apply IH, Hn.
Qed.

Lemma rstrip_slashes_app a : ends_clean a = true → Os.rstrip_slashes (a +:+ "/") = a.
Proof.
  induction a as [|c a IH]; [reflexivity|].
  intros Hc. rewrite string_cons_app.
  change (Os.rstrip_slashes (String c (a +:+ "/")))
    with (match Os.rstrip_slashes (a +:+ "/") with
          | EmptyString => if Ascii.eqb c "/" then EmptyString else String c EmptyString
          | r => String c r
          end).
  destruct a as [|c' a].
  - simpl in *. apply negb_true_iff in Hc. rewrite Hc. reflexivity.
  - rewrite IH by exact Hc. reflexivity.
Qed.

Section Workspace.
Variable name : string.
Hypothesis name_plain : Os.no_slash name = true.

Let d := workspace_path name.

Lemma workspace_no_trailing_slash : Py.endswith "/" d = false.
Proof.
  unfold d, workspace_path.
  change (Py.endswith "/" ("/tmp/tmp" +:+ name)) with (Py.endswith "/" name).
  apply no_slash_endswith, name_plain.
Qed.

Lemma workspace_join n : plain n → Os.path_join d n = d +:+ String "/" n.
Proof.
  intros [Hne Hn]. unfold Os.path_join.
  assert (Py.startswith "/" n = false) as ->.
  { destruct (Py.startswith "/" n) eqn:E; [|reflexivity].
    apply prefix_iff in E as [post ->]. discriminate. }
  rewrite workspace_no_trailing_slash.
  assert (Py.is_empty d = false) as -> by reflexivity. reflexivity.
Qed.

Lemma workspace_dirname n : plain n → Os.path_dirname (Os.path_join d n) = d.
Proof.
  intros Hp. rewrite (workspace_join n Hp). unfold Os.path_dirname.
  rewrite head_upto_last_slash_app by apply Hp.
  assert (Os.all_slashes (d +:+ "/") = false) as -> by reflexivity.
  apply rstrip_slashes_app. unfold d, workspace_path. simpl.
  destruct name; [reflexivity|]. apply (no_slash_ends_clean _ name_plain).
Qed.

Lemma workspace_join_under n : plain n → Os.under d (Os.path_join d n) = true.
Proof.
  intros Hp. rewrite (workspace_join n Hp). unfold Os.under, Py.startswith.
  apply orb_true_iff. right. apply prefix_iff. exists n.
  symmetry. apply (string_app_assoc d "/" n).
Qed.

Lemma workspace_join_not_root n : plain n → Os.path_join d n ≠ d.
Proof.
  intros Hp. rewrite (workspace_join n Hp). intros H.
  rewrite <- (string_app_nil_r d) in H at 2.
  apply (inj (String.app d)) in H. discriminate.
Qed.

Lemma workspace_join_inj n o :
  plain n → plain o → Os.path_join d n = Os.path_join d o → n = o.
Proof.
  intros Hn Ho. rewrite (workspace_join n Hn), (workspace_join o Ho). intros H.
  apply (inj (String.app d)) in H. injection H as H. exact H.
Qed.

Lemma workspace_root_under : Os.under d d = true.
Proof. unfold Os.under. rewrite String.eqb_refl. reflexivity. Qed.

Lemma remove_tree_vacant (f : FS) : vacant (Os.remove_tree f d) d.
Proof.
  intros p Hp. unfold Os.remove_tree. apply map_lookup_filter_None. right.
  intros x _. simpl. rewrite Hp. discriminate.
Qed.

(** Writing a plain name into the fresh workspace succeeds. *)
Lemma write_into_workspace (f : FS) n data :
  plain n → f !! d = Some Dir → f !! Os.path_join d n ≠ Some Dir →
  Os.write_file f (Os.path_join d n) data = inr (<[Os.path_join d n := File data]> f).
Proof.
  intros Hp Hd Hn. unfold Os.write_file, Os.dir_check.
  rewrite (workspace_dirname n Hp), Hd.
  assert (Py.is_empty d || String.eqb d "/" = false) as -> by reflexivity.
  destruct (f !! Os.path_join d n) as [[c|]|]; try reflexivity. congruence.
Qed.

Lemma staged_in_vacant w up (f : FS) :
  w_mkdtemp w = inr name → plain (up_name up) → vacant f d →
  staged w up f
  = Some (d, <[Os.path_join d (up_name up) := File (up_data up)]> (<[d := Dir]> f)).
Proof.
  intros Hm Hp Hv. unfold staged. rewrite Hm. fold d.
  assert (Os.path_exists f d = false) as ->
    by (apply path_exists_false, Hv, workspace_root_under).
  rewrite write_into_workspace; [reflexivity|exact Hp|apply lookup_insert_eq|].
  rewrite lookup_insert_ne by (intros H; symmetry in H; revert H;
                               apply workspace_join_not_root, Hp).
  rewrite (Hv _ (workspace_join_under _ Hp)). discriminate.
Qed.

End Workspace.

(** ** Encrypt, then decrypt *)

Section RoundTrip.
Variable w : World.
Variable name : string.
Hypothesis openssl_found : w_which w "openssl" = true.
Hypothesis mkdtemp_name : w_mkdtemp w = inr name.
Hypothesis name_plain : Os.no_slash name = true.
Hypothesis rmtree_works : w_rmtree w = None.

Let d := workspace_path name.

(** One request whose program behaves: the session receives the
    transformed bytes and the workspace is gone again. *)
Lemma behaved_request (i : Inputs) (up : Upload) (output : Py.bytes) (s : St) :
  transforms w (operation i) (password i) (up_data up) output →
  cipher_valid i →
  plain (up_name up) → plain (output_filename_user i) →
  up_name up ≠ output_filename_user i →
  vacant (fs s) d →
  ∃ s1,
    EncryptDecryptPage.run_block w i up s = (Ret tt, s1)
    ∧ output_content (session s1) = Some output
    ∧ vacant (fs s1) d.
Proof.
  intros Htool Hvalid Hn Ho Hne Hvac.
  set (inp := Os.path_join d (up_name up)).
  set (out := Os.path_join d (output_filename_user i)).
  set (f1 := <[inp := File (up_data up)]> (<[d := Dir]> (fs s))).
  set (f2 := <[out := File output]> f1).
  assert (staged w up (fs s) = Some (d, f1)) as Hst
    by (apply staged_in_vacant; assumption).
  assert (inp ≠ d) as Hid by (apply workspace_join_not_root; assumption).
  assert (out ≠ d) as Hod by (apply workspace_join_not_root; assumption).
  assert (inp ≠ out) as Hio
    by (intros H; apply Hne; revert H; apply workspace_join_inj; assumption).
  assert (f1 !! d = Some Dir) as Hf1d.
  { unfold f1. rewrite lookup_insert_ne by exact Hid. apply lookup_insert_eq. }
  assert (Os.write_file f1 out output = inr f2) as Hwr.
  { apply write_into_workspace; try assumption.
    unfold f1. rewrite lookup_insert_ne by exact Hio.
    rewrite lookup_insert_ne by (intros H; apply Hod; symmetry; exact H).
    fold d out. rewrite (Hvac out); [discriminate|].
    apply workspace_join_under; assumption. }
  destruct (Htool f1 f2 inp out (lookup_insert_eq _ _ _) Hio Hwr)
    as (b & t & sout & serr & Hex & Hexit & Htime & Hdec & Hfs).
  assert (resolve w (enc_command i up d) EncryptDecrypt.TIMEOUT f1
          = Completed {| returncode := 0; stdout := sout; stderr := serr |} f2) as Hres.
  { unfold resolve.
    change (hd EmptyString (enc_command i up d)) with "openssl". rewrite openssl_found. simpl.
    unfold enc_command. fold inp out. rewrite Hex, Hexit, Htime, Hdec, Hfs. reflexivity. }
  assert (f2 !! out = Some (File output)) as Hout by apply lookup_insert_eq.
  assert (f2 !! d = Some Dir) as Hf2d.
  { unfold f2. rewrite lookup_insert_ne by exact Hod. exact Hf1d. }
  destruct (enc_run_block_spec w i up s Hvalid)
    as (f' & tr & Hrun & _ & _ & _ & _ & Hfinal).
  eexists. split; [exact Hrun|]. simpl. split.
  - unfold captured. rewrite Hst, Hres. simpl. fold out. rewrite Hout. reflexivity.
  - rewrite (Hfinal d f1 _ f2 output Hst Hres eq_refl Hout rmtree_works Hf2d).
    apply remove_tree_vacant.
Qed.

Variable enc : string → Py.bytes → Py.bytes.
Hypothesis openssl_encrypts : encrypts w enc.
Hypothesis openssl_decrypts : decrypts w enc.


End RoundTrip.

Lemma stand_in_encrypts : encrypts Toy.world Toy.enc.
Proof.
  intros P x f f' i o Hi Hio Hw.
  exists {| b_exit := Some (1%Q, 0, "salt=0011223344556677", EmptyString);
            b_fs := fun _ => f'; b_undecodable := None |},
         1%Q, "salt=0011223344556677", EmptyString.
  split; [|split; [reflexivity|split; [reflexivity|split; reflexivity]]].
  change (w_exec Toy.world
            (openssl_command (EncryptDecryptPage.openssl_args Encrypt i o) P) f)
    with (match f !! i with
          | Some (File x0) =>
            match Os.write_file f o (Toy.magic ++ x0) with
            | inr f0 => Toy.exits 0 "salt=0011223344556677" EmptyString f0
            | inl e => Toy.exits 1 EmptyString (exn_str e) f
            end
          | _ => Toy.exits 1 EmptyString ("Can't open " +:+ i +:+ " for reading") f
          end).
  rewrite Hi. unfold Toy.enc in Hw. rewrite Hw. reflexivity.
Qed.

Lemma stand_in_decrypts : decrypts Toy.world Toy.enc.
Proof.
  intros P x f f' i o Hi Hio Hw.
  exists {| b_exit := Some (1%Q, 0, EmptyString, EmptyString);
            b_fs := fun _ => f'; b_undecodable := None |}, 1%Q, EmptyString, EmptyString.
  split; [|split; [reflexivity|split; [reflexivity|split; reflexivity]]].
  change (w_exec Toy.world
            (openssl_command (EncryptDecryptPage.openssl_args Decrypt i o) P) f)
    with (match f !! i with
          | Some (File x0) =>
            match Toy.strip_magic Toy.magic x0 with
            | Some y =>
              match Os.write_file f o y with
              | inr f0 => Toy.exits 0 EmptyString EmptyString f0
              | inl e => Toy.exits 1 EmptyString (exn_str e) f
              end
            | None => Toy.exits 1 EmptyString "bad magic number" f
            end
          | _ => Toy.exits 1 EmptyString ("Can't open " +:+ i +:+ " for reading") f
          end).
  rewrite Hi.
  change (Toy.strip_magic Toy.magic (Toy.enc P x)) with (Some x).
  cbv beta iota. rewrite Hw. reflexivity.
Qed.


(** ** An [openssl] that empties its output before it reads *)

(** Where a file can be written, an empty file can be written first. *)
Lemma write_file_twice (f f' : FS) p data :
  Os.write_file f p data = inr f' →
  Os.write_file f p [] = inr (<[p := File []]> f)
  ∧ Os.write_file (<[p := File []]> f) p data = inr f'.
Proof.
  unfold Os.write_file, Os.dir_check. rewrite lookup_insert_eq.
  destruct (f !! p) as [[c|]|] eqn:Ep; try discriminate.
  all: destruct (Py.is_empty (Os.path_dirname p) || String.eqb (Os.path_dirname p) "/");
    [intros [= <-]; rewrite insert_insert_eq; split; reflexivity|].
  all: destruct (f !! Os.path_dirname p) as [[c'|]|] eqn:Ed; try discriminate.
  all: intros [= <-].
  all: rewrite lookup_insert_ne by (intros H; rewrite H in Ep; congruence).
  all: rewrite Ed, insert_insert_eq; split; reflexivity.
Qed.

Lemma clobber_encrypts : encrypts Clobber.world Toy.enc.
Proof.
  intros P x f f' i o Hi Hio Hw.
  destruct (write_file_twice _ _ _ _ Hw) as [Hw0 Hw1].
  exists {| b_exit := Some (1%Q, 0, "salt=0011223344556677", EmptyString);
            b_fs := fun _ => f'; b_undecodable := None |},
         1%Q, "salt=0011223344556677", EmptyString.
  split; [|split; [reflexivity|split; [reflexivity|split; reflexivity]]].
  change (w_exec Clobber.world
            (openssl_command (EncryptDecryptPage.openssl_args Encrypt i o) P) f)
    with (match f !! i with
          | Some (File _) =>
            match Os.write_file f o [] with
            | inr f0 =>
              match f0 !! i with
              | Some (File x0) =>
                match Os.write_file f0 o (Toy.magic ++ x0) with
                | inr f1 => Toy.exits 0 "salt=0011223344556677" EmptyString f1
                | inl e => Toy.exits 1 EmptyString (exn_str e) f0
                end
              | _ => Toy.exits 1 EmptyString ("Can't open " +:+ i +:+ " for reading") f0
              end
            | inl e => Toy.exits 1 EmptyString (exn_str e) f
            end
          | _ => Toy.exec (openssl_command (EncryptDecryptPage.openssl_args Encrypt i o) P) f
          end).
  rewrite Hi, Hw0, lookup_insert_ne, Hi by (intros H; apply Hio; symmetry; exact H).
  unfold Toy.enc in Hw1. rewrite Hw1. reflexivity.
Qed.

Lemma clobber_decrypts : decrypts Clobber.world Toy.enc.
Proof.
  intros P x f f' i o Hi Hio Hw.
  destruct (write_file_twice _ _ _ _ Hw) as [Hw0 Hw1].
  exists {| b_exit := Some (1%Q, 0, EmptyString, EmptyString);
            b_fs := fun _ => f'; b_undecodable := None |}, 1%Q, EmptyString, EmptyString.
  split; [|split; [reflexivity|split; [reflexivity|split; reflexivity]]].
  change (w_exec Clobber.world
            (openssl_command (EncryptDecryptPage.openssl_args Decrypt i o) P) f)
    with (match f !! i with
          | Some (File _) =>
            match Os.write_file f o [] with
            | inr f0 =>
              match f0 !! i with
              | Some (File x0) =>
                match Toy.strip_magic Toy.magic x0 with
                | Some y =>
                  match Os.write_file f0 o y with
                  | inr f1 => Toy.exits 0 EmptyString EmptyString f1
                  | inl e => Toy.exits 1 EmptyString (exn_str e) f0
                  end
                | None => Toy.exits 1 EmptyString "bad magic number" f0
                end
              | _ => Toy.exits 1 EmptyString ("Can't open " +:+ i +:+ " for reading") f0
              end
            | inl e => Toy.exits 1 EmptyString (exn_str e) f
            end
          | _ => Toy.exec (openssl_command (EncryptDecryptPage.openssl_args Decrypt i o) P) f
          end).
  rewrite Hi, Hw0, lookup_insert_ne, Hi by (intros H; apply Hio; symmetry; exact H).
  change (Toy.strip_magic Toy.magic (Toy.enc P x)) with (Some x).
  cbv beta iota. rewrite Hw1. reflexivity.
Qed.


(** ** The widget keys of the Zip page *)

Lemma initial_session_no_later_keys : ZipWidgets.no_later_keys initial_session.
Proof. intros n _. simpl. rewrite !lookup_empty. auto. Qed.

Ltac key_differs H :=
  unfold ZipWidgets.uploader_key, ZipWidgets.pwd1_key, ZipWidgets.pwd2_key,
    ZipWidgets.output_name_key in H;
  first [ apply (inj (String.app _)) in H; apply (inj pretty) in H; lia
        | apply (f_equal (String.get 4)) in H; discriminate H
        | apply (f_equal (String.get 7)) in H; discriminate H ].

(** Typing a password into the field of the current generation stores
    nothing under a later key. *)
Lemma enter_password_no_later_keys (x : Session) (v : wval) :
  ZipWidgets.no_later_keys x →
  ZipWidgets.no_later_keys
    (Streamlit.enter (ZipWidgets.pwd1_key (zip_clear_trigger x)) v x).
Proof.
  intros Hx n Hn. simpl in *.
  destruct (Hx n Hn) as (H1 & H2 & H3 & H4).
  rewrite !lookup_insert_ne; [auto| | | |]; intros H; key_differs H.
Qed.

(** * Further properties of the code *)

(** ** The wrappers on the remaining ways a call can end *)

Lemma resolve_not_found w command timeout (f : FS) :
  w_which w (hd EmptyString command) = false →
  ∃ e, resolve w command timeout f = NotRun e ∧ exn_kind_of e = FileNotFoundError.
Proof. intros H. unfold resolve. rewrite H. simpl. eexists. split; reflexivity. Qed.

Lemma resolve_not_started w command timeout (f : FS) e :
  w_which w (hd EmptyString command) = true →
  w_exec w command f = inl e →
  resolve w command timeout f = NotRun e.
Proof. intros H He. unfold resolve. rewrite H, He. reflexivity. Qed.

(** X1.  When the program is no longer on the search path at the moment
    it is run, neither wrapper raises: the call of [subprocess.run] is
    made, the error is shown, and the result is a failure whose third
    component is the text "Command not found: <program>".  The file system and the
    session are left as they were. *)
Theorem wrapper_reports_missing_program
        (w : World) (args : list string) (password : string) (s : St) :
  (w_which w "openssl" = false →
   EncryptDecrypt.run_openssl_command w args password s
   = (Ret (false, EmptyString, "Command not found: openssl"),
      {| fs := fs s; session := session s; temp_dir := temp_dir s;
         trace := trace s ++
                  [SubprocessRun (openssl_command args password) 60;
                   Show PageBody LError
                     "Error: The 'openssl' command was not found. Is OpenSSL installed and in PATH?"] |}))
  ∧ (w_which w "zip" = false →
     ZipTool.run_zip_command w args password s
     = (Ret (false, EmptyString, "Command not found: zip"),
        {| fs := fs s; session := session s; temp_dir := temp_dir s;
           trace := trace s ++
                    [SubprocessRun (zip_command args) 120;
                     Show PageBody LError
                       "Error: The 'zip' command was not found. Is it installed and in PATH?"] |})).
Proof.
  split; intros Hw.
  - destruct (resolve_not_found w (openssl_command args password) 60 (fs s) Hw)
      as (e & Hr & Hk).
    unfold EncryptDecrypt.run_openssl_command, subprocess_run.
    fold (openssl_command args password). run_step.
    change EncryptDecrypt.TIMEOUT with 60. rewrite Hr. simpl. rewrite Hk. simpl.
    flatten_state. reflexivity.
  - destruct (resolve_not_found w (zip_command args) 120 (fs s) Hw) as (e & Hr & Hk).
    unfold ZipTool.run_zip_command, subprocess_run.
    fold (zip_command args). run_step.
    change ZipTool.TIMEOUT with 120. rewrite Hr. simpl. rewrite Hk. simpl.
    flatten_state. reflexivity.
Qed.

Lemma wrapper_reports_missing_program_witness :
  w_which Bare.world "openssl" = false
  ∧ EncryptDecrypt.run_openssl_command Bare.world Slow.enc_args "secret123" Slow.staged_state
    = (Ret (false, EmptyString, "Command not found: openssl"),
       {| fs := Slow.staged_fs; session := initial_session;
          temp_dir := Some "/tmp/tmpk3v9";
          trace := [SubprocessRun (openssl_command Slow.enc_args "secret123") 60;
                    Show PageBody LError
                      "Error: The 'openssl' command was not found. Is OpenSSL installed and in PATH?"] |}).
Proof.
  split; [reflexivity|].
  apply (proj1 (wrapper_reports_missing_program Bare.world Slow.enc_args "secret123"
                  Slow.staged_state)).
  reflexivity.
Defined.

Lemma resolve_undecodable w command timeout (f : FS) b t rc out err text :
  w_which w (hd EmptyString command) = true →
  w_exec w command f = inr b →
  b_exit b = Some (t, rc, out, err) →
  Qle_bool t (inject_Z timeout) = true →
  b_undecodable b = Some text →
  resolve w command timeout f = Undecoded (Exn UnicodeDecodeError text) (b_fs b t).
Proof.
  intros H He Hx Ht Hu. unfold resolve. rewrite H, He, Hx, Ht, Hu. reflexivity.
Qed.

(** X2.  Any other exception of [subprocess.run] (one that is neither a
    timeout nor [FileNotFoundError]) ends in a failure result as well: the
    third component is [str(e)] and the error shown quotes it.  When the
    program could not be started, as with a permission error, nothing
    else changes.  When the program has run and exited within its time
    but its output cannot be decoded as text, the exception is a
    [UnicodeDecodeError] and the file system is as the program left it,
    whatever its exit code. *)
Theorem wrapper_reports_unexpected_exception
        (w : World) (args : list string) (password : string) (s : St) (e : exn) :
  exn_kind_of e ≠ TimeoutExpired → exn_kind_of e ≠ FileNotFoundError →
  (w_which w "openssl" = true →
   w_exec w (openssl_command args password) (fs s) = inl e →
   EncryptDecrypt.run_openssl_command w args password s
   = (Ret (false, EmptyString, exn_str e),
      {| fs := fs s; session := session s; temp_dir := temp_dir s;
         trace := trace s ++
                  [SubprocessRun (openssl_command args password) 60;
                   Show PageBody LError
                     ("An unexpected error occurred while running OpenSSL: " +:+ exn_str e)] |}))
  ∧ (w_which w "zip" = true →
     w_exec w (zip_command args) (fs s) = inl e →
     ZipTool.run_zip_command w args password s
     = (Ret (false, EmptyString, exn_str e),
        {| fs := fs s; session := session s; temp_dir := temp_dir s;
           trace := trace s ++
                    [SubprocessRun (zip_command args) 120;
                     Show PageBody LError
                       ("An unexpected error occurred while running zip: " +:+ exn_str e)] |}))
  ∧ (∀ b t rc out err text,
       w_which w "openssl" = true →
       w_exec w (openssl_command args password) (fs s) = inr b →
       b_exit b = Some (t, rc, out, err) →
       Qle_bool t (inject_Z 60) = true →
       b_undecodable b = Some text →
       EncryptDecrypt.run_openssl_command w args password s
       = (Ret (false, EmptyString, text),
          {| fs := b_fs b t; session := session s; temp_dir := temp_dir s;
             trace := trace s ++
                      [SubprocessRun (openssl_command args password) 60;
                       Show PageBody LError
                         ("An unexpected error occurred while running OpenSSL: " +:+ text)] |}))
  ∧ (∀ b t rc out err text,
       w_which w "zip" = true →
       w_exec w (zip_command args) (fs s) = inr b →
       b_exit b = Some (t, rc, out, err) →
       Qle_bool t (inject_Z 120) = true →
       b_undecodable b = Some text →
       ZipTool.run_zip_command w args password s
       = (Ret (false, EmptyString, text),
          {| fs := b_fs b t; session := session s; temp_dir := temp_dir s;
             trace := trace s ++
                      [SubprocessRun (zip_command args) 120;
                       Show PageBody LError
                         ("An unexpected error occurred while running zip: " +:+ text)] |})).
Proof.
  intros Ht Hn. split; [|split; [|split]].
  - intros Hw He.
    pose proof (resolve_not_started w (openssl_command args password) 60 (fs s) e Hw He) as Hr.
    unfold EncryptDecrypt.run_openssl_command, subprocess_run.
    fold (openssl_command args password). run_step.
    change EncryptDecrypt.TIMEOUT with 60. rewrite Hr. simpl.
    destruct (exn_kind_of e); try congruence; simpl; flatten_state; reflexivity.
  - intros Hw He.
    pose proof (resolve_not_started w (zip_command args) 120 (fs s) e Hw He) as Hr.
    unfold ZipTool.run_zip_command, subprocess_run.
    fold (zip_command args). run_step.
    change ZipTool.TIMEOUT with 120. rewrite Hr. simpl.
    destruct (exn_kind_of e); try congruence; simpl; flatten_state; reflexivity.
  - intros b t rc out err text Hw He Hx Htime Hu.
    pose proof (resolve_undecodable w (openssl_command args password) 60 (fs s)
                  b t rc out err text Hw He Hx Htime Hu) as Hr.
    unfold EncryptDecrypt.run_openssl_command, subprocess_run.
    fold (openssl_command args password). run_step.
    change EncryptDecrypt.TIMEOUT with 60. rewrite Hr. simpl.
    flatten_state. reflexivity.
  - intros b t rc out err text Hw He Hx Htime Hu.
    pose proof (resolve_undecodable w (zip_command args) 120 (fs s)
                  b t rc out err text Hw He Hx Htime Hu) as Hr.
    unfold ZipTool.run_zip_command, subprocess_run.
    fold (zip_command args). run_step.
    change ZipTool.TIMEOUT with 120. rewrite Hr. simpl.
    flatten_state. reflexivity.
Qed.

Lemma wrapper_reports_unexpected_exception_witness :
  exn_kind_of Denied.denied ≠ TimeoutExpired
  ∧ exn_kind_of Denied.denied ≠ FileNotFoundError
  ∧ EncryptDecrypt.run_openssl_command Denied.world Slow.enc_args "secret123" Slow.staged_state
    = (Ret (false, EmptyString, "[Errno 13] Permission denied: 'openssl'"),
       {| fs := Slow.staged_fs; session := initial_session;
          temp_dir := Some "/tmp/tmpk3v9";
          trace := [SubprocessRun (openssl_command Slow.enc_args "secret123") 60;
                    Show PageBody LError
                      "An unexpected error occurred while running OpenSSL: [Errno 13] Permission denied: 'openssl'"] |})
  ∧ ∃ s',
      ZipTool.run_zip_command Garbled.world Slow.zip_args "secret123" Slow.staged_state
      = (Ret (false, EmptyString, Garbled.undecodable), s')
      ∧ fs s' = <["/tmp/tmpk3v9/notes.zip" := File ([x50; x4b] ++ Toy.hello)]> Slow.staged_fs
      ∧ trace s'
        = [SubprocessRun (zip_command Slow.zip_args) 120;
           Show PageBody LError
             ("An unexpected error occurred while running zip: " +:+ Garbled.undecodable)].
Proof.
  pose proof (wrapper_reports_unexpected_exception Denied.world Slow.enc_args "secret123"
                Slow.staged_state Denied.denied ltac:(discriminate) ltac:(discriminate))
    as (Hstart & _).
  pose proof (wrapper_reports_unexpected_exception Garbled.world Slow.zip_args "secret123"
                Slow.staged_state Denied.denied ltac:(discriminate) ltac:(discriminate))
    as (_ & _ & _ & Hdecode).
  split; [discriminate|]. split; [discriminate|]. split.
  - apply Hstart; reflexivity.
  - eexists. split.
    + eapply Hdecode; [reflexivity|vm_compute; reflexivity|reflexivity|reflexivity|reflexivity].
    + split; [vm_compute; reflexivity|reflexivity].
Defined.

(** X3.  When the program exits within its time, each wrapper returns
    [(returncode == 0, stdout.strip(), stderr.strip())] and leaves the file
    system as the program left it.  Standard error is shown whatever the exit code
    is, unless it is empty: as an error with the exit code when the code is
    not zero ([openssl]), as a warning ([openssl]) or an information
    ([zip]) when it is zero.  With exit code zero and empty standard error
    nothing is shown. *)
Theorem wrapper_result_of_completed_process
        (w : World) (args : list string) (password : string) (s : St)
        (p : CompletedProcess) (f' : FS) :
  (resolve w (openssl_command args password) 60 (fs s) = Completed p f' →
   EncryptDecrypt.run_openssl_command w args password s
   = (Ret ((returncode p =? 0), Py.strip (stdout p), Py.strip (stderr p)),
      {| fs := f'; session := session s; temp_dir := temp_dir s;
         trace := trace s ++
                  SubprocessRun (openssl_command args password) 60
                  :: (if negb (returncode p =? 0)
                      then [Show PageBody LError
                              ("OpenSSL Error (Exit Code " +:+ pretty (returncode p) +:+ "):"
                               +:+ nl +:+ "```" +:+ nl +:+ Py.strip (stderr p) +:+ nl +:+ "```")]
                      else if Py.is_empty (stderr p) then []
                      else [Show PageBody LWarning
                              ("OpenSSL Messages (stderr):"
                               +:+ nl +:+ "```" +:+ nl +:+ Py.strip (stderr p) +:+ nl +:+ "```")]) |}))
  ∧ (resolve w (zip_command args) 120 (fs s) = Completed p f' →
     returncode p = 0 →
     ZipTool.run_zip_command w args password s
     = (Ret (true, Py.strip (stdout p), Py.strip (stderr p)),
        {| fs := f'; session := session s; temp_dir := temp_dir s;
           trace := trace s ++
                    SubprocessRun (zip_command args) 120
                    :: (if Py.is_empty (stderr p) then []
                        else [Show PageBody LInfo
                                ("Zip Messages (stderr):"
                                 +:+ nl +:+ "```" +:+ nl +:+ Py.strip (stderr p) +:+ nl +:+ "```")]) |})).
Proof.
  split.
  - intros Hr.
    unfold EncryptDecrypt.run_openssl_command, subprocess_run.
    fold (openssl_command args password). run_step.
    change EncryptDecrypt.TIMEOUT with 60. rewrite Hr. simpl.
    destruct (returncode p =? 0); simpl;
      [destruct (Py.is_empty (stderr p)); simpl|];
      flatten_state; reflexivity.
  - intros Hr Hrc.
    unfold ZipTool.run_zip_command, subprocess_run.
    fold (zip_command args). run_step.
    change ZipTool.TIMEOUT with 120. rewrite Hr. simpl. rewrite Hrc. simpl.
    destruct (Py.is_empty (stderr p)); simpl; flatten_state; reflexivity.
Qed.

Lemma wrapper_result_of_completed_process_witness :
  resolve Toy.world (openssl_command Slow.enc_args "secret123") 60 Slow.staged_fs
  = Completed {| returncode := 0; stdout := "salt=0011223344556677"; stderr := EmptyString |}
      (<["/tmp/tmpk3v9/notes.enc" := File (Toy.magic ++ Toy.hello)]> Slow.staged_fs)
  ∧ EncryptDecrypt.run_openssl_command Toy.world Slow.enc_args "secret123" Slow.staged_state
    = (Ret (true, "salt=0011223344556677", EmptyString),
       {| fs := <["/tmp/tmpk3v9/notes.enc" := File (Toy.magic ++ Toy.hello)]> Slow.staged_fs;
          session := initial_session; temp_dir := Some "/tmp/tmpk3v9";
          trace := [SubprocessRun (openssl_command Slow.enc_args "secret123") 60] |}).
Proof.
  assert (resolve Toy.world (openssl_command Slow.enc_args "secret123") 60 Slow.staged_fs
          = Completed {| returncode := 0; stdout := "salt=0011223344556677";
                         stderr := EmptyString |}
              (<["/tmp/tmpk3v9/notes.enc" := File (Toy.magic ++ Toy.hello)]> Slow.staged_fs))
    as Hr by reflexivity.
  split; [exact Hr|].
  exact (proj1 (wrapper_result_of_completed_process Toy.world Slow.enc_args "secret123"
                  Slow.staged_state _ _) Hr).
Defined.

(** ** The masked copies of the command lines *)

Lemma workspace_join_starts_with_slash name x :
  ∃ rest, Os.path_join (workspace_path name) x = String "/" rest.
Proof.
  unfold Os.path_join. destruct (Py.startswith "/" x) eqn:E.
  - apply prefix_iff in E as [post ->]. eexists. reflexivity.
  - unfold workspace_path.
    destruct (Py.is_empty ("/tmp/tmp" +:+ name) || Py.endswith "/" ("/tmp/tmp" +:+ name));
      eexists; reflexivity.
Qed.

(** X4.  The masked copy of an [openssl] command line has the password
    argument replaced by [pass:********] and nothing else changed: for the
    command the Encrypt/Decrypt page runs it is the command with the
    password hidden, and for any command no element of the copy that
    starts with [pass:] is anything but [pass:********]. *)
Theorem openssl_printable_command_hides_password :
  (∀ (i : Inputs) (up : Upload) (name : string),
     let d := workspace_path name in
     EncryptDecryptMasking.printable_command (enc_command i up d)
     = ["openssl"; "enc"; "-aes-256-cbc"; "-pbkdf2";
        match operation i with Decrypt => "-d" | Encrypt => "-p" end;
        "-in"; Os.path_join d (up_name up);
        "-out"; Os.path_join d (output_filename_user i);
        "-pass"; "pass:********"])
  ∧ (∀ (command : list string) (arg : string),
       arg ∈ EncryptDecryptMasking.printable_command command →
       Py.startswith "pass:" arg = true → arg = "pass:********")
  ∧ (∀ command : list string,
       length (EncryptDecryptMasking.printable_command command) = length command).
Proof.
  split; [|split].
  - intros i up name d. unfold d.
    destruct (workspace_join_starts_with_slash name (up_name up)) as [r1 H1].
    destruct (workspace_join_starts_with_slash name (output_filename_user i)) as [r2 H2].
    unfold enc_command, openssl_command, EncryptDecryptPage.openssl_args,
      EncryptDecryptMasking.printable_command.
    rewrite H1, H2.
    assert (Py.startswith "pass:" ("pass:" +:+ password i) = true) as Hp
      by (apply prefix_iff; eexists; reflexivity).
    destruct (operation i); cbn [map app]; rewrite Hp; reflexivity.
  - intros command arg Hin Hp.
    unfold EncryptDecryptMasking.printable_command in Hin.
    apply list_elem_of_fmap in Hin as (a & -> & _).
    destruct (Py.startswith "pass:" a) eqn:E; simpl in *; [reflexivity|congruence].
  - intros command. apply length_map.
Qed.

Lemma zip_mask_step n i arg rest found printable :
  ZipMasking.mask_from n i (arg :: rest) found printable
  = if String.eqb arg "-P" && (i + 1 <? n)%nat
    then ZipMasking.mask_from n (S i) rest true (printable ++ [arg; "********"])
    else if found then ZipMasking.mask_from n (S i) rest false printable
    else ZipMasking.mask_from n (S i) rest found (printable ++ [arg]).
Proof. reflexivity. Qed.

(** X5.  The masked copy of the [zip] command line of the Zip page shows
    eight stars in place of the password and keeps the two paths, provided
    the password is not the text [-P].  With the password [-P] the loop
    takes the password for a second option: the copy shows the stars twice
    and the output path is missing from it. *)
Theorem zip_printable_command_hides_password
        (i : Inputs) (actual_output_filename : string) (up : Upload) (name : string) :
  let d := workspace_path name in
  (password i ≠ "-P" →
   ZipMasking.printable_command (zip_page_command i actual_output_filename up d)
   = ["zip"; "-j"; "-e"; "-P"; "********";
      Os.path_join d actual_output_filename; Os.path_join d (up_name up)])
  ∧ (password i = "-P" →
     ZipMasking.printable_command (zip_page_command i actual_output_filename up d)
     = ["zip"; "-j"; "-e"; "-P"; "********"; "-P"; "********";
        Os.path_join d (up_name up)]).
Proof.
  intros d. unfold d.
  destruct (workspace_join_starts_with_slash name (up_name up)) as [r1 H1].
  destruct (workspace_join_starts_with_slash name actual_output_filename) as [r2 H2].
  unfold zip_page_command, zip_command, ZipPage.zip_args, ZipMasking.printable_command.
  rewrite H1, H2. split; intros Hp.
  - apply String.eqb_neq in Hp.
    cbn [app length]. rewrite !zip_mask_step. simpl. rewrite Hp. reflexivity.
  - rewrite Hp. reflexivity.
Qed.

Lemma zip_printable_command_hides_password_witness :
  password Sample.zip_notes ≠ "-P"
  ∧ ZipMasking.printable_command
      (zip_page_command Sample.zip_notes "notes.zip" Sample.notes "/tmp/tmpk3v9")
    = ["zip"; "-j"; "-e"; "-P"; "********"; "/tmp/tmpk3v9/notes.zip"; "/tmp/tmpk3v9/notes.txt"].
Proof.
  split; [discriminate|].
  apply (proj1 (zip_printable_command_hides_password Sample.zip_notes "notes.zip"
                  Sample.notes "k3v9")).
  discriminate.
Defined.

(** ** The landing page's check of the two commands *)

(** X6.  [check_commands] returns exactly the required commands that are
    not on the search path, [openssl] before [zip], and it agrees with the
    checks the two tool pages make for themselves: a page stops at its own
    check exactly when its command is in the list. *)
Theorem check_commands_lists_the_missing (w : World) :
  (∀ c, c ∈ Home.check_commands w ↔ (c = "openssl" ∨ c = "zip") ∧ w_which w c = false)
  ∧ sublist (Home.check_commands w) ["openssl"; "zip"]
  ∧ (∀ s, "openssl" ∈ Home.check_commands w
          ↔ ∃ s', EncryptDecrypt.check_openssl w s = (Halt, s'))
  ∧ (∀ s, "zip" ∈ Home.check_commands w
          ↔ ∃ s', ZipTool.check_zip_command w s = (Halt, s')).
Proof.
  unfold Home.check_commands, EncryptDecrypt.check_openssl, ZipTool.check_zip_command.
  change Home.OPENSSL_COMMAND with "openssl". change Home.ZIP_COMMAND with "zip".
  change EncryptDecrypt.OPENSSL_COMMAND with "openssl". change ZipTool.ZIP_COMMAND with "zip".
  destruct (w_which w "openssl") eqn:Ho, (w_which w "zip") eqn:Hz; simpl.
  all: split; [|split; [|split]].
  all: try (intros c; rewrite ?elem_of_cons, ?elem_of_nil; split;
            [intros H; repeat destruct H as [H|H]; subst; auto; contradiction
            |intros [[-> | ->] H]; auto; congruence]).
  all: try (intros s; rewrite ?elem_of_cons, ?elem_of_nil; run_step; split;
            [intros H; repeat destruct H as [H|H]; try discriminate H; try contradiction;
             eexists; reflexivity
            |intros [s' H]; try discriminate H; auto]).
  all: repeat constructor.
Qed.

(** X7.  The System Check section of the landing page never stops the
    script.  It shows the success line and the hint exactly when both
    commands are found; otherwise it shows one error that names the
    missing commands between backquotes, followed by the installation
    advice. *)
Theorem landing_page_reports_and_goes_on (w : World) (s : St) :
  Home.system_check w s
  = (Ret tt,
     {| fs := fs s; session := session s; temp_dir := temp_dir s;
        trace := trace s ++
          match w_which w "openssl", w_which w "zip" with
          | true, true =>
            [Show PageBody LSuccess
               (Home.check_mark +:+ " Required commands ('openssl', 'zip') found!");
             Show PageBody LInfo
               "Navigate to the desired tool page using the sidebar on the left to begin."]
          | missing_openssl, missing_zip =>
            [Show PageBody LError
               (Home.cross_mark
                +:+ " Critical Error: The following command(s) were not found: `"
                +:+ (if missing_openssl then "zip"
                     else if missing_zip then "openssl" else "openssl`, `zip")
                +:+ "`");
             Show PageBody LText Home.remediation_text]
          end |}).
Proof.
  unfold Home.system_check, Home.check_commands.
  change Home.OPENSSL_COMMAND with "openssl". change Home.ZIP_COMMAND with "zip".
  destruct (w_which w "openssl"), (w_which w "zip"); simpl; run_step;
    flatten_state; reflexivity.
Qed.

(** ** Requests the checks reject *)

(** The state in which a rejected request leaves each page. *)
Lemma enc_rejected_run w i up s :
  ¬ cipher_valid i →
  ∃ msg,
    EncryptDecryptPage.run_block w i up s
    = (Halt,
       {| fs := fs s;
          session := set_operation_status None
                       (set_output_filename None (set_output_content None (session s)));
          temp_dir := temp_dir s;
          trace := trace s ++
                   [Show StatusSlot LInfo
                      ("Processing " +:+ operation_name (operation i) +:+ "...");
                    Emptied OutputPreviewSlot; Emptied DownloadSlot;
                    Show StatusSlot LError msg] |}).
Proof.
  intros Hbad.
  unfold EncryptDecryptPage.run_block.
  unfold mbind, M_bind, bind, assign, emit; simpl.
  match goal with
  | |- context [EncryptDecryptPage.validate i ?s0] =>
    destruct (enc_validate_stops i s0 Hbad) as (msg & Hv & _); rewrite Hv
  end.
  exists msg. flatten_state. reflexivity.
Qed.

Lemma enc_rejected_run_with w i up s msg :
  (∀ s0, EncryptDecryptPage.validate i s0
         = (Halt, with_event (Show StatusSlot LError msg) s0)) →
  EncryptDecryptPage.run_block w i up s
  = (Halt,
     {| fs := fs s;
        session := set_operation_status None
                     (set_output_filename None (set_output_content None (session s)));
        temp_dir := temp_dir s;
        trace := trace s ++
                 [Show StatusSlot LInfo
                    ("Processing " +:+ operation_name (operation i) +:+ "...");
                  Emptied OutputPreviewSlot; Emptied DownloadSlot;
                  Show StatusSlot LError msg] |}).
Proof.
  intros Hv.
  unfold EncryptDecryptPage.run_block.
  unfold mbind, M_bind, bind, assign, emit; simpl.
  rewrite Hv. flatten_state. reflexivity.
Qed.

Lemma zip_rejected_run w i up s :
  ¬ zip_valid i →
  ∃ msg,
    ZipPage.run_block w i up s
    = (Halt,
       {| fs := fs s;
          session := set_zip_operation_status None
                       (set_output_zip_filename None
                          (set_output_zip_content None (session s)));
          temp_dir := temp_dir s;
          trace := trace s ++
                   [Show StatusSlot LInfo "Processing..."; Emptied DownloadSlot;
                    Show StatusSlot LError msg] |}).
Proof.
  intros Hbad.
  unfold ZipPage.run_block.
  unfold mbind, M_bind, bind, assign, emit; simpl.
  match goal with
  | |- context [ZipPage.validate i ?s0] =>
    destruct (zip_validate_stops i s0 Hbad) as (msg & Hv & _); rewrite Hv
  end.
  exists msg. flatten_state. reflexivity.
Qed.

Lemma zip_rejected_run_with w i up s msg :
  (∀ s0, ZipPage.validate i s0 = (Halt, with_event (Show StatusSlot LError msg) s0)) →
  ZipPage.run_block w i up s
  = (Halt,
     {| fs := fs s;
        session := set_zip_operation_status None
                     (set_output_zip_filename None
                        (set_output_zip_content None (session s)));
        temp_dir := temp_dir s;
        trace := trace s ++
                 [Show StatusSlot LInfo "Processing..."; Emptied DownloadSlot;
                  Show StatusSlot LError msg] |}).
Proof.
  intros Hv.
  unfold ZipPage.run_block.
  unfold mbind, M_bind, bind, assign, emit; simpl.
  rewrite Hv. flatten_state. reflexivity.
Qed.

Lemma enc_validate_message i s :
  (password i = EmptyString →
   EncryptDecryptPage.validate i s
   = (Halt, with_event (Show StatusSlot LError "Password cannot be empty.") s))
  ∧ (password i ≠ EmptyString → operation i = Encrypt →
     password i ≠ password_confirm i →
     EncryptDecryptPage.validate i s
     = (Halt, with_event (Show StatusSlot LError "Passwords do not match.") s))
  ∧ (password i ≠ EmptyString →
     operation i = Decrypt ∨ password i = password_confirm i →
     output_filename_user i = EmptyString →
     EncryptDecryptPage.validate i s
     = (Halt, with_event (Show StatusSlot LError "Output filename cannot be empty.") s)).
Proof.
  unfold EncryptDecryptPage.validate. split; [|split].
  - intros ->. reflexivity.
  - intros Hp Ho Hc. apply is_empty_false in Hp. apply String.eqb_neq in Hc.
    run_step. rewrite Hp, Ho, Hc. reflexivity.
  - intros Hp Hc Ho. apply is_empty_false in Hp.
    run_step. rewrite Hp, Ho. simpl.
    destruct Hc as [-> | Hc]; [reflexivity|].
    apply String.eqb_eq in Hc. rewrite Hc. destruct (operation i); reflexivity.
Qed.

Lemma zip_validate_message i s :
  (password i = EmptyString →
   ZipPage.validate i s
   = (Halt, with_event (Show StatusSlot LError "Password cannot be empty.") s))
  ∧ (password i ≠ EmptyString → password i ≠ password_confirm i →
     ZipPage.validate i s
     = (Halt, with_event (Show StatusSlot LError "Passwords do not match.") s))
  ∧ (password i ≠ EmptyString → password i = password_confirm i →
     output_filename_user i = EmptyString →
     ZipPage.validate i s
     = (Halt, with_event (Show StatusSlot LError "Output ZIP filename cannot be empty.") s)).
Proof.
  unfold ZipPage.validate. split; [|split].
  - intros ->. reflexivity.
  - intros Hp Hc. apply is_empty_false in Hp. apply String.eqb_neq in Hc.
    run_step. rewrite Hp, Hc. reflexivity.
  - intros Hp Hc Ho. apply is_empty_false in Hp. apply String.eqb_eq in Hc.
    run_step. rewrite Hp, Hc, Ho. reflexivity.
Qed.

(** X8.  A request the Encrypt/Decrypt page rejects ends the run with one
    error, chosen in the order of the checks: an empty password is
    reported even when the confirmation differs or the file name is
    empty; a differing confirmation is reported only for Encrypt (Decrypt
    never compares it); the empty file name comes last.  In each case the
    previous result has been discarded from the session and nothing else
    has changed. *)
Theorem rejected_cipher_request_reports_first_failed_check
        (w : World) (i : Inputs) (up : Upload) (s : St) :
  let rejected_with msg :=
    EncryptDecryptPage.run_block w i up s
    = (Halt,
       {| fs := fs s;
          session := set_operation_status None
                       (set_output_filename None (set_output_content None (session s)));
          temp_dir := temp_dir s;
          trace := trace s ++
                   [Show StatusSlot LInfo
                      ("Processing " +:+ operation_name (operation i) +:+ "...");
                    Emptied OutputPreviewSlot; Emptied DownloadSlot;
                    Show StatusSlot LError msg] |}) in
  (password i = EmptyString → rejected_with "Password cannot be empty.")
  ∧ (password i ≠ EmptyString → operation i = Encrypt →
     password i ≠ password_confirm i → rejected_with "Passwords do not match.")
  ∧ (password i ≠ EmptyString →
     operation i = Decrypt ∨ password i = password_confirm i →
     output_filename_user i = EmptyString →
     rejected_with "Output filename cannot be empty.").
Proof.
  intros rejected_with. unfold rejected_with.
  split; [|split]; intros; apply enc_rejected_run_with; intros s0;
    destruct (enc_validate_message i s0) as (V1 & V2 & V3); auto.
Qed.

Lemma rejected_cipher_request_reports_first_failed_check_witness :
  password Sample.mismatch ≠ EmptyString ∧ operation Sample.mismatch = Encrypt
  ∧ password Sample.mismatch ≠ password_confirm Sample.mismatch
  ∧ EncryptDecryptPage.run_block Toy.world Sample.mismatch Sample.notes Sample.start
    = (Halt,
       {| fs := ∅; session := initial_session; temp_dir := None;
          trace := [Show StatusSlot LInfo "Processing Encrypt...";
                    Emptied OutputPreviewSlot; Emptied DownloadSlot;
                    Show StatusSlot LError "Passwords do not match."] |}).
Proof.
  split; [discriminate|]. split; [reflexivity|]. split; [discriminate|].
  apply (proj1 (proj2 (rejected_cipher_request_reports_first_failed_check
                         Toy.world Sample.mismatch Sample.notes Sample.start))).
  - discriminate.
  - reflexivity.
  - discriminate.
Defined.

(** X9.  The same on the Zip page, where the confirmation is always
    compared: empty password first, then a differing confirmation, then
    the empty archive name; the previous archive has been discarded from
    the session, and neither the rename warning nor anything else is
    shown. *)
Theorem rejected_zip_request_reports_first_failed_check
        (w : World) (i : Inputs) (up : Upload) (s : St) :
  let rejected_with msg :=
    ZipPage.run_block w i up s
    = (Halt,
       {| fs := fs s;
          session := set_zip_operation_status None
                       (set_output_zip_filename None
                          (set_output_zip_content None (session s)));
          temp_dir := temp_dir s;
          trace := trace s ++
                   [Show StatusSlot LInfo "Processing..."; Emptied DownloadSlot;
                    Show StatusSlot LError msg] |}) in
  (password i = EmptyString → rejected_with "Password cannot be empty.")
  ∧ (password i ≠ EmptyString → password i ≠ password_confirm i →
     rejected_with "Passwords do not match.")
  ∧ (password i ≠ EmptyString → password i = password_confirm i →
     output_filename_user i = EmptyString →
     rejected_with "Output ZIP filename cannot be empty.").
Proof.
  intros rejected_with. unfold rejected_with.
  split; [|split]; intros; apply zip_rejected_run_with; intros s0;
    destruct (zip_validate_message i s0) as (V1 & V2 & V3); auto.
Qed.

Lemma rejected_zip_request_reports_first_failed_check_witness :
  password Sample.mismatch ≠ EmptyString
  ∧ password Sample.mismatch ≠ password_confirm Sample.mismatch
  ∧ ZipPage.run_block Toy.world Sample.mismatch Sample.notes Sample.start
    = (Halt,
       {| fs := ∅; session := initial_session; temp_dir := None;
          trace := [Show StatusSlot LInfo "Processing..."; Emptied DownloadSlot;
                    Show StatusSlot LError "Passwords do not match."] |}).
Proof.
  split; [discriminate|]. split; [discriminate|].
  apply (proj1 (proj2 (rejected_zip_request_reports_first_failed_check
                         Toy.world Sample.mismatch Sample.notes Sample.start))).
  - discriminate.
  - discriminate.
Defined.

(** ** What a request leaves in the session and what it offers *)

(** X10.  After a run of either page's processing block, whatever the
    request and whatever the program did, the session is consistent and
    agrees with what was offered: the status is "success" exactly when
    output bytes are held, and exactly when a file name is held; and the
    run offered one download button, with those bytes under that name, if
    bytes are held, and none otherwise. *)
Theorem download_offer_matches_session
        (w : World) (ic iz : Inputs) (up : Upload) (s : St) :
  (∃ r s' tr,
     EncryptDecryptPage.run_block w ic up s = (r, s')
     ∧ trace s' = trace s ++ tr
     ∧ downloads tr = match output_content (session s'), output_filename (session s') with
                      | Some content, Some name => [(name, content)]
                      | _, _ => []
                      end
     ∧ (is_Some (output_content (session s'))
        ↔ operation_status (session s') = Some StatusSuccess)
     ∧ (is_Some (output_filename (session s'))
        ↔ operation_status (session s') = Some StatusSuccess))
  ∧ (∃ r s' tr,
       ZipPage.run_block w iz up s = (r, s')
       ∧ trace s' = trace s ++ tr
       ∧ downloads tr = match output_zip_content (session s'),
                              output_zip_filename (session s') with
                        | Some content, Some name => [(name, content)]
                        | _, _ => []
                        end
       ∧ (is_Some (output_zip_content (session s'))
          ↔ zip_operation_status (session s') = Some StatusSuccess)
       ∧ (is_Some (output_zip_filename (session s'))
          ↔ zip_operation_status (session s') = Some StatusSuccess)).
Proof.
  split.
  - destruct (cipher_valid_dec ic) as [Hv|Hr].
    + destruct (enc_run_block_spec w ic up s Hv) as (f' & tr & -> & _ & _ & Hd & _).
      eexists _, _, tr. split; [reflexivity|]. simpl. split; [reflexivity|].
      rewrite Hd.
      destruct (captured w (enc_command ic up) EncryptDecrypt.TIMEOUT
                  (output_filename_user ic) up (fs s)) as [content|]; simpl.
      * split; [reflexivity|]. split; (split; [reflexivity|intros _; eexists; reflexivity]).
      * split; [reflexivity|].
        split; (split; [intros [? [=]]|intros [=]]).
    + destruct (enc_rejected_run w ic up s (cipher_rejected_not_valid ic Hr)) as (msg & ->).
      eexists _, _, _. split; [reflexivity|]. simpl. split; [reflexivity|].
      split; [reflexivity|].
      split; (split; [intros [? [=]]|intros [=]]).
  - destruct (zip_valid_dec iz) as [Hv|Hr].
    + destruct (zip_run_block_spec w iz up s Hv) as (f' & tr & -> & _ & _ & Hd & _).
      eexists _, _, _. split; [reflexivity|]. split; [reflexivity|].
      rewrite !downloads_app, Hd.
      destruct (Py.endswith ".zip" (Py.lower (output_filename_user iz)));
        destruct (captured w _ ZipTool.TIMEOUT _ up (fs s)) as [content|]; simpl.
      all: split; [reflexivity|].
      all: first [ split; (split; [reflexivity|intros _; eexists; reflexivity])
                 | split; (split; [intros [? [=]]|intros [=]]) ].
    + destruct (zip_rejected_run w iz up s (zip_rejected_not_valid iz Hr)) as (msg & ->).
      eexists _, _, _. split; [reflexivity|]. simpl. split; [reflexivity|].
      split; [reflexivity|].
      split; (split; [intros [? [=]]|intros [=]]).
Qed.

(** ** What one run of a page does to the session *)

#[local] Arguments EncryptDecryptPage.preview_block : simpl never.

Ltac page_step :=
  unfold mbind, M_bind, bind, mret, M_ret, ret, halt, emit, assign, get_session,
    set_temp_dir, when; simpl.

(** The Encrypt/Decrypt page leaves the widgets and the keys of the Zip
    page alone; its own three keys are unchanged, emptied, set to a
    failure, or set to a success with bytes and the requested name. *)
Lemma enc_page_session w i s :
  widgets (session (EncryptDecryptPage.page w i s).2) = widgets (session s)
  ∧ zip_side (session (EncryptDecryptPage.page w i s).2) = zip_side (session s)
  ∧ (cipher_side (session (EncryptDecryptPage.page w i s).2) = cipher_side (session s)
     ∨ cipher_side (session (EncryptDecryptPage.page w i s).2) = (None, None, None)
     ∨ cipher_side (session (EncryptDecryptPage.page w i s).2) = (None, None, Some StatusFail)
     ∨ ∃ content,
         cipher_side (session (EncryptDecryptPage.page w i s).2)
         = (Some content, Some (output_filename_user i), Some StatusSuccess)).
Proof.
  unfold EncryptDecryptPage.page, EncryptDecrypt.check_openssl,
    EncryptDecryptPage.clear_all.
  destruct (w_which w EncryptDecrypt.OPENSSL_COMMAND); page_step; [|auto].
  destruct (uploaded_file i) as [up|].
  - destruct (run_button i).
    + destruct (cipher_valid_dec i) as [Hv|Hr].
      * destruct (enc_run_block_spec w i up s Hv) as (f' & tr & -> & _).
        destruct (captured w _ _ _ up (fs s)) as [content|];
          destruct (clear_button i); simpl; eauto 10.
      * destruct (enc_rejected_run w i up s (cipher_rejected_not_valid i Hr)) as (msg & ->).
        simpl. auto.
    + destruct (is_fail (operation_status (session s))); simpl.
      * destruct (clear_button i); simpl; auto.
      * destruct (EncryptDecryptPage.preview_block w up (with_temp_dir None s))
          as [[[]|e|] s1] eqn:Ep;
          apply enc_preview_block_session in Ep; simpl in Ep; simpl;
          [destruct (clear_button i); simpl| |]; rewrite ?Ep; auto.
  - destruct (is_success (operation_status (session s))
              && truthy_bytes (output_content (session s))).
    + unfold EncryptDecryptPage.previous_block. page_step.
      destruct (clear_button i); simpl; auto.
    + simpl. destruct (clear_button i); simpl; auto.
Qed.

(** The same for the Zip page, whose Clear All also counts the trigger up. *)
Lemma zip_page_session w i s :
  widgets (session (ZipPage.page w i s).2) = widgets (session s)
  ∧ cipher_side (session (ZipPage.page w i s).2) = cipher_side (session s)
  ∧ (zip_clear_trigger (session (ZipPage.page w i s).2) = zip_clear_trigger (session s)
     ∨ zip_clear_trigger (session (ZipPage.page w i s).2)
       = (zip_clear_trigger (session s) + 1)%N
       ∧ clear_button i = true)
  ∧ (zip_side (session (ZipPage.page w i s).2) = zip_side (session s)
     ∨ (output_zip_content (session (ZipPage.page w i s).2) = None
        ∧ output_zip_filename (session (ZipPage.page w i s).2) = None
        ∧ (zip_operation_status (session (ZipPage.page w i s).2) = None
           ∨ zip_operation_status (session (ZipPage.page w i s).2) = Some StatusFail))
     ∨ ∃ content,
         output_zip_content (session (ZipPage.page w i s).2) = Some content
         ∧ output_zip_filename (session (ZipPage.page w i s).2)
           = Some (zip_name (output_filename_user i))
         ∧ zip_operation_status (session (ZipPage.page w i s).2) = Some StatusSuccess).
Proof.
  unfold ZipPage.page, ZipTool.check_zip_command, ZipPage.clear_all.
  destruct (w_which w ZipTool.ZIP_COMMAND); page_step; [|auto 10].
  destruct (uploaded_file i) as [up|].
  - destruct (run_button i).
    + destruct (zip_valid_dec i) as [Hv|Hr].
      * destruct (zip_run_block_spec w i up s Hv) as (f' & tr & -> & _).
        destruct (captured w _ _ _ up (fs s)) as [content|];
          destruct (clear_button i); simpl; eauto 12.
      * destruct (zip_rejected_run w i up s (zip_rejected_not_valid i Hr)) as (msg & ->).
        simpl. auto 10.
    + simpl. destruct (clear_button i); simpl; auto 10.
  - destruct (is_success (zip_operation_status (session s))
              && truthy_bytes (output_zip_content (session s))).
    + unfold ZipPage.previous_block. page_step.
      destruct (clear_button i); simpl; auto 10.
    + simpl. destruct (clear_button i); simpl; auto 10.
Qed.

(** *** The end of a run *)

Lemma zip_script_is_run w c s :
  ZipWidgets.script w c s
  = Streamlit.run_script (ZipWidgets.created_widgets w (session s))
      (ZipPage.page w (ZipWidgets.read_inputs (session s) c)) s.
Proof. reflexivity. Qed.

Lemma enc_script_is_run w c s :
  EncryptDecryptWidgets.script w c s
  = Streamlit.run_script (EncryptDecryptWidgets.created_widgets w (session s))
      (EncryptDecryptPage.page w (EncryptDecryptWidgets.read_inputs (session s) c)) s.
Proof. reflexivity. Qed.

Lemma run_script_spec created (m : M unit) s :
  Streamlit.run_script created m s
  = ((m s).1,
     with_session
       (match (m s).1 with
        | Raise _ => session (m s).2
        | _ => Streamlit.forget_stale created (session (m s).2)
        end) (m s).2).
Proof.
  unfold Streamlit.run_script. destruct (m s) as [[[]|e|] [f x t tr]]; reflexivity.
Qed.

Lemma lookup_forget_stale created x k :
  widgets (Streamlit.forget_stale created x) !! k
  = if existsb (String.eqb k) created then widgets x !! k else None.
Proof.
  unfold Streamlit.forget_stale. simpl.
  destruct (existsb (String.eqb k) created) eqn:Ek.
  - destruct (widgets x !! k) as [v|] eqn:Ev.
    + apply map_lookup_filter_Some. split; [exact Ev|exact Ek].
    + apply map_lookup_filter_None. left. exact Ev.
  - apply map_lookup_filter_None. right. intros v _. simpl. rewrite Ek. discriminate.
Qed.

Lemma forget_stale_sides created x :
  cipher_side (Streamlit.forget_stale created x) = cipher_side x
  ∧ zip_side (Streamlit.forget_stale created x) = zip_side x.
Proof. split; reflexivity. Qed.


(** X12.  The result keys stay consistent: if, for each page, the status
    is "success" exactly when output bytes are held and exactly when a
    file name is held, then the same is true after any run of either page,
    whatever the inputs and however the run ends.  A page that shows a
    previous result therefore always finds the name next to the bytes. *)
Theorem result_keys_stay_consistent (w : World) (i : Inputs) (s : St) :
  consistent (session s) →
  consistent (session (EncryptDecryptPage.page w i s).2)
  ∧ consistent (session (ZipPage.page w i s).2).
Proof.
  intros (C1 & C2 & C3 & C4). split.
  - destruct (enc_page_session w i s) as (_ & Hz & Hc).
    unfold zip_side in Hz. injection Hz as Z1 Z2 Z3 Z4.
    unfold consistent. rewrite Z1, Z2, Z3.
    split; [|split; [|split]]; [| |exact C3|exact C4].
    all: unfold cipher_side in Hc.
    all: destruct Hc as [Hc|[Hc|[Hc|[content Hc]]]]; injection Hc as E1 E2 E3;
      rewrite ?E1, ?E2, ?E3;
      first [ assumption
            | solve [split; [intros [=]|intros [? [=]]]]
            | solve [split; [intros _; eexists; reflexivity|reflexivity]] ].
  - destruct (zip_page_session w i s) as (_ & Hc & _ & Hz).
    unfold cipher_side in Hc. injection Hc as E1 E2 E3.
    unfold consistent. rewrite E1, E2, E3.
    split; [exact C1|]. split; [exact C2|].
    destruct Hz as [Hz|[(-> & -> & [-> | ->])|(content & -> & -> & ->)]].
    + unfold zip_side in Hz. injection Hz as Z1 Z2 Z3 _. rewrite Z1, Z2, Z3. auto.
    + split; (split; [intros [=]|intros [? [=]]]).
    + split; (split; [intros [=]|intros [? [=]]]).
    + split; (split; [intros _; eexists; reflexivity|reflexivity]).
Qed.

Lemma initial_session_consistent : consistent initial_session.
Proof. repeat split; first [intros [=]|intros [? [=]]]. Qed.

Lemma result_keys_stay_consistent_witness :
  consistent initial_session
  ∧ consistent (session (EncryptDecryptPage.page Toy.world Sample.encrypt_notes
                           Sample.start).2).
Proof.
  split; [exact initial_session_consistent|].
  apply (result_keys_stay_consistent Toy.world Sample.encrypt_notes Sample.start).
  exact initial_session_consistent.
Defined.

(** ** Showing the previous result *)

(** X13.  A run without an uploaded file and without a click on Clear All
    changes neither the session nor the file system, starts no program and
    creates no directory.  On a consistent session it offers the held
    result again, with the same bytes under the same name, exactly when
    the held bytes are not empty; a successful result of zero bytes, a
    failure or an empty session offers nothing. *)
Theorem previous_result_is_offered_again (w : World) (i : Inputs) (s : St) :
  uploaded_file i = None → clear_button i = false → consistent (session s) →
  (w_which w "openssl" = true →
   ∃ tr,
     EncryptDecryptPage.page w i s
     = (Ret tt, {| fs := fs s; session := session s; temp_dir := temp_dir s;
                   trace := trace s ++ tr |})
     ∧ spawns tr = [] ∧ workspaces tr = []
     ∧ downloads tr = match output_content (session s), output_filename (session s) with
                      | Some (b :: content), Some name => [(name, b :: content)]
                      | _, _ => []
                      end)
  ∧ (w_which w "zip" = true →
     ∃ tr,
       ZipPage.page w i s
       = (Ret tt, {| fs := fs s; session := session s; temp_dir := temp_dir s;
                     trace := trace s ++ tr |})
       ∧ spawns tr = [] ∧ workspaces tr = []
       ∧ downloads tr = match output_zip_content (session s),
                              output_zip_filename (session s) with
                        | Some (b :: content), Some name => [(name, b :: content)]
                        | _, _ => []
                        end).
Proof.
  intros Hup Hclear (C1 & C2 & C3 & C4). destruct s as [f x t tr0]. simpl in *.
  split; intros Hw.
  - unfold EncryptDecryptPage.page, EncryptDecrypt.check_openssl,
      EncryptDecryptPage.previous_block.
    change EncryptDecrypt.OPENSSL_COMMAND with "openssl".
    rewrite Hw, Hup, Hclear. run_step.
    destruct (operation_status x) as [[|]|] eqn:Es; simpl.
    + destruct (proj1 C1 eq_refl) as [c Hc]. destruct (proj1 C2 eq_refl) as [n Hn].
      rewrite Hc, Hn. destruct c as [|b c]; simpl.
      * exists []. rewrite app_nil_r. auto.
      * eexists. split; [flatten_state; reflexivity|]. auto.
    + exists []. rewrite app_nil_r. split; [reflexivity|].
      destruct (output_content x) as [c|] eqn:Hc; [|auto].
      assert (is_Some (Some c)) as Hs by (eexists; reflexivity).
      apply C1 in Hs. discriminate.
    + exists []. rewrite app_nil_r. split; [reflexivity|].
      destruct (output_content x) as [c|] eqn:Hc; [|auto].
      assert (is_Some (Some c)) as Hs by (eexists; reflexivity).
      apply C1 in Hs. discriminate.
  - unfold ZipPage.page, ZipTool.check_zip_command, ZipPage.previous_block.
    change ZipTool.ZIP_COMMAND with "zip".
    rewrite Hw, Hup, Hclear. run_step.
    destruct (zip_operation_status x) as [[|]|] eqn:Es; simpl.
    + destruct (proj1 C3 eq_refl) as [c Hc]. destruct (proj1 C4 eq_refl) as [n Hn].
      rewrite Hc, Hn. destruct c as [|b c]; simpl.
      * exists []. rewrite app_nil_r. auto.
      * eexists. split; [flatten_state; reflexivity|]. auto.
    + exists []. rewrite app_nil_r. split; [reflexivity|].
      destruct (output_zip_content x) as [c|] eqn:Hc; [|auto].
      assert (is_Some (Some c)) as Hs by (eexists; reflexivity).
      apply C3 in Hs. discriminate.
    + exists []. rewrite app_nil_r. split; [reflexivity|].
      destruct (output_zip_content x) as [c|] eqn:Hc; [|auto].
      assert (is_Some (Some c)) as Hs by (eexists; reflexivity).
      apply C3 in Hs. discriminate.
Qed.

Lemma previous_result_is_offered_again_witness :
  uploaded_file Idle.inputs = None ∧ clear_button Idle.inputs = false
  ∧ ∃ tr,
      EncryptDecryptPage.page Toy.world Idle.inputs Idle.after_encrypt
      = (Ret tt, {| fs := fs Idle.after_encrypt; session := session Idle.after_encrypt;
                    temp_dir := temp_dir Idle.after_encrypt;
                    trace := trace Idle.after_encrypt ++ tr |})
      ∧ downloads tr = [("notes.enc", Toy.magic ++ Toy.hello)].
Proof.
  split; [reflexivity|]. split; [reflexivity|].
  assert (consistent (session Idle.after_encrypt)) as Hc.
  { vm_compute.
    repeat split;
      first [ solve [intros [=]] | solve [intros [? [=]]]
            | intros _; first [reflexivity|eexists; reflexivity] ]. }
  destruct (proj1 (previous_result_is_offered_again Toy.world Idle.inputs Idle.after_encrypt
                     eq_refl eq_refl Hc) eq_refl) as (tr & Hrun & _ & _ & Hd).
  exists tr. split; [exact Hrun|]. exact Hd.
Defined.

(** ** Widget keys and Clear All *)

Lemma enter_current_no_later_keys (x : Session) (v : wval) (k : N → string) :
  k = ZipWidgets.uploader_key ∨ k = ZipWidgets.pwd1_key
  ∨ k = ZipWidgets.pwd2_key ∨ k = ZipWidgets.output_name_key →
  ZipWidgets.no_later_keys x →
  ZipWidgets.no_later_keys (Streamlit.enter (k (zip_clear_trigger x)) v x).
Proof.
  intros Hk Hx n Hn. simpl in *.
  destruct (Hx n Hn) as (H1 & H2 & H3 & H4).
  destruct Hk as [-> | [-> | [-> | ->]]];
    (rewrite !lookup_insert_ne; [auto| | | |]; intros H; key_differs H).
Qed.

Lemma forget_stale_no_later_keys created x :
  ZipWidgets.no_later_keys x → ZipWidgets.no_later_keys (Streamlit.forget_stale created x).
Proof.
  intros Hx n Hn. destruct (Hx n Hn) as (H1 & H2 & H3 & H4).
  rewrite !lookup_forget_stale, H1, H2, H3, H4.
  split; [|split; [|split]]; match goal with |- (if ?b then _ else _) = _ => destruct b end;
    reflexivity.
Qed.

(** X14.  No value is ever stored under a widget key of a later
    generation of the Zip page: if that is so before, it is so after any
    run of the Zip page's script, after any run of the Encrypt/Decrypt
    page's script, and after the user types into or uploads to any of the
    four current widgets of the Zip page. *)
Theorem later_widget_keys_stay_unused
        (w : World) (c : Streamlit.click) (s : St) (v : wval) :
  ZipWidgets.no_later_keys (session s) →
  ZipWidgets.no_later_keys (session (ZipWidgets.script w c s).2)
  ∧ ZipWidgets.no_later_keys (session (EncryptDecryptWidgets.script w c s).2)
  ∧ ZipWidgets.no_later_keys
      (Streamlit.enter (ZipWidgets.uploader_key (zip_clear_trigger (session s))) v (session s))
  ∧ ZipWidgets.no_later_keys
      (Streamlit.enter (ZipWidgets.pwd1_key (zip_clear_trigger (session s))) v (session s))
  ∧ ZipWidgets.no_later_keys
      (Streamlit.enter (ZipWidgets.pwd2_key (zip_clear_trigger (session s))) v (session s))
  ∧ ZipWidgets.no_later_keys
      (Streamlit.enter (ZipWidgets.output_name_key (zip_clear_trigger (session s))) v
         (session s)).
Proof.
  intros Hx.
  assert (ZipWidgets.no_later_keys
            (session (ZipPage.page w (ZipWidgets.read_inputs (session s) c) s).2)) as Hz.
  { destruct (zip_page_session w (ZipWidgets.read_inputs (session s) c) s)
      as (Hw & _ & Ht & _).
    intros n Hn. rewrite Hw. apply Hx. destruct Ht as [Ht|[Ht _]]; rewrite Ht in Hn; lia. }
  assert (ZipWidgets.no_later_keys
            (session (EncryptDecryptPage.page w
                        (EncryptDecryptWidgets.read_inputs (session s) c) s).2)) as He.
  { destruct (enc_page_session w (EncryptDecryptWidgets.read_inputs (session s) c) s)
      as (Hw & Hz' & _).
    unfold zip_side in Hz'. injection Hz' as _ _ _ Ht.
    intros n Hn. rewrite Hw. apply Hx. rewrite Ht in Hn. exact Hn. }
  split; [|split].
  - rewrite zip_script_is_run, run_script_spec. simpl.
    destruct (ZipPage.page _ _ _).1; [apply forget_stale_no_later_keys| |
                                       apply forget_stale_no_later_keys]; exact Hz.
  - rewrite enc_script_is_run, run_script_spec. simpl.
    destruct (EncryptDecryptPage.page _ _ _).1;
      [apply forget_stale_no_later_keys| |apply forget_stale_no_later_keys]; exact He.
  - split; [|split; [|split]]; apply enter_current_no_later_keys; auto.
Qed.

Lemma later_widget_keys_stay_unused_witness :
  ZipWidgets.no_later_keys initial_session
  ∧ ZipWidgets.no_later_keys
      (session (ZipWidgets.script Toy.world Streamlit.ClickClear Sample.start).2)
  ∧ ZipWidgets.no_later_keys
      (Streamlit.enter (ZipWidgets.pwd1_key 0) (WText "hunter2") initial_session).
Proof.
  split; [exact initial_session_no_later_keys|].
  destruct (later_widget_keys_stay_unused Toy.world Streamlit.ClickClear Sample.start
              (WText "hunter2") initial_session_no_later_keys)
    as (H1 & _ & _ & H2 & _).
  split; [exact H1|exact H2].
Defined.

Lemma zip_key_of_generation (k : string) (t : N) :
  existsb (String.eqb k)
    [ZipWidgets.uploader_key t; ZipWidgets.pwd1_key t; ZipWidgets.pwd2_key t;
     ZipWidgets.output_name_key t] = true →
  k = ZipWidgets.uploader_key t ∨ k = ZipWidgets.pwd1_key t
  ∨ k = ZipWidgets.pwd2_key t ∨ k = ZipWidgets.output_name_key t.
Proof.
  simpl. rewrite !orb_true_iff, !String.eqb_eq. intros [H|[H|[H|[H|H]]]]; auto.
  discriminate H.
Qed.

(** X15.  With [zip] installed and no value stored under a later key,
    Clear All on the Zip page ends the run with the three result keys of
    the page emptied and the trigger counted up by one; the values of the
    old widgets are still stored but are not read again: every widget
    reads as empty whatever is clicked next, and a next run that is not
    another Clear All does nothing but discard those old values. *)
Theorem zip_clear_all_starts_afresh (w : World) (s : St) :
  w_which w "zip" = true →
  ZipWidgets.no_later_keys (session s) →
  ∃ s',
    ZipWidgets.script w Streamlit.ClickClear s = (Halt, s')
    ∧ zip_side (session s') = (None, None, None, (zip_clear_trigger (session s) + 1)%N)
    ∧ fs s' = fs s
    ∧ (∀ c, ZipWidgets.read_inputs (session s') c
            = {| operation := Encrypt; uploaded_file := None; password := EmptyString;
                 password_confirm := EmptyString; output_filename_user := EmptyString;
                 run_button := false;
                 clear_button := match c with Streamlit.ClickClear => true | _ => false end |})
    ∧ ZipWidgets.script w Streamlit.NoClick s'
      = (Ret tt, with_session (set_widgets ∅ (session s')) s')
    ∧ ZipWidgets.script w Streamlit.ClickRun s'
      = (Ret tt, with_session (set_widgets ∅ (session s')) s').
Proof.
  intros Hw Hfresh. destruct s as [f x t tr0]. simpl in Hfresh.
  set (L := [ZipWidgets.uploader_key (zip_clear_trigger x);
             ZipWidgets.pwd1_key (zip_clear_trigger x);
             ZipWidgets.pwd2_key (zip_clear_trigger x);
             ZipWidgets.output_name_key (zip_clear_trigger x)]).
  set (x' := Streamlit.forget_stale L
               (set_zip_clear_trigger (zip_clear_trigger x + 1)
                  (set_zip_operation_status None
                     (set_output_zip_filename None (set_output_zip_content None x))))).
  assert (∀ k, widgets x !! k = None → widgets x' !! k = None) as Hsub.
  { intros k Hk. unfold x'. rewrite lookup_forget_stale. simpl. rewrite Hk.
    match goal with |- (if ?b then _ else _) = _ => destruct b end; reflexivity. }
  destruct (Hfresh (zip_clear_trigger x + 1)%N ltac:(lia)) as (H1 & H2 & H3 & H4).
  assert (∀ c, ZipWidgets.read_inputs x' c
               = {| operation := Encrypt; uploaded_file := None; password := EmptyString;
                    password_confirm := EmptyString; output_filename_user := EmptyString;
                    run_button := false;
                    clear_button := match c with
                                    | Streamlit.ClickClear => true
                                    | _ => false
                                    end |}) as Hall.
  { intros c. unfold ZipWidgets.read_inputs, Streamlit.text_input, Streamlit.file_uploader.
    change (zip_clear_trigger x') with (zip_clear_trigger x + 1)%N.
    rewrite (Hsub _ H1), (Hsub _ H2), (Hsub _ H3), (Hsub _ H4). destruct c; reflexivity. }
  assert (∃ tr1, ZipWidgets.script w Streamlit.ClickClear
                   {| fs := f; session := x; temp_dir := t; trace := tr0 |}
                 = (Halt, {| fs := f; session := x'; temp_dir := t; trace := tr1 |}))
    as [tr1 Hrun].
  { unfold ZipWidgets.script, Streamlit.run_script, ZipWidgets.created_widgets,
      ZipPage.page, ZipTool.check_zip_command, ZipPage.clear_all, ZipPage.previous_block.
    change ZipTool.ZIP_COMMAND with "zip". rewrite Hw. run_step.
    destruct (Streamlit.file_uploader x _) as [up|]; simpl.
    2: destruct (is_success (zip_operation_status x) && truthy_bytes (output_zip_content x));
       simpl.
    all: eexists; reflexivity. }
  assert (filter (fun kv => existsb (String.eqb kv.1)
                              [ZipWidgets.uploader_key (zip_clear_trigger x + 1);
                               ZipWidgets.pwd1_key (zip_clear_trigger x + 1);
                               ZipWidgets.pwd2_key (zip_clear_trigger x + 1);
                               ZipWidgets.output_name_key (zip_clear_trigger x + 1)] = true)
            (widgets x') = ∅) as Hempty.
  { apply map_eq. intros k. rewrite lookup_empty.
    apply map_lookup_filter_None.
    destruct (existsb (String.eqb k)
                [ZipWidgets.uploader_key (zip_clear_trigger x + 1);
                 ZipWidgets.pwd1_key (zip_clear_trigger x + 1);
                 ZipWidgets.pwd2_key (zip_clear_trigger x + 1);
                 ZipWidgets.output_name_key (zip_clear_trigger x + 1)]) eqn:Ek.
    - left. apply zip_key_of_generation in Ek as [-> | [-> | [-> | ->]]]; auto.
    - right. intros v _. change ((k, v).1) with k. rewrite Ek. discriminate. }
  set (s1 := {| fs := f; session := x'; temp_dir := t; trace := tr1 |}).
  assert (∀ c, c ≠ Streamlit.ClickClear →
               ZipPage.page w (ZipWidgets.read_inputs x' c) s1 = (Ret tt, s1)) as Hpage.
  { intros c Hc. rewrite Hall. unfold ZipPage.page, ZipTool.check_zip_command.
    change ZipTool.ZIP_COMMAND with "zip". rewrite Hw. destruct c; [| |congruence]; reflexivity. }
  assert (Streamlit.forget_stale (ZipWidgets.created_widgets w x') x' = set_widgets ∅ x')
    as Hforget.
  { unfold ZipWidgets.created_widgets. change ZipTool.ZIP_COMMAND with "zip". rewrite Hw.
    unfold Streamlit.forget_stale. cbv zeta.
    change (zip_clear_trigger x') with (zip_clear_trigger x + 1)%N.
    rewrite Hempty. reflexivity. }
  exists s1.
  split; [exact Hrun|]. split; [reflexivity|]. split; [reflexivity|].
  split; [exact Hall|].
  split; rewrite zip_script_is_run, run_script_spec; change (session s1) with x';
    rewrite Hpage by discriminate; simpl; rewrite Hforget; reflexivity.
Qed.

Lemma zip_clear_all_starts_afresh_witness :
  w_which Toy.world "zip" = true
  ∧ ZipWidgets.no_later_keys (session Typed.zip_state)
  ∧ ∃ s',
      ZipWidgets.script Toy.world Streamlit.ClickClear Typed.zip_state = (Halt, s')
      ∧ zip_side (session s') = (None, None, None, 1%N)
      ∧ password (ZipWidgets.read_inputs (session Typed.zip_state) Streamlit.NoClick)
        = "hunter2"
      ∧ password (ZipWidgets.read_inputs (session s') Streamlit.NoClick) = EmptyString
      ∧ ZipWidgets.script Toy.world Streamlit.ClickRun s'
        = (Ret tt, with_session (set_widgets ∅ (session s')) s').
Proof.
  assert (ZipWidgets.no_later_keys (session Typed.zip_state)) as Hk.
  { apply (enter_current_no_later_keys initial_session (WText "hunter2") ZipWidgets.pwd1_key);
      [auto|exact initial_session_no_later_keys]. }
  split; [reflexivity|]. split; [exact Hk|].
  destruct (zip_clear_all_starts_afresh Toy.world Typed.zip_state eq_refl Hk)
    as (s' & H1 & H2 & _ & H3 & _ & H4).
  exists s'. split; [exact H1|]. split; [exact H2|]. split; [reflexivity|].
  split; [rewrite H3; reflexivity|exact H4].
Defined.

Lemma enc_preview_block_outcome w up s r s' :
  EncryptDecryptPage.preview_block w up s = (r, s') → r = Ret tt ∨ ∃ e, r = Raise e.
Proof.
  destruct s as [f x t tr0].
  unfold EncryptDecryptPage.preview_block, mkdtemp, rmtree. run_step.
  destruct (w_mkdtemp w) as [e|name]; simpl.
  { destruct t as [d|]; simpl.
    - destruct (Py.is_empty d); simpl; [intros [= <- <-]; eauto|].
      destruct (w_rmtree w); simpl; [intros [= <- <-]; eauto|].
      destruct (f !! d) as [[c|]|]; simpl; intros [= <- <-]; eauto.
    - intros [= <- <-]; eauto. }
  destruct (Os.path_exists f (workspace_path name)); simpl.
  { destruct t as [d|]; simpl.
    - destruct (Py.is_empty d); simpl; [intros [= <- <-]; eauto|].
      destruct (w_rmtree w); simpl; [intros [= <- <-]; eauto|].
      destruct (f !! d) as [[c|]|]; simpl; intros [= <- <-]; eauto.
    - intros [= <- <-]; eauto. }
  destruct (Os.write_file _ _ _) as [e|f0]; simpl.
  all: destruct (w_rmtree w); simpl; [intros [= <- <-]; eauto|].
  all: match goal with
       | |- context [?m !! workspace_path ?n] =>
         destruct (m !! workspace_path n) as [[c|]|]; simpl
       end.
  all: intros [= <- <-]; eauto.
Qed.

Lemma existsb_eqb_in (k : string) (L : list string) :
  In k L → existsb (String.eqb k) L = true.
Proof. intros H. apply existsb_exists. exists k. split; [exact H|apply String.eqb_refl]. Qed.

(** Every widget whose value the Encrypt/Decrypt page reads is created by
    every run that gets past the check for [openssl]; discarding the stale
    values therefore changes nothing the page reads. *)
Lemma enc_read_inputs_forget w x c :
  w_which w "openssl" = true →
  EncryptDecryptWidgets.read_inputs
    (Streamlit.forget_stale (EncryptDecryptWidgets.created_widgets w x) x) c
  = EncryptDecryptWidgets.read_inputs x c.
Proof.
  intros Hw. unfold EncryptDecryptWidgets.created_widgets.
  change EncryptDecrypt.OPENSSL_COMMAND with "openssl". rewrite Hw. cbv zeta.
  set (op := operation (EncryptDecryptWidgets.read_inputs x Streamlit.NoClick)).
  set (up := uploaded_file (EncryptDecryptWidgets.read_inputs x Streamlit.NoClick)).
  set (L := [EncryptDecryptWidgets.operation_id; EncryptDecryptWidgets.uploader_id;
             EncryptDecryptWidgets.pwd1_key]
            ++ match op with
               | Encrypt => [EncryptDecryptWidgets.pwd2_key]
               | Decrypt => []
               end
            ++ [EncryptDecryptWidgets.output_name_id
                  (EncryptDecryptWidgets.default_output_filename op up)]).
  assert (∀ k, In k L → widgets (Streamlit.forget_stale L x) !! k = widgets x !! k) as Hk.
  { intros k Hin. rewrite lookup_forget_stale, (existsb_eqb_in k L Hin). reflexivity. }
  assert (In EncryptDecryptWidgets.operation_id L) as M1 by (simpl; auto).
  assert (In EncryptDecryptWidgets.uploader_id L) as M2 by (simpl; auto).
  assert (In EncryptDecryptWidgets.pwd1_key L) as M3 by (simpl; auto).
  assert (op = Encrypt → In EncryptDecryptWidgets.pwd2_key L) as M4.
  { intros E. unfold L. rewrite E. simpl. auto. }
  assert (In (EncryptDecryptWidgets.output_name_id
                (EncryptDecryptWidgets.default_output_filename op up)) L) as M5.
  { unfold L. rewrite !in_app_iff. right. right. left. reflexivity. }
  unfold EncryptDecryptWidgets.read_inputs, Streamlit.text_input, Streamlit.file_uploader.
  cbv zeta. rewrite (Hk _ M1).
  fold (Streamlit.file_uploader (Streamlit.forget_stale L x) EncryptDecryptWidgets.uploader_id).
  unfold Streamlit.file_uploader. rewrite (Hk _ M2), (Hk _ M3).
  change (match widgets x !! EncryptDecryptWidgets.operation_id with
          | Some (WText "Decrypt") => Decrypt
          | _ => Encrypt
          end) with op.
  change (match widgets x !! EncryptDecryptWidgets.uploader_id with
          | Some (WFile name data) => Some {| up_name := name; up_data := data |}
          | _ => None
          end) with up.
  rewrite (Hk _ M5).
  destruct op eqn:Eop; [rewrite (Hk _ (M4 eq_refl))|]; reflexivity.
Qed.

(** X16.  Clear All on the Encrypt/Decrypt page does not clear its
    inputs.  Every widget the page reads is created before the button is
    looked at, so Streamlit keeps their values: with [openssl] installed,
    the next run reads the same file, passwords and file name as the run
    in which the button was clicked.  The keys of the Zip page are left
    alone.  The run never ends normally: it either stops at the rerun with
    the three result keys emptied or, when a file is uploaded and
    removing the preview directory fails, ends in that exception before
    the keys are touched. *)
Theorem cipher_clear_all_keeps_the_inputs
        (w : World) (s : St) (r : outcome unit) (s' : St) :
  w_which w "openssl" = true →
  EncryptDecryptWidgets.script w Streamlit.ClickClear s = (r, s') →
  (∀ c, EncryptDecryptWidgets.read_inputs (session s') c
        = EncryptDecryptWidgets.read_inputs (session s) c)
  ∧ zip_side (session s') = zip_side (session s)
  ∧ r ≠ Ret tt
  ∧ ((r = Halt ∧ cipher_side (session s') = (None, None, None))
     ∨ (∃ e, r = Raise e ∧ cipher_side (session s') = cipher_side (session s)
             ∧ is_Some (uploaded_file
                          (EncryptDecryptWidgets.read_inputs (session s)
                             Streamlit.ClickClear)))).
Proof.
  intros Hw Hrun.
  rewrite enc_script_is_run, run_script_spec in Hrun.
  set (i := EncryptDecryptWidgets.read_inputs (session s) Streamlit.ClickClear) in *.
  destruct (enc_page_session w i s) as (Hwid & Hz & _).
  assert ((EncryptDecryptPage.page w i s).1 ≠ Ret tt
          ∧ (((EncryptDecryptPage.page w i s).1 = Halt
              ∧ cipher_side (session (EncryptDecryptPage.page w i s).2) = (None, None, None))
             ∨ (∃ e, (EncryptDecryptPage.page w i s).1 = Raise e
                     ∧ cipher_side (session (EncryptDecryptPage.page w i s).2)
                       = cipher_side (session s)
                     ∧ is_Some (uploaded_file i)))) as [Hne Hcases].
  { assert (clear_button i = true) as Hcl by reflexivity.
    assert (run_button i = false) as Hrb by reflexivity.
    clearbody i. destruct s as [f x t tr0].
    unfold EncryptDecryptPage.page, EncryptDecrypt.check_openssl, EncryptDecryptPage.clear_all.
    change EncryptDecrypt.OPENSSL_COMMAND with "openssl". rewrite Hw, Hcl, Hrb.
    unfold mbind, M_bind, bind, get_session; simpl.
    destruct (uploaded_file i) as [up|]; simpl.
    - destruct (is_fail (operation_status x)); simpl.
      + split; [discriminate|]. left. split; reflexivity.
      + unfold set_temp_dir. simpl.
        destruct (EncryptDecryptPage.preview_block w up _) as [r1 s1] eqn:Ep.
        pose proof (enc_preview_block_session _ _ _ _ _ Ep) as Hs. simpl in Hs.
        destruct (enc_preview_block_outcome _ _ _ _ _ Ep) as [-> | [e ->]]; simpl.
        * split; [discriminate|]. left. split; reflexivity.
        * split; [discriminate|]. right.
          exists e. split; [reflexivity|]. rewrite Hs. split; [reflexivity|].
          eexists; reflexivity.
    - destruct (is_success (operation_status x) && truthy_bytes (output_content x)); simpl.
      + unfold EncryptDecryptPage.previous_block. run_step.
        split; [discriminate|]. left. split; reflexivity.
      + run_step. split; [discriminate|]. left. split; reflexivity. }
  injection Hrun as <- <-. simpl.
  assert (∀ c, EncryptDecryptWidgets.read_inputs
                 (session (EncryptDecryptPage.page w i s).2) c
               = EncryptDecryptWidgets.read_inputs (session s) c) as Hsame.
  { intros c.
    unfold EncryptDecryptWidgets.read_inputs, Streamlit.text_input, Streamlit.file_uploader.
    rewrite Hwid. reflexivity. }
  assert (∀ c, EncryptDecryptWidgets.read_inputs
                 (Streamlit.forget_stale
                    (EncryptDecryptWidgets.created_widgets w (session s))
                    (session (EncryptDecryptPage.page w i s).2)) c
               = EncryptDecryptWidgets.read_inputs (session s) c) as Hkept.
  { intros c. rewrite <- (enc_read_inputs_forget w (session s) c Hw).
    unfold EncryptDecryptWidgets.read_inputs, Streamlit.text_input, Streamlit.file_uploader.
    rewrite !lookup_forget_stale, Hwid. reflexivity. }
  split; [|split; [|split; [exact Hne|]]].
  - intros c. destruct (EncryptDecryptPage.page w i s).1; [apply Hkept|apply Hsame|apply Hkept].
  - rewrite <- Hz. destruct (EncryptDecryptPage.page w i s).1; reflexivity.
  - destruct Hcases as [[Hh Hc]|(e & He & Hc & Hu)].
    + left. split; [exact Hh|]. rewrite Hh. exact Hc.
    + right. exists e. split; [exact He|]. rewrite He. split; [exact Hc|exact Hu].
Qed.

Lemma cipher_clear_all_keeps_the_inputs_witness :
  ∃ s',
    EncryptDecryptWidgets.script Toy.world Streamlit.ClickClear Typed.state = (Halt, s')
    ∧ EncryptDecryptWidgets.read_inputs (session s') Streamlit.NoClick
      = EncryptDecryptWidgets.read_inputs Typed.session Streamlit.NoClick
    ∧ password (EncryptDecryptWidgets.read_inputs (session s') Streamlit.NoClick) = "hunter2".
Proof.
  set (rs := EncryptDecryptWidgets.script Toy.world Streamlit.ClickClear Typed.state).
  assert (rs = (Halt, rs.2)) as Hrun by (vm_compute; reflexivity).
  exists rs.2. split; [exact Hrun|].
  destruct (cipher_clear_all_keeps_the_inputs Toy.world Typed.state Halt rs.2 eq_refl Hrun)
    as (Hread & _).
  split; [apply Hread|]. rewrite Hread. reflexivity.
Defined.

(** ** The suggested output names *)

Lemma endswith_refl suf : Py.endswith suf suf = true.
Proof. destruct suf; simpl; [reflexivity|]. rewrite Ascii.eqb_refl, String.eqb_refl. reflexivity. Qed.

Lemma endswith_app a suf : Py.endswith suf (a +:+ suf) = true.
Proof.
  induction a as [|c a IH].
  - apply endswith_refl.
  - rewrite string_cons_app.
    change (Py.endswith suf (String c (a +:+ suf)))
      with (if String.eqb (String c (a +:+ suf)) suf then true
            else Py.endswith suf (a +:+ suf)).
    rewrite IH. destruct (String.eqb _ _); reflexivity.
Qed.

Lemma app_not_empty_r (a b : string) : b ≠ EmptyString → a +:+ b ≠ EmptyString.
Proof. destruct a; [intros H; exact H|discriminate]. Qed.

Lemma all_dots_not_empty r : OsPath.all_dots r = false → r ≠ EmptyString.
Proof. intros H ->. discriminate H. Qed.

Lemma splitext_ext_gives_base p base ext :
  OsPath.splitext p = (base, ext) → ext ≠ EmptyString → base ≠ EmptyString.
Proof.
  unfold OsPath.splitext.
  destruct (OsPath.split_last_dot _) as [[root e]|]; [|intros [= <- <-]; congruence].
  destruct (OsPath.all_dots root) eqn:Er; [intros [= <- <-]; congruence|].
  intros [= <- <-] _. apply app_not_empty_r, all_dots_not_empty, Er.
Qed.

(** X17.  The archive name the Zip page suggests for an upload is never
    empty and already ends in [.zip]: the page uses it as it is, shows no
    warning about a changed name, and changes nothing in doing so. *)
Theorem zip_default_name_is_kept (up : Upload) (s : St) :
  let name := ZipWidgets.default_output_filename (Some up) in
  name ≠ EmptyString
  ∧ Py.endswith ".zip" (Py.lower name) = true
  ∧ zip_name name = name
  ∧ ZipPage.choose_output_filename name s = (Ret name, s).
Proof.
  intros name.
  assert (Py.endswith ".zip" (Py.lower name) = true) as He.
  { unfold name, ZipWidgets.default_output_filename.
    rewrite lower_app.
    change (Py.lower "_protected.zip") with ("_protected" +:+ ".zip").
    rewrite <- string_app_assoc. apply endswith_app. }
  split; [apply app_not_empty_r; discriminate|].
  split; [exact He|].
  split; [unfold zip_name; rewrite He; reflexivity|].
  rewrite zip_choose_spec, He. unfold zip_name. rewrite He. reflexivity.
Qed.

(** X18.  Once a file is uploaded, the Encrypt/Decrypt page never
    suggests an empty output name.  For Encrypt the suggestion ends in
    [.enc].  For Decrypt it is the name without its extension when that
    extension is [.enc] in any mix of upper and lower case, and the name
    followed by [.dec] otherwise; the fallback "decrypted_file" is never
    used, because a name with an extension has a non-empty part before
    it. *)
Theorem cipher_default_name_is_never_empty (op : Operation) (up : Upload) :
  EncryptDecryptWidgets.default_output_filename op (Some up) ≠ EmptyString
  ∧ Py.endswith ".enc" (EncryptDecryptWidgets.default_output_filename Encrypt (Some up))
    = true
  ∧ EncryptDecryptWidgets.default_output_filename Decrypt (Some up)
    = (if String.eqb (Py.lower (OsPath.splitext (up_name up)).2) ".enc"
       then (OsPath.splitext (up_name up)).1
       else up_name up +:+ ".dec").
Proof.
  unfold EncryptDecryptWidgets.default_output_filename.
  destruct (OsPath.splitext (up_name up)) as [base ext] eqn:Es. simpl.
  assert (String.eqb (Py.lower ext) ".enc" = true → Py.is_empty base = false) as Hb.
  { intros He. apply is_empty_false. apply (splitext_ext_gives_base _ _ _ Es).
    intros ->. discriminate He. }
  split; [|split].
  - destruct op.
    + apply app_not_empty_r. discriminate.
    + destruct (String.eqb (Py.lower ext) ".enc") eqn:He.
      * rewrite (Hb eq_refl). apply is_empty_false, Hb. reflexivity.
      * apply app_not_empty_r. discriminate.
  - apply endswith_app.
  - destruct (String.eqb (Py.lower ext) ".enc") eqn:He; [|reflexivity].
    rewrite (Hb eq_refl). reflexivity.
Qed.

(** *** [os.path.splitext] on a name with an extension put behind it *)

Lemma head_upto_last_slash_cons c p :
  Os.head_upto_last_slash (String c p)
  = match Os.head_upto_last_slash p with
    | Some h => Some (String c h)
    | None => if Ascii.eqb c "/" then Some (String c EmptyString) else None
    end.
Proof. reflexivity. Qed.

Lemma split_last_dot_cons c s :
  OsPath.split_last_dot (String c s)
  = match OsPath.split_last_dot s with
    | Some (root, ext) => Some (String c root, ext)
    | None => if Ascii.eqb c "." then Some (EmptyString, String c s) else None
    end.
Proof. reflexivity. Qed.

Lemma no_slash_app a b : Os.no_slash (a +:+ b) = Os.no_slash a && Os.no_slash b.
Proof.
  induction a as [|c a IH]; [reflexivity|].
  rewrite string_cons_app. simpl. rewrite IH. apply andb_assoc.
Qed.

(** A path is its part up to the last slash followed by a part without
    slashes. *)
Lemma head_and_tail p :
  ∃ t, p = default EmptyString (Os.head_upto_last_slash p) +:+ t
       ∧ Os.no_slash t = true
       ∧ OsPath.drop_string
           (String.length (default EmptyString (Os.head_upto_last_slash p))) p = t.
Proof.
  induction p as [|c p (t & Hp & Ht & Hd)]; [exists EmptyString; auto|].
  rewrite head_upto_last_slash_cons.
  destruct (Os.head_upto_last_slash p) as [h|]; simpl in *.
  - exists t. rewrite string_cons_app, <- Hp. auto.
  - change (EmptyString +:+ t) with t in Hp. subst t.
    destruct (Ascii.eqb c "/") eqn:Ec; simpl.
    + exists p. auto.
    + exists (String c p). simpl. rewrite Ec, Ht. auto.
Qed.

Lemma head_upto_last_slash_app_tail p e :
  Os.no_slash e = true →
  Os.head_upto_last_slash (p +:+ e) = Os.head_upto_last_slash p.
Proof.
  intros He. induction p as [|c p IH].
  - apply no_slash_head, He.
  - rewrite string_cons_app, !head_upto_last_slash_cons, IH. reflexivity.
Qed.

Lemma head_of_head p :
  Os.head_upto_last_slash (default EmptyString (Os.head_upto_last_slash p))
  = Os.head_upto_last_slash p.
Proof.
  induction p as [|c p IH]; [reflexivity|].
  rewrite head_upto_last_slash_cons.
  destruct (Os.head_upto_last_slash p) as [h|]; simpl in *.
  - rewrite IH. reflexivity.
  - destruct (Ascii.eqb c "/") eqn:Ec; simpl; [rewrite Ec|]; reflexivity.
Qed.

Lemma drop_string_app h x : OsPath.drop_string (String.length h) (h +:+ x) = x.
Proof. induction h as [|c h IH]; [destruct x; reflexivity|exact IH]. Qed.

(** [splitext] looks at the last component only. *)
Lemma splitext_of_tail p x :
  Os.no_slash x = true →
  OsPath.splitext (default EmptyString (Os.head_upto_last_slash p) +:+ x)
  = match OsPath.split_last_dot x with
    | Some (root, ext) =>
      if OsPath.all_dots root
      then (default EmptyString (Os.head_upto_last_slash p) +:+ x, EmptyString)
      else (default EmptyString (Os.head_upto_last_slash p) +:+ root, ext)
    | None => (default EmptyString (Os.head_upto_last_slash p) +:+ x, EmptyString)
    end.
Proof.
  intros Hx. unfold OsPath.splitext.
  rewrite (head_upto_last_slash_app_tail _ x Hx), head_of_head, drop_string_app.
  reflexivity.
Qed.

Lemma split_last_dot_parts t root ext :
  OsPath.split_last_dot t = Some (root, ext) → t = root +:+ ext.
Proof.
  revert root. induction t as [|c t IH]; intros root; [discriminate|].
  rewrite split_last_dot_cons.
  destruct (OsPath.split_last_dot t) as [[r e]|].
  - intros [= <- <-]. rewrite string_cons_app, <- (IH r eq_refl). reflexivity.
  - destruct (Ascii.eqb c "."); [|discriminate]. intros [= <- <-]. reflexivity.
Qed.

Lemma split_last_dot_app r e :
  OsPath.split_last_dot e = None →
  OsPath.split_last_dot (r +:+ String "." e) = Some (r, String "." e).
Proof.
  intros He. induction r as [|c r IH].
  - change (EmptyString +:+ String "." e) with (String "." e).
    rewrite split_last_dot_cons, He. reflexivity.
  - rewrite string_cons_app, split_last_dot_cons, IH. reflexivity.
Qed.

(** Putting [.enc] behind a name that has a last component of its own
    makes [.enc] its extension. *)
Lemma splitext_enc p x :
  Os.no_slash x = true → OsPath.all_dots x = false →
  OsPath.splitext ((default EmptyString (Os.head_upto_last_slash p) +:+ x) +:+ ".enc")
  = (default EmptyString (Os.head_upto_last_slash p) +:+ x, ".enc").
Proof.
  intros Hx Hd. rewrite string_app_assoc, splitext_of_tail.
  - rewrite (split_last_dot_app x "enc" eq_refl), Hd. reflexivity.
  - rewrite no_slash_app, Hx. reflexivity.
Qed.

(** X19.  The two suggestions undo each other up to the extension: for an
    upload whose name has a last component that is not made of dots
    only, the name suggested for decrypting a file that carries the name
    suggested for encrypting the upload is the upload's name without its
    extension.  The original extension is not put back. *)
Theorem suggested_names_round_trip (n : string) (x c : Py.bytes) :
  names_a_file n →
  let encrypted_name :=
    EncryptDecryptWidgets.default_output_filename Encrypt
      (Some {| up_name := n; up_data := x |}) in
  EncryptDecryptWidgets.default_output_filename Decrypt
    (Some {| up_name := encrypted_name; up_data := c |})
  = (OsPath.splitext n).1.
Proof.
  unfold names_a_file. intros Hn.
  destruct (head_and_tail n) as (t & Hp & Ht & Hd). rewrite Hd in Hn.
  set (h := default EmptyString (Os.head_upto_last_slash n)) in *.
  assert (∃ r, (OsPath.splitext n).1 = h +:+ r
               ∧ Os.no_slash r = true ∧ OsPath.all_dots r = false) as (r & Hb & Hr & Hrd).
  { assert (OsPath.splitext n = OsPath.splitext (h +:+ t)) as -> by (rewrite <- Hp; reflexivity).
    unfold h. rewrite (splitext_of_tail n t Ht). fold h.
    destruct (OsPath.split_last_dot t) as [[root ext]|] eqn:Es; [|exists t; auto].
    destruct (OsPath.all_dots root) eqn:Er; [exists t; auto|].
    exists root. split; [reflexivity|]. split; [|exact Er].
    apply split_last_dot_parts in Es. rewrite Es, no_slash_app in Ht.
    apply andb_true_iff in Ht. apply Ht. }
  simpl. unfold EncryptDecryptWidgets.default_output_filename. simpl.
  destruct (OsPath.splitext n) as [base ext]. simpl in Hb. subst base.
  unfold h. rewrite (splitext_enc n r Hr Hrd). fold h.
  change (String.eqb (Py.lower ".enc") ".enc") with true. cbv iota.
  assert (Py.is_empty (h +:+ r) = false) as ->; [|reflexivity].
  apply is_empty_false, app_not_empty_r, all_dots_not_empty, Hrd.
Qed.

Lemma suggested_names_round_trip_witness :
  names_a_file "notes.txt"
  ∧ EncryptDecryptWidgets.default_output_filename Encrypt (Some Sample.notes) = "notes.enc"
  ∧ EncryptDecryptWidgets.default_output_filename Decrypt
      (Some {| up_name := "notes.enc"; up_data := Toy.magic ++ Toy.hello |})
    = "notes".
Proof.
  split; [reflexivity|]. split; [reflexivity|].
  apply (suggested_names_round_trip "notes.txt" Toy.hello (Toy.magic ++ Toy.hello)).
  reflexivity.
Defined.

(** ** The preview of an upload that is not being processed *)

Lemma remove_tree_restores name (f : FS) p v :
  vacant f (workspace_path name) →
  Os.under (workspace_path name) p = true →
  Os.remove_tree (<[p := v]> (<[workspace_path name := Dir]> f)) (workspace_path name) = f.
Proof.
  intros Hv Hp. apply map_eq. intros k. unfold Os.remove_tree.
  destruct (Os.under (workspace_path name) k) eqn:Ek.
  - rewrite (Hv k Ek). apply map_lookup_filter_None. right.
    intros x _. simpl. rewrite Ek. discriminate.
  - assert (k ≠ p) as Hkp by (intros ->; congruence).
    assert (k ≠ workspace_path name) as Hkd.
    { intros ->. rewrite workspace_root_under in Ek. discriminate. }
    destruct (f !! k) as [x|] eqn:Ef.
    + apply map_lookup_filter_Some. split; [|exact Ek].
      rewrite !lookup_insert_ne by congruence. exact Ef.
    + apply map_lookup_filter_None. left.
      rewrite !lookup_insert_ne by congruence. exact Ef.
Qed.

Lemma preview_reads_one_file w (f g : FS) path :
  f !! path = g !! path →
  EncryptDecrypt.get_file_preview w f path = EncryptDecrypt.get_file_preview w g path.
Proof.
  intros H. unfold EncryptDecrypt.get_file_preview, Os.path_getsize, Os.open_rb.
  rewrite H. reflexivity.
Qed.



Lemma write_file_inr (f f' : FS) p data :
  Os.write_file f p data = inr f' → f' = <[p := File data]> f ∧ f !! p ≠ Some Dir.
Proof.
  unfold Os.write_file.
  destruct (f !! p) as [[c|]|]; try discriminate;
    destruct (Os.dir_check f (Os.path_dirname p) p); try discriminate;
    intros [= <-]; split; congruence.
Qed.

(** X21.  The same branch does not guard its cleanup: when the directory
    was created but [shutil.rmtree] fails, the exception ends the run.
    The session is unchanged, the directory is still on disk, and the rest
    of the script, Clear All included, is not reached. *)
Theorem input_preview_cleanup_failure_escapes
        (w : World) (i : Inputs) (up : Upload) (s : St) (d : string) (e : exn) :
  w_which w "openssl" = true →
  uploaded_file i = Some up → run_button i = false →
  operation_status (session s) ≠ Some StatusFail →
  created w (fs s) = Some d → w_rmtree w = Some e →
  ∃ s' tr,
    EncryptDecryptPage.page w i s = (Raise e, s')
    ∧ session s' = session s
    ∧ fs s' !! d = Some Dir
    ∧ trace s' = trace s ++ tr
    ∧ workspaces tr = [d]
    ∧ last tr = Some (Rmtree d).
Proof.
  intros Hw Hup Hrun Hst Hc Hrm.
  destruct s as [f x t tr0]. simpl in *.
  assert (is_fail (operation_status x) = false) as Hnf.
  { destruct (operation_status x) as [[|]|]; [reflexivity|congruence|reflexivity]. }
  unfold created in Hc. destruct (w_mkdtemp w) as [e0|name] eqn:Hm; [discriminate|].
  destruct (Os.path_exists f (workspace_path name)) eqn:Hex; [discriminate|].
  injection Hc as <-.
  unfold EncryptDecryptPage.page, EncryptDecrypt.check_openssl.
  change EncryptDecrypt.OPENSSL_COMMAND with "openssl".
  rewrite Hw, Hup, Hrun.
  unfold EncryptDecryptPage.preview_block, mkdtemp, rmtree. rewrite Hm, Hrm.
  run_step. rewrite Hnf. simpl. rewrite Hex. simpl.
  assert (Py.is_empty (workspace_path name) = false) as Hne by reflexivity.
  destruct (Os.write_file _ _ _) as [e1|f1] eqn:Hwr; simpl; rewrite ?Hne; simpl.
  - eexists _, _. split; [reflexivity|]. simpl. split; [reflexivity|].
    split; [apply lookup_insert_eq|]. split; [flatten_state; reflexivity|].
    split; reflexivity.
  - eexists _, _. split; [reflexivity|]. simpl. split; [reflexivity|].
    apply write_file_inr in Hwr as [-> Hnd]. split.
    { rewrite lookup_insert_ne; [apply lookup_insert_eq|].
      intros Heq. apply Hnd. rewrite Heq. apply lookup_insert_eq. }
    split; [flatten_state; reflexivity|]. split; reflexivity.
Qed.

Lemma input_preview_cleanup_failure_escapes_witness :
  created Denied.world ∅ = Some "/tmp/tmpk3v9"
  ∧ ∃ s',
      EncryptDecryptPage.page Denied.world Idle.with_file Sample.start
      = (Raise (Exn PermissionError "[Errno 13] Permission denied: '/tmp/tmpk3v9'"), s')
      ∧ fs s' !! "/tmp/tmpk3v9" = Some Dir.
Proof.
  split; [reflexivity|].
  destruct (input_preview_cleanup_failure_escapes Denied.world Idle.with_file Sample.notes
              Sample.start "/tmp/tmpk3v9"
              (Exn PermissionError "[Errno 13] Permission denied: '/tmp/tmpk3v9'")
              eq_refl eq_refl eq_refl ltac:(discriminate) eq_refl eq_refl)
    as (s' & tr & H1 & _ & H2 & _).
  exists s'. split; [exact H1|exact H2].
Defined.

(** ** An output name that is an absolute path *)

Section AbsoluteOutput.
Variable w : World.
Variable name : string.
Hypothesis openssl_found : w_which w "openssl" = true.
Hypothesis mkdtemp_name : w_mkdtemp w = inr name.
Hypothesis name_plain : Os.no_slash name = true.
Hypothesis rmtree_works : w_rmtree w = None.

Let d := workspace_path name.


End AbsoluteOutput.


(** ** The size of the hexadecimal preview *)

Lemma string_length_app (a b : string) :
  String.length (a +:+ b) = (String.length a + String.length b)%nat.
Proof. induction a as [|c a IH]; [reflexivity|]. rewrite string_cons_app. simpl. rewrite IH. reflexivity. Qed.

Lemma hex_cons b l :
  Py.hex " " (b :: l)
  = match l with
    | [] => Py.hex_byte b
    | _ :: _ => Py.hex_byte b +:+ " " +:+ Py.hex " " l
    end.
Proof. destruct l; reflexivity. Qed.

Lemma hex_length (l : Py.bytes) :
  String.length (Py.hex " " l) = (3 * length l - 1)%nat.
Proof.
  induction l as [|b l IH]; [reflexivity|].
  rewrite hex_cons. destruct l as [|b' l]; [reflexivity|].
  rewrite !string_length_app, IH.
  change (String.length (Py.hex_byte b)) with 2%nat.
  change (String.length " ") with 1%nat. simpl length. lia.
Qed.

Lemma prefix_upto_length {A} (n : N) (l : list A) :
  length (Py.prefix_upto n l) = Nat.min (N.to_nat n) (length l).
Proof.
  pose proof (prefix_upto_len n l) as H. rewrite !len_length in H. lia.
Qed.

(** X23.  The hexadecimal preview shows at most the first 256 bytes of a
    file, two digits a byte with single spaces between: its length is
    three times the number of bytes shown less one, so it never exceeds
    767 characters, and the whole preview text of a binary file never
    exceeds 860 characters, however large the file is. *)
Theorem hex_preview_is_bounded (content_bytes : Py.bytes) :
  String.length (Py.hex " " (Py.prefix_upto 256 content_bytes))
  = (3 * Nat.min 256 (length content_bytes) - 1)%nat
  ∧ (String.length (EncryptDecrypt.hex_preview_text content_bytes) <= 860)%nat.
Proof.
  assert (String.length (Py.hex " " (Py.prefix_upto 256 content_bytes))
          = (3 * Nat.min 256 (length content_bytes) - 1)%nat) as H.
  { rewrite hex_length, prefix_upto_length. reflexivity. }
  split; [exact H|].
  unfold EncryptDecrypt.hex_preview_text. rewrite !string_length_app, H.
  change (String.length "(Binary file detected or Text decoding failed)") with 46%nat.
  change (String.length "**Hex Preview (first 256 bytes):**") with 34%nat.
  change (String.length nl) with 1%nat.
  change (String.length fence) with 3%nat.
  change (String.length "...") with 3%nat.
  lia.
Qed.

(** ** Decrypt and the confirmation field *)

(** X24.  In Decrypt mode, in which the script does not create the
    confirmation field, nothing a run does depends on a confirmation
    value: two runs of the page that differ only in it are equal, in
    result, final state and everything shown. *)
Theorem decrypt_never_reads_the_confirmation
        (w : World) (i : Inputs) (confirm : string) (s : St) :
  operation i = Decrypt →
  EncryptDecryptPage.page w
    {| operation := operation i; uploaded_file := uploaded_file i;
       password := password i; password_confirm := confirm;
       output_filename_user := output_filename_user i;
       run_button := run_button i; clear_button := clear_button i |} s
  = EncryptDecryptPage.page w i s.
Proof.
  destruct i as [op up pw pc out rb cb]. simpl. intros ->.
  unfold EncryptDecryptPage.page. simpl.
  destruct (EncryptDecrypt.check_openssl w s) as [[[]|e|] s0]; reflexivity.
Qed.

Lemma decrypt_never_reads_the_confirmation_witness :
  EncryptDecryptPage.page Toy.world
    (Toy.request Decrypt "notes.enc" (Toy.magic ++ Toy.hello) "secret123" "anything"
       "notes.txt") Sample.start
  = EncryptDecryptPage.page Toy.world
      (Toy.request Decrypt "notes.enc" (Toy.magic ++ Toy.hello) "secret123" EmptyString
         "notes.txt") Sample.start.
Proof.
  apply (decrypt_never_reads_the_confirmation Toy.world
           (Toy.request Decrypt "notes.enc" (Toy.magic ++ Toy.hello) "secret123" EmptyString
              "notes.txt") "anything" Sample.start).
  reflexivity.
Defined.

(** ** A request for which no temporary directory can be made *)

(** X25.  When [tempfile.mkdtemp] raises, a request that passed the
    checks ends normally as a failure: the exception text is shown in the
    status line, the status is "fail" with no bytes and no name held, the
    file system is untouched, and neither a program nor [rmtree] is
    run, on both pages. *)
Theorem request_without_workspace_fails_cleanly
        (w : World) (i : Inputs) (up : Upload) (s : St) (e : exn) :
  w_mkdtemp w = inl e →
  (cipher_valid i →
   EncryptDecryptPage.run_block w i up s
   = (Ret tt,
      {| fs := fs s; session := enc_failed (session s); temp_dir := None;
         trace := trace s ++
                  [Show StatusSlot LInfo
                     ("Processing " +:+ operation_name (operation i) +:+ "...");
                   Emptied OutputPreviewSlot; Emptied DownloadSlot;
                   Show StatusSlot LError
                     ("An error occurred during processing: " +:+ exn_str e)] |}))
  ∧ (zip_valid i →
     ZipPage.run_block w i up s
     = (Ret tt,
        {| fs := fs s; session := zip_failed (session s); temp_dir := None;
           trace := trace s ++
                    [Show StatusSlot LInfo "Processing..."; Emptied DownloadSlot]
                    ++ (if Py.endswith ".zip" (Py.lower (output_filename_user i)) then []
                        else [Show PageBody LWarning
                                (ZipPage.renamed_text (output_filename_user i +:+ ".zip"))])
                    ++ [Show StatusSlot LError
                          ("An error occurred during ZIP processing: " +:+ exn_str e)] |})).
Proof.
  intros Hm. split; intros Hv.
  - unfold EncryptDecryptPage.run_block.
    unfold mbind, M_bind, bind, assign, emit, set_temp_dir; simpl.
    rewrite (enc_validate_ok i _ Hv).
    unfold try_finally, try_except, EncryptDecryptPage.process,
      EncryptDecryptPage.on_exception, EncryptDecryptPage.cleanup, mkdtemp.
    rewrite Hm. run_step. flatten_state. reflexivity.
  - unfold ZipPage.run_block.
    unfold mbind, M_bind, bind, assign, emit, set_temp_dir; simpl.
    rewrite (zip_validate_ok i _ Hv). rewrite zip_choose_spec. unfold zip_name.
    unfold try_finally, try_except, ZipPage.process, ZipPage.on_exception,
      ZipPage.cleanup, mkdtemp.
    rewrite Hm.
    destruct (Py.endswith ".zip" (Py.lower (output_filename_user i)));
      run_step; flatten_state; reflexivity.
Qed.

Lemma request_without_workspace_fails_cleanly_witness :
  w_mkdtemp Full.world = inl Full.no_space
  ∧ cipher_valid Sample.encrypt_notes
  ∧ EncryptDecryptPage.run_block Full.world Sample.encrypt_notes Sample.notes Sample.start
    = (Ret tt,
       {| fs := ∅; session := enc_failed initial_session; temp_dir := None;
          trace := [Show StatusSlot LInfo "Processing Encrypt...";
                    Emptied OutputPreviewSlot; Emptied DownloadSlot;
                    Show StatusSlot LError
                      "An error occurred during processing: [Errno 28] No space left on device: '/tmp/tmpk3v9'"] |}).
Proof.
  assert (cipher_valid Sample.encrypt_notes) as Hv.
  { split; [discriminate|]. split; [reflexivity|discriminate]. }
  split; [reflexivity|]. split; [exact Hv|].
  apply (proj1 (request_without_workspace_fails_cleanly Full.world Sample.encrypt_notes
                  Sample.notes Sample.start Full.no_space eq_refl)).
  exact Hv.
Defined.

(** ** A failed request and the file at the output path *)

Lemma run_openssl_command_failed w args pw s p f' :
  resolve w (openssl_command args pw) EncryptDecrypt.TIMEOUT (fs s) = Completed p f' →
  returncode p ≠ 0 →
  EncryptDecrypt.run_openssl_command w args pw s
  = (Ret (false, Py.strip (stdout p), Py.strip (stderr p)),
     {| fs := f'; session := session s; temp_dir := temp_dir s;
        trace := trace s ++
                 [SubprocessRun (openssl_command args pw) EncryptDecrypt.TIMEOUT;
                  Show PageBody LError
                    (EncryptDecrypt.openssl_error_text (returncode p) (stderr p))] |}).
Proof.
  intros Hr Hrc. apply Z.eqb_neq in Hrc.
  unfold EncryptDecrypt.run_openssl_command, subprocess_run.
  fold (openssl_command args pw). run_step. rewrite Hr. simpl. rewrite Hrc. simpl.
  flatten_state. reflexivity.
Qed.

Section FailedRequest.
Variable w : World.
Variable name : string.
Hypothesis mkdtemp_name : w_mkdtemp w = inr name.
Hypothesis name_plain : Os.no_slash name = true.
Hypothesis rmtree_works : w_rmtree w = None.

Let d := workspace_path name.


End FailedRequest.

